(** * LoSoTo [flagstation]: station flagging of calibration solutions

    A shallow embedding of [losoto/operations/flagstation.py]: the two
    per-station flaggers [_flag_resid] and [_flag_bandpass], the spline
    evaluator [_B] / [_bspline] they rest on, and the driver [run].

    NumPy's float64 is Rocq's primitive binary64 [float].  Arrays are
    total index functions together with their shape; a view
    ([weights[:, :, pol]]) is modelled by writing through to its base.
    The NumPy / SciPy routines the module calls (reductions, logarithm,
    complex exponential, the bounded least-squares fit) are the fields
    of one interface record, [numlib]; every general statement below
    holds for all of its implementations.

    Of a log message the text is not modelled, and neither are the
    percentages computed for it alone (lines 123-126, 447-458: the
    division is by the size of a slice that is then not empty); the
    station name [ants[s]] it is made of is looked up, as that can
    raise.  Not modelled: the plots and the pool of worker processes;
    NumPy is the one the module was written for ([np.product],
    [np.warnings]). *)

From Stdlib Require Import Floats ZArith List String Ascii Bool Arith Lia.
From Stdlib Require Import FunctionalExtensionality.
Import ListNotations.
Set Warnings "-inexact-float".

(** ** Python and NumPy vocabulary *)

Module Py.

(** The exceptions that can leave the code under study. *)
Inductive exn : Type :=
| SystemExit (code : Z)
| ZeroDivisionError
| IndexError
| AssertionError
| RuntimeError
| ValueError
| TypeError
| NameError.

Inductive result (A : Type) : Type :=
| Ok (a : A)
| Raise (e : exn).
Arguments Ok {A} a.
Arguments Raise {A} e.

Definition bind {A B : Type} (x : result A) (k : A -> result B) : result B :=
  match x with
  | Ok a => k a
  | Raise e => Raise e
  end.

(** [str.lower()] on byte strings. *)
Definition lower_ascii (c : ascii) : ascii :=
  let n := nat_of_ascii c in
  if ((65 <=? n) && (n <=? 90))%nat then ascii_of_nat (n + 32) else c.

Fixpoint lower (s : string) : string :=
  match s with
  | EmptyString => EmptyString
  | String c r => String (lower_ascii c) (lower r)
  end.

(** [x in xs] for a list of strings. *)
Definition str_in (x : string) (xs : list string) : bool :=
  existsb (String.eqb x) xs.

(** [float(n)] for a length or a size. *)
Definition py_float (n : nat) : float :=
  PrimFloat.of_uint63 (Uint63.of_Z (Z.of_nat n)).

(** The builtin [min(a, b)]: the first argument unless the second is
    smaller. *)
Definition py_min (a b : float) : float :=
  if (b <? a)%float then b else a.

(** Division of two Python floats. *)
Definition py_div (a b : float) : result float :=
  if (b =? 0)%float then Raise ZeroDivisionError else Ok (a / b)%float.

(** The builtin [sum] over a float array: left to right from [0]. *)
Definition py_sum (l : list float) : float :=
  fold_left PrimFloat.add l 0%float.

(** [w == 0.0] *)
Definition is_zero (w : float) : bool := (w =? 0)%float.

Definition map2 {A B C : Type} (f : A -> B -> C) (l : list A) (m : list B) : list C :=
  map (fun ab => f (fst ab) (snd ab)) (combine l m).

End Py.
Import Py.

Notation "x <- e ;; k" := (Py.bind e (fun x => k))
  (at level 100, e at next level, right associativity).

(** ** Arrays *)

(** A two-axis array [time, freq]. *)
Record array2 : Type := mk2 {
  dims2 : nat * nat;
  get2 : nat -> nat -> float
}.

(** A three-axis array [time, freq, pol]: one station's slice. *)
Record array3 : Type := mk3 {
  dims3 : nat * nat * nat;
  get3 : nat -> nat -> nat -> float
}.

Definition index2 : Type := (nat * nat)%type.

(** All indices of a shape, in row-major order. *)
Definition indices2 (d : nat * nat) : list index2 :=
  flat_map (fun t => map (pair t) (seq 0 (snd d))) (seq 0 (fst d)).

Definition index2_eqb (i j : index2) : bool :=
  ((fst i =? fst j) && (snd i =? snd j))%nat.

Definition mem2 (i : index2) (l : list index2) : bool :=
  existsb (index2_eqb i) l.

(** [np.where(cond)] over a two-axis array. *)
Definition np_where2 (cond : nat -> nat -> bool) (d : nat * nat) : list index2 :=
  filter (fun i => cond (fst i) (snd i)) (indices2 d).

(** [a.flatten()] *)
Definition flatten2 (a : array2) : list float :=
  map (fun i => get2 a (fst i) (snd i)) (indices2 (dims2 a)).

(** [np.all(cond(a))] *)
Definition np_all2 (cond : float -> bool) (a : array2) : bool :=
  forallb (fun i => cond (get2 a (fst i) (snd i))) (indices2 (dims2 a)).

Definition np_all3 (cond : float -> bool) (a : array3) : bool :=
  let '(nt, nf, npol) := dims3 a in
  forallb (fun i => forallb (fun p => cond (get3 a (fst i) (snd i) p)) (seq 0 npol))
          (indices2 (nt, nf)).

(** [a[idx] = v] for an index list produced by [np.where]. *)
Definition assign_at (idx : list index2) (v : float) (a : array2) : array2 :=
  mk2 (dims2 a) (fun t f => if mem2 (t, f) idx then v else get2 a t f).

Definition map_array2 (g : float -> float) (a : array2) : array2 :=
  mk2 (dims2 a) (fun t f => g (get2 a t f)).

(** [a[:, :, pol]] *)
Definition slice_pol (a : array3) (pol : nat) : array2 :=
  let '(nt, nf, _) := dims3 a in
  mk2 (nt, nf) (fun t f => get3 a t f pol).

(** [a[:, :, pol] = s] *)
Definition set_pol (a : array3) (pol : nat) (s : array2) : array3 :=
  mk3 (dims3 a) (fun t f p => if (p =? pol)%nat then get2 s t f else get3 a t f p).

(** [a[:, :, pol] = v] *)
Definition fill_pol (a : array3) (pol : nat) (v : float) : array3 :=
  mk3 (dims3 a) (fun t f p => if (p =? pol)%nat then v else get3 a t f p).

(** [a[:, fs, pol] = v] for a list of frequency indices. *)
Definition fill_freqs (a : array3) (fs : list nat) (pol : nat) (v : float) : array3 :=
  mk3 (dims3 a)
      (fun t f p => if ((p =? pol)%nat && existsb (Nat.eqb f) fs) then v else get3 a t f p).

(** ** The numerical library

    What the module takes from NumPy, SciPy and [losoto.lib_operations].
    The reductions receive the flattened operand. *)

Record numlib : Type := {
  np_log10 : float -> float;                          (* np.log10 *)
  np_power10 : float -> float;                        (* 10**x *)
  np_nansum : list float -> float;                    (* np.nansum *)
  np_average : list float -> list float -> result float;  (* np.average(a, weights=w) *)
  np_median : list float -> float;                    (* np.median *)
  np_nanmedian : list float -> float;                 (* np.nanmedian *)
  complex : Type;                                     (* complex128 *)
  np_exp_j : float -> complex;                        (* np.exp(1j*x) *)
  np_scale : float -> complex -> complex;             (* w * z *)
  np_nansum_c : list complex -> complex;              (* np.nansum, complex *)
  np_cdiv : complex -> float -> complex;              (* z / x *)
  np_angle : complex -> float;                        (* np.angle *)
  normalize_phase : float -> float;                   (* lib_operations.normalize_phase, per element *)
  curve_fit : (list float -> list float -> result (list float)) ->
              list float -> list float -> list float ->
              list float * list float -> result (list float)
            (* scipy.optimize.curve_fit(f, xdata, ydata, sigma=, bounds=, method='dogbox'):
               the best-fit parameters, or the exception it raises *)
}.

(** ** The sigma-clipping loop

    Both flaggers run the same [while] loop (lines 96-112 and 408-424);
    they differ in the round they perform on the current trial mask. *)

Section ClipLoop.

Context {M R : Type}.
Variable fit_and_flag : M -> result R.   (* one round: the statistics and [bad] *)
Variable nbad : R -> nat.                (* len(bad[0]) *)
Variable reset : R -> M.                 (* the original mask with [bad] applied *)
Variable nsols_unflagged : nat.

Record loop_state : Type := mkLoop {
  niter : nat;
  nflag : Z;
  nflag_prev : Z;
  trial : M;                   (* weights_copy / sigma_div *)
  last_round : option R;       (* bad, stdev_all as left by the last round *)
  history : list nat           (* nflag of every round performed, latest first *)
}.

Definition maxiter : nat := 5.

Definition loop_init (m : M) : loop_state :=
  mkLoop 0 0%Z (-1)%Z m None [].

(** [nflag != nflag_prev and niter < maxiter] *)
Definition loop_guard (st : loop_state) : bool :=
  negb (nflag st =? nflag_prev st)%Z && (niter st <? maxiter)%nat.

(** [None]: the fuel ran out before the loop ended. *)
Fixpoint clip_loop (fuel : nat) (st : loop_state) : option (result loop_state) :=
  if loop_guard st then
    match fuel with
    | O => None
    | S fuel' =>
        match fit_and_flag (trial st) with
        | Raise e => Some (Raise e)
        | Ok r =>
            let n := nbad r in
            if ((n =? 0) || (n =? nsols_unflagged))%nat then
              (* break *)
              Some (Ok (mkLoop (niter st) (Z.of_nat n) (nflag_prev st) (trial st)
                               (Some r) (n :: history st)))
            else
              let prev := if (0 <? niter st)%nat then Z.of_nat n else nflag_prev st in
              clip_loop fuel' (mkLoop (S (niter st)) (Z.of_nat n) prev (reset r)
                                      (Some r) (n :: history st))
        end
    end
  else Some (Ok st).

(** The number of rounds a finished loop went through. *)
Definition rounds (st : loop_state) : nat := List.length (history st).

End ClipLoop.

Arguments loop_state : clear implicits.

(** A loop that ran out of fuel is reported as this exception; the
    loop never does when given [S maxiter] rounds of fuel (lemma
    [clip_loop_total]). *)
Definition out_of_fuel : exn := RuntimeError.

Definition run_clip_loop {M R : Type} (fit_and_flag : M -> result R) (nbad : R -> nat)
    (reset : R -> M) (nsols_unflagged : nat) (m : M) : result (loop_state M R) :=
  match clip_loop fit_and_flag nbad reset nsols_unflagged (S maxiter) (loop_init m) with
  | Some r => r
  | None => Raise out_of_fuel
  end.

(** ** One-axis arrays (the frequency axis) *)

(** [t[i]] *)
Definition getitem (t : list float) (i : nat) : result float :=
  match nth_error t i with
  | Some x => Ok x
  | None => Raise IndexError
  end.

(** [np.where(cond(a))[0]] *)
Definition where1 (cond : float -> bool) (a : list float) : list nat :=
  map fst (filter (fun ix => cond (snd ix)) (combine (seq 0 (List.length a)) a)).

(** [a[idx] = v] *)
Definition assign1 (idx : list nat) (v : float) (a : list float) : list float :=
  map (fun ix => if existsb (Nat.eqb (fst ix)) idx then v else snd ix)
      (combine (seq 0 (List.length a)) a).

(** An element-wise operation on two one-axis arrays; NumPy raises
    ValueError when their shapes differ (the stretching of a
    length-one operand is not modelled: the frequency grid has one
    entry per channel). *)
Definition zip_with (g : float -> float -> float) (a b : list float) : result (list float) :=
  if (List.length a =? List.length b)%nat then Ok (map2 g a b) else Raise ValueError.

(** [g(a, axis=0)]: a reduction over time, one value per frequency. *)
Definition reduce_axis0 (g : list float -> float) (a : array2) : list float :=
  map (fun f => g (map (fun t => get2 a t f) (seq 0 (fst (dims2 a))))) (seq 0 (snd (dims2 a))).

(** ** The spline basis evaluator (lines 179-209) *)

Fixpoint _B (x : float) (k i : nat) (t : list float) (extrap invert : bool) : result float :=
  match k with
  | O =>
      if extrap then
        if invert then Ok (-1)%float else Ok 1%float
      else
        ti <- getitem t i ;;
        if (ti <=? x)%float then
          ti1 <- getitem t (i + 1) ;;
          Ok (if (x <? ti1)%float then 1%float else 0%float)
        else Ok 0%float
  | S k' =>
      tik <- getitem t (i + k) ;;
      ti <- getitem t i ;;
      c1 <- (if (tik =? ti)%float then Ok 0%float
             else b <- _B x k' i t extrap invert ;;
                  Ok ((x - ti) / (tik - ti) * b)%float) ;;
      tik1 <- getitem t (i + k + 1) ;;
      ti1 <- getitem t (i + 1) ;;
      c2 <- (if (tik1 =? ti1)%float then Ok 0%float
             else b <- _B x k' (i + 1) t extrap invert ;;
                  Ok ((tik1 - x) / (tik1 - ti1) * b)%float) ;;
      Ok (c1 + c2)%float
  end.

(** [extrap[-1] = True] and [extrap[0] = True] *)
Definition set_last (l : list bool) : list bool :=
  match rev l with
  | [] => []
  | _ :: r => rev (true :: r)
  end.

Definition set_first (l : list bool) : list bool :=
  match l with
  | [] => []
  | _ :: r => true :: r
  end.

(** Lines 202-208: the flags [_bspline] hands to [_B], as
    [(extrap, invert)], for [n] basis functions. *)
Definition bspline_flags (x : float) (t : list float) (k n : nat) : result (list bool * bool) :=
  let invert := false in
  let extrap := repeat false n in
  tn <- getitem t n ;;
  if (tn <=? x)%float then Ok (set_last extrap, invert)
  else
    tk <- getitem t k ;;
    if (x <? tk)%float then Ok (set_first extrap, false)
    else Ok (extrap, invert).

(** The builtin [sum] over the generator of line 209. *)
Fixpoint sum_basis (x : float) (t c : list float) (k : nat) (invert : bool)
    (terms : list (nat * bool)) (acc : float) : result float :=
  match terms with
  | [] => Ok acc
  | (i, e) :: rest =>
      ci <- getitem c i ;;
      b <- _B x k i t e invert ;;
      sum_basis x t c k invert rest (acc + ci * b)%float
  end.

Definition _bspline (x : float) (t c : list float) (k : nat) : result float :=
  let n := (Z.of_nat (List.length t) - Z.of_nat k - 1)%Z in
  if ((Z.of_nat k + 1 <=? n)%Z && (n <=? Z.of_nat (List.length c))%Z) then
    let n := Z.to_nat n in
    fl <- bspline_flags x t k n ;;
    sum_basis x t c k (snd fl) (combine (seq 0 n) (fst fl)) 0%float
  else Raise AssertionError.

(** [[_bspline(f, knots, coeffs, 3) for f in freq]] *)
Fixpoint bspline_curve (knots coeffs : list float) (freq : list float) : result (list float) :=
  match freq with
  | [] => Ok []
  | f :: rest =>
      y <- _bspline f knots coeffs 3 ;;
      ys <- bspline_curve knots coeffs rest ;;
      Ok (y :: ys)
  end.

(** Calling a function of [1 + ncoeffs] positional arguments with an
    unpacked coefficient vector. *)
Definition with_coeffs (ncoeffs : nat) (coeffs : list float)
    (body : result (list float)) : result (list float) :=
  if (List.length coeffs =? ncoeffs)%nat then body else Raise TypeError.

Definition knots_LBA : list float :=
  [30003357.0; 30003357.0; 30003357.0; 30003357.0; 40000000.0;
   50000000.0; 55000000.0; 56000000.0; 60000000.0; 62000000.0;
   63000000.0; 64000000.0; 70000000.0; 77610779.0; 77610779.0;
   77610779.0; 77610779.0]%float.

Definition _bandpass_LBA (freq : list float) (coeffs : list float) : result (list float) :=
  with_coeffs 13 coeffs (bspline_curve knots_LBA coeffs freq).

Definition knots_HBA_low : list float :=
  [1.15e+08; 1.15e+08; 1.15e+08; 1.15e+08;
   1.30e+08; 1.38e+08; 1.48e+08; 1.60e+08;
   1.68e+08; 1.78e+08; 1.90e+08; 1.90e+08;
   1.9e+08; 1.9e+08]%float.

Definition _bandpass_HBA_low (freq : list float) (coeffs : list float) : result (list float) :=
  with_coeffs 10 coeffs (bspline_curve knots_HBA_low coeffs freq).

(** The per-band constants of [_fit_bandpass] (lines 305-321). *)
Record band_model : Type := mkBand {
  bandpass_function : list float -> list float -> result (list float);
  init_coeffs : list float;
  bounds_deltas_lower : list float;
  bounds_deltas_upper : list float
}.

Definition band_hba_low : band_model :=
  mkBand _bandpass_HBA_low
    [-0.01460369; 0.05062699; 0.02827004; 0.03738518;
     -0.05729109; 0.02303295; -0.03550487; -0.0803113;
     -0.2394929; -0.358301]%float
    [0.06; 0.05; 0.04; 0.04; 0.04; 0.04; 0.1; 0.1; 0.2; 0.5]%float
    [0.06; 0.1; 0.1; 0.1; 0.04; 0.04; 0.04; 0.04; 0.05; 0.06]%float.

Definition band_lba : band_model :=
  mkBand _bandpass_LBA
    [-0.22654016; -0.1950495; -0.07763014; 0.10002095;
     0.32797671; 0.46900048; 0.47155583; 0.31945897;
     0.29072278; 0.08064795; -0.15761538; -0.36020451;
     -0.51163338]%float
    [0.25; 0.2; 0.05; 0.05; 0.05; 0.05; 0.08; 0.05; 0.08; 0.15;
     0.15; 0.15; 0.15]%float
    [0.25; 0.2; 0.05; 0.05; 0.05; 0.05; 0.08; 0.05; 0.08; 0.15;
     0.15; 0.15; 0.15]%float.

(** Lines 305-324: the band by name, or [sys.exit(1)]. *)
Definition select_band (band : string) : result band_model :=
  if (lower band =? "hba_low")%string then Ok band_hba_low
  else if (lower band =? "lba")%string then Ok band_lba
  else Raise (SystemExit 1).

(** ** What a task leaves behind *)

(** The output queue of the task runner: [(station index, weights)]. *)
Definition queue : Type := list (nat * array3).

Record task_end : Type := mkEnd {
  t_result : result (option Z);   (* the return value ([None] or [1]) or the exception *)
  t_vals : array3;                (* the value slice as the task left it *)
  t_weights : array3;             (* the weight slice as the task left it *)
  t_queue : queue                 (* outQueue *)
}.

(** [for pol in range(npols)] over a body that mutates the two arrays
    and may raise. *)
Fixpoint for_pols (body : nat -> array3 * array3 -> result unit * (array3 * array3))
    (pols : list nat) (st : array3 * array3) : result unit * (array3 * array3) :=
  match pols with
  | [] => (Ok tt, st)
  | pol :: rest =>
      match body pol st with
      | (Ok _, st') => for_pols body rest st'
      | (Raise e, st') => (Raise e, st')
      end
  end.

(** [ants[s]], the station name a log message is made of. *)
Definition station_name (ants : list string) (s : nat) : result string :=
  match nth_error ants s with
  | Some a => Ok a
  | None => Raise IndexError
  end.

(** A log message with [ants[s]] in it, made while the weights are
    [before]; [after] is what the statements that follow it leave.
    When the lookup raises, the task ends with the weights [before]. *)
Definition logged (ants : list string) (s : nat) (before after : array3)
    : result unit * array3 :=
  match station_name ants s with
  | Ok _ => (Ok tt, after)
  | Raise e => (Raise e, before)
  end.

Section Flaggers.

Variable np : numlib.

(** *** [_flag_resid] (lines 22-129) *)

(** Lines 84-87: the mean of one polarization. *)
Definition resid_mean (soltype : string) (weights_orig vals_pol : array2) : float :=
  let w := flatten2 weights_orig in
  let v := flatten2 vals_pol in
  let denom := (py_float (List.length v) * py_sum w)%float in
  if (soltype =? "phase")%string then
    np_angle np
      (np_cdiv np
         (np_nansum_c np (map2 (fun wi vi => np_scale np wi (np_exp_j np vi)) w v))
         denom)
  else (np_nansum np (map2 PrimFloat.mul w v) / denom)%float.

Record resid_round_out : Type := mkRound {
  rr_stdev_all : float;
  rr_bad : list index2
}.

(** Lines 102-104: one round of the loop. *)
Definition resid_round (nSigma maxStddev : float) (vals_flagged weights_copy : array2)
    : result resid_round_out :=
  a <- np_average np (map (fun x => x * x)%float (flatten2 vals_flagged))
                     (flatten2 weights_copy) ;;
  let stdev_all := PrimFloat.sqrt a in
  let stdev := py_min maxStddev stdev_all in
  let bad := np_where2 (fun t f => (nSigma * stdev <? PrimFloat.abs (get2 vals_flagged t f))%float)
                       (dims2 vals_flagged) in
  Ok (mkRound stdev_all bad).

(** Lines 66-92: the flags, the logarithm, the mean and the residuals
    of one polarization.  Returns [None] when the polarization is
    fully flagged ([continue]), else the arrays as mutated so far with
    [weights_orig], [vals_flagged] and [nsols_unflagged]. *)
Definition resid_prepare (soltype : string) (pol : nat) (vals weights : array3)
    : array3 * array3 * option (array2 * array2 * nat * float) :=
  let vals_pol := slice_pol vals pol in
  let bad_sols :=
    if (soltype =? "phase")%string then
      np_where2 (fun t f => PrimFloat.is_nan (get2 vals_pol t f)) (dims2 vals_pol)
    else
      np_where2 (fun t f => PrimFloat.is_nan (get2 vals_pol t f)
                            || (get2 vals_pol t f <=? 0)%float) (dims2 vals_pol) in
  (* weights_orig is a view: the assignment reaches weights *)
  let weights := set_pol weights pol (assign_at bad_sols 0%float (slice_pol weights pol)) in
  let weights_orig := slice_pol weights pol in
  if np_all2 is_zero weights_orig then (vals, weights, None)
  else
    let flagged := np_where2 (fun t f => is_zero (get2 weights_orig t f)) (dims2 weights_orig) in
    let unflagged :=
      np_where2 (fun t f => negb (is_zero (get2 weights_orig t f))) (dims2 weights_orig) in
    let vals :=
      if (soltype =? "amplitude")%string
      then set_pol vals pol (map_array2 (np_log10 np) (slice_pol vals pol))
      else vals in
    let mean := resid_mean soltype weights_orig (slice_pol vals pol) in
    let vals_flagged := slice_pol vals pol in
    let vals_flagged :=
      if (soltype =? "phase")%string
      then map_array2 (fun x => normalize_phase np (x - mean)%float) vals_flagged
      else vals_flagged in
    let vals_flagged := assign_at flagged 0%float vals_flagged in
    (* outside phase mode vals_flagged is a view of vals *)
    let vals :=
      if (soltype =? "phase")%string then vals else set_pol vals pol vals_flagged in
    let nsols_unflagged := List.length unflagged in
    (vals, weights, Some (weights_orig, vals_flagged, nsols_unflagged, mean)).

(** Lines 94-112: the loop of one polarization. *)
Definition resid_loop (nSigma maxStddev : float) (weights_orig vals_flagged : array2)
    (nsols_unflagged : nat) : result (loop_state array2 resid_round_out) :=
  run_clip_loop (resid_round nSigma maxStddev vals_flagged)
                (fun r => List.length (rr_bad r))
                (fun r => assign_at (rr_bad r) 0%float weights_orig)
                nsols_unflagged weights_orig.

(** Lines 114-127: commit the mask or flag the whole polarization.
    The status, and the weights as left: the message of lines 118-119
    is made before line 120 zeroes the polarization, that of line 127
    after line 125 has written the mask. *)
Definition resid_commit (maxFlaggedFraction : float) (ants : list string) (s : nat)
    (pol : nat) (weights : array3) (nsols_unflagged : nat)
    (st : loop_state array2 resid_round_out) : result unit * array3 :=
  match last_round st with
  | None => (Raise NameError, weights)
  | Some r =>
      match py_div (py_float (List.length (rr_bad r))) (py_float nsols_unflagged) with
      | Raise e => (Raise e, weights)
      | Ok frac =>
          if (maxFlaggedFraction <? frac)%float
          then logged ants s weights (fill_pol weights pol 0%float)
          else
            let weights := set_pol weights pol (trial st) in
            logged ants s weights weights
      end
  end.

(** The body of [for pol in range(npols)]. *)
Definition resid_pol (soltype : string) (nSigma maxFlaggedFraction maxStddev : float)
    (ants : list string) (s : nat) (pol : nat) (st : array3 * array3)
    : result unit * (array3 * array3) :=
  match resid_prepare soltype pol (fst st) (snd st) with
  | (vals, weights, None) => (Ok tt, (vals, weights))
  | (vals, weights, Some (weights_orig, vals_flagged, nsols_unflagged, _)) =>
      match resid_loop nSigma maxStddev weights_orig vals_flagged nsols_unflagged with
      | Raise e => (Raise e, (vals, weights))
      | Ok stf =>
          let c := resid_commit maxFlaggedFraction ants s pol weights nsols_unflagged stf in
          (fst c, (vals, snd c))
      end
  end.

Definition _flag_resid (vals weights : array3) (soltype : string)
    (nSigma maxFlaggedFraction maxStddev : float) (ants : list string) (s : nat)
    (outQueue : queue) : task_end :=
  if np_all3 is_zero weights then
    (* Skip fully flagged stations *)
    mkEnd (Ok None) vals weights (outQueue ++ [(s, weights)])
  else
    let npols := snd (dims3 vals) in
    match for_pols (resid_pol soltype nSigma maxFlaggedFraction maxStddev ants s)
                   (seq 0 npols) (vals, weights) with
    | (Ok _, (vals', weights')) =>
        mkEnd (Ok None) vals' weights' (outQueue ++ [(s, weights')])
    | (Raise e, (vals', weights')) => mkEnd (Raise e) vals' weights' outQueue
    end.

(** *** [_fit_bandpass] (lines 271-338) *)

Definition _fit_bandpass (freq logamp sigma : list float) (band : string) (do_fit : bool)
    : result (option (list float) * list float) :=
  m <- select_band band ;;
  let unfit :=
    bp <- bandpass_function m freq (init_coeffs m) ;;
    Ok (None, bp) in
  if do_fit then
    let lower := map2 PrimFloat.sub (init_coeffs m) (bounds_deltas_lower m) in
    let upper := map2 PrimFloat.add (init_coeffs m) (bounds_deltas_upper m) in
    let param_bounds := (lower, upper) in
    match (popt <- curve_fit np (bandpass_function m) freq logamp sigma param_bounds ;;
           bp <- bandpass_function m freq popt ;;
           Ok (Some popt, bp)) with
    | Raise RuntimeError => unfit          (* except RuntimeError *)
    | r => r
    end
  else unfit.

(** *** [_flag_bandpass] (lines 132-461) *)

(** Lines 341-358: the telescope and the band of the median frequency.
    [inl]: telescope not supported. *)
Definition bandpass_band (freqs : list float) (telescope : string)
    : unit + result (string * float * float) :=
  if (lower telescope =? "lofar")%string then
    let med := np_median np freqs in
    if ((med <? 180e6) && (110e6 <? med))%float then inr (Ok ("hba_low"%string, 50.0, 200.0)%float)
    else if (med <? 90e6)%float then inr (Ok ("lba"%string, 50.0, 200.0)%float)
    else inr (Raise (SystemExit 1))
  else inl tt.

(** Lines 366-372: [amps_flagged] and [sigma] of the whole slice. *)
Definition bandpass_flagged (amps weights : array3) (t f p : nat) : bool :=
  is_zero (get3 weights t f p) || PrimFloat.is_nan (get3 amps t f p).

Definition bandpass_amps_flagged (amps weights : array3) : array3 :=
  mk3 (dims3 amps)
      (fun t f p => if bandpass_flagged amps weights t f p then nan else get3 amps t f p).

Definition bandpass_sigma (amps weights : array3) : array3 :=
  mk3 (dims3 weights)
      (fun t f p => if bandpass_flagged amps weights t f p then 1e8%float
                    else PrimFloat.sqrt (1.0 / get3 weights t f p)%float).

Record bandpass_round_out : Type := mkBRound {
  br_p : option (list float);
  br_bp_sp : list float;
  br_stdev_all : float;
  br_bad : list nat
}.

(** Lines 413-416: one round of the loop. *)
Definition bandpass_round (freqs : list float) (band : string) (nSigma maxStddev : float)
    (amps_div sigma_div : list float) : result bandpass_round_out :=
  let logamp := map (np_log10 np) amps_div in
  fit <- _fit_bandpass freqs logamp sigma_div band true ;;
  let bp_sp := snd fit in
  resid <- zip_with PrimFloat.sub bp_sp logamp ;;
  a <- np_average np (map (fun x => x * x)%float resid)
                     (map (fun sg => (1 / sg) * (1 / sg))%float sigma_div) ;;
  let stdev_all := PrimFloat.sqrt a in
  let stdev := py_min maxStddev stdev_all in
  let bad := where1 (fun r => (nSigma * stdev <? PrimFloat.abs r)%float) resid in
  Ok (mkBRound (fst fit) bp_sp stdev_all bad).

(** Lines 381-405: the time median, its normalisation and the flags
    set before the first fit.  Returns [amps_div], [sigma_div],
    [sigma_orig] and [nsols_unflagged]. *)
Definition bandpass_prepare (freqs : list float) (band : string) (amps_flagged sigma : array3)
    (pol : nat) : result (list float * list float * list float * nat) :=
  let amps_div := reduce_axis0 (np_nanmedian np) (slice_pol amps_flagged pol) in
  let median_val := np_nanmedian np amps_div in
  let amps_div := map (fun a => a / median_val)%float amps_div in
  let sigma_div := reduce_axis0 (np_median np) (slice_pol sigma pol) in
  let sigma_orig := sigma_div in
  let unflagged := where1 (fun a => negb (PrimFloat.is_nan a)) amps_div in
  let nsols_unflagged := List.length unflagged in
  let median_flagged := where1 PrimFloat.is_nan amps_div in
  let amps_div := assign1 median_flagged 1.0%float amps_div in
  let sigma_div := assign1 median_flagged 1e8%float sigma_div in
  let median_flagged := where1 (fun a => (a <=? 0)%float) amps_div in
  let amps_div := assign1 median_flagged 1.0%float amps_div in
  let sigma_div := assign1 median_flagged 1e8%float sigma_div in
  fit <- _fit_bandpass freqs (map (np_log10 np) amps_div) sigma_div band false ;;
  let bp_sp := snd fit in
  offs <- zip_with PrimFloat.sub (map (np_log10 np) amps_div) bp_sp ;;
  let normval := np_median np offs in
  let amps_div := map (fun a => a / np_power10 np normval)%float amps_div in
  dev <- zip_with PrimFloat.sub bp_sp (map (np_log10 np) amps_div) ;;
  let bad := where1 (fun d => (0.2 <? PrimFloat.abs d)%float) dev in
  let sigma_div := assign1 bad 1e8%float sigma_div in
  Ok (amps_div, sigma_div, sigma_orig, nsols_unflagged).

(** Lines 407-424: the loop of one polarization. *)
Definition bandpass_loop (freqs : list float) (band : string) (nSigma maxStddev : float)
    (amps_div sigma_div sigma_orig : list float) (nsols_unflagged : nat)
    : result (loop_state (list float) bandpass_round_out) :=
  run_clip_loop (bandpass_round freqs band nSigma maxStddev amps_div)
                (fun r => List.length (br_bad r))
                (fun r => assign1 (br_bad r) 1e8%float sigma_orig)
                nsols_unflagged sigma_div.

(** [amps[np.where(weights[:, :, pol] > 0.0)]], flattened. *)
Definition amps_where_positive (amps weights : array3) (pol : nat) : list float :=
  let wpol := slice_pol weights pol in
  flat_map (fun i => map (fun p => get3 amps (fst i) (snd i) p) (seq 0 (snd (dims3 amps))))
           (np_where2 (fun t f => (0 <? get2 wpol t f)%float) (dims2 wpol)).

(** Lines 433-459: the three gates.  The status, and the weights as
    left: each message is made before the polarization is zeroed
    (lines 437-439, 442-444, 453-455), and those of lines 453 and 459
    after line 448 has flagged the channels. *)
Definition bandpass_commit (amps : array3) (nSigma maxFlaggedFraction maxStddev : float)
    (median_min median_max : float) (ants : list string) (s : nat) (pol : nat)
    (weights : array3) (nsols_unflagged : nat)
    (st : loop_state (list float) bandpass_round_out) : result unit * array3 :=
  match last_round st with
  | None => (Raise NameError, weights)
  | Some r =>
      if (nSigma * maxStddev <? br_stdev_all r)%float
      then logged ants s weights (fill_pol weights pol 0%float)
      else
        match py_div (py_float (List.length (br_bad r))) (py_float nsols_unflagged) with
        | Raise e => (Raise e, weights)
        | Ok frac =>
            if (maxFlaggedFraction <? frac)%float
            then logged ants s weights (fill_pol weights pol 0%float)
            else
              let sigma_div := trial st in
              let flagged := where1 (fun sg => (1e3 <? sg)%float) sigma_div in
              let weights := fill_freqs weights flagged pol 0%float in
              let median_val := np_nanmedian np (amps_where_positive amps weights pol) in
              if ((median_val <? median_min) || (median_max <? median_val))%float
              then logged ants s weights (fill_pol weights pol 0%float)
              else logged ants s weights weights
        end
  end.

(** The body of [for pol in range(npols)] (lines 377-459); [amps] is
    only read. *)
Definition bandpass_pol (freqs : list float) (amps amps_flagged sigma : array3) (band : string)
    (nSigma maxFlaggedFraction maxStddev median_min median_max : float)
    (ants : list string) (s : nat) (pol : nat) (st : array3 * array3)
    : result unit * (array3 * array3) :=
  let weights := snd st in
  if np_all2 is_zero (slice_pol weights pol) then (Ok tt, st)
  else
    match bandpass_prepare freqs band amps_flagged sigma pol with
    | Raise e => (Raise e, st)
    | Ok (amps_div, sigma_div, sigma_orig, nsols_unflagged) =>
        match bandpass_loop freqs band nSigma maxStddev amps_div sigma_div sigma_orig
                            nsols_unflagged with
        | Raise e => (Raise e, st)
        | Ok stf =>
            let c := bandpass_commit amps nSigma maxFlaggedFraction maxStddev median_min
                                     median_max ants s pol weights nsols_unflagged stf in
            (fst c, (fst st, snd c))
        end
    end.

Definition _flag_bandpass (freqs : list float) (amps weights : array3) (telescope : string)
    (nSigma maxFlaggedFraction maxStddev : float) (plot : bool) (ants : list string) (s : nat)
    (outQueue : queue) : task_end :=
  match bandpass_band freqs telescope with
  | inl _ =>
      (* telescope not supported: logging.error, put, return 1 *)
      mkEnd (Ok (Some 1%Z)) amps weights (outQueue ++ [(s, weights)])
  | inr (Raise e) => mkEnd (Raise e) amps weights outQueue
  | inr (Ok (band, median_min, median_max)) =>
      if np_all3 is_zero weights then
        (* Skip fully flagged stations *)
        mkEnd (Ok None) amps weights (outQueue ++ [(s, weights)])
      else
        let amps_flagged := bandpass_amps_flagged amps weights in
        let sigma := bandpass_sigma amps weights in
        let npols := snd (dims3 amps) in
        match for_pols (bandpass_pol freqs amps amps_flagged sigma band nSigma
                                     maxFlaggedFraction maxStddev median_min median_max
                                     ants s)
                       (seq 0 npols) (amps, weights) with
        | (Ok _, (amps', weights')) =>
            mkEnd (Ok None) amps' weights' (outQueue ++ [(s, weights')])
        | (Raise e, (amps', weights')) => mkEnd (Raise e) amps' weights' outQueue
        end
  end.

End Flaggers.

(** ** The driver [run] (lines 464-606)

    The solution table and the task runner are not part of the module.
    An array of the table is held in five index positions, in the order
    in which the table stores its axes; a table of four axes ignores
    the last position. *)

Record array5 : Type := mk5 {
  dims5 : nat * nat * nat * nat * nat;
  get5 : nat -> nat -> nat -> nat -> nat -> float
}.

(** [a.shape[k]] *)
Definition dim5 (a : array5) (k : nat) : nat :=
  let '(n0, n1, n2, n3, n4) := dims5 a in
  match k with
  | 0 => n0
  | 1 => n1
  | 2 => n2
  | 3 => n3
  | _ => n4
  end.

(** [names.index(name)] for a name of the list. *)
Fixpoint index (name : string) (names : list string) : nat :=
  match names with
  | [] => 0
  | x :: rest => if (x =? name)%string then 0 else S (index name rest)
  end.

(** The place of axis [m] among [axes]. *)
Fixpoint position (m : nat) (axes : list nat) : nat :=
  match axes with
  | [] => 0
  | x :: rest => if (x =? m)%nat then 0 else S (position m rest)
  end.

(** [axes], with the unused fifth position of a four-axis array left
    in its place. *)
Definition five_axes (axes : list nat) : list nat :=
  axes ++ seq (List.length axes) (5 - List.length axes).

(** What [a.transpose(axes)] holds: axis [k] of the result is axis
    [axes[k]] of [a], so the entry at [i] is the entry of [a] at the
    index [j] with [j[axes[k]] = i[k]]. *)
Definition transposed (axes : list nat) (a : array5) : array5 :=
  let axes := five_axes axes in
  let ax (k : nat) := nth k axes 0 in
  let at_axis (i : list nat) (m : nat) := nth (position m axes) i 0 in
  mk5 (dim5 a (ax 0), dim5 a (ax 1), dim5 a (ax 2), dim5 a (ax 3), dim5 a (ax 4))
      (fun i0 i1 i2 i3 i4 =>
         let i := [i0; i1; i2; i3; i4] in
         get5 a (at_axis i 0) (at_axis i 1) (at_axis i 2) (at_axis i 3) (at_axis i 4)).

(** [a.transpose(axes)] for an array of [ndim] axes: NumPy raises
    ValueError unless [axes] is a permutation of [range(ndim)]. *)
Definition transpose (ndim : nat) (axes : list nat) (a : array5) : result array5 :=
  if (List.length axes =? ndim)%nat && forallb (fun k => existsb (Nat.eqb k) axes) (seq 0 ndim)
  then Ok (transposed axes a)
  else Raise ValueError.

(** [a[:, s, :, :, d]] (and [a[:, s, :, :]] of a four-axis table, with [d = 0]) *)
Definition slice_station (a : array5) (s d : nat) : array3 :=
  let '(nt, _, nf, npol, _) := dims5 a in
  mk3 (nt, nf, npol) (fun t f p => get5 a t s f p d).

(** [a[:, s, :, :, d] = w] *)
Definition put_station (a : array5) (s d : nat) (w : array3) : array5 :=
  mk5 (dims5 a)
      (fun t s' f p d' => if ((s' =? s) && (d' =? d))%nat then get3 w t f p
                          else get5 a t s' f p d').

(** [weights[np.where(np.isnan(vals))] = 0.0] (lines 525-526) *)
Definition flag_nans (vals weights : array5) : array5 :=
  mk5 (dims5 weights)
      (fun t s f p d => if PrimFloat.is_nan (get5 vals t s f p d) then 0%float
                        else get5 weights t s f p d).

Inductive history_entry : Type :=
| HistBandpass (telescope : string) (maxFlaggedFraction nSigma : float)
| HistResid (maxFlaggedFraction nSigma : float).

(** Modelled from the spec: the solution table ("axis-indexed
    N-dimensional solution/weight tables, selection, history logging"),
    of which [run] uses the axis names, the solution type, the station,
    frequency and direction lists, the values, the weights and the
    history.  The two arrays have one axis per axis name, in the order
    of the names. *)
Record Soltab : Type := mkSoltab {
  st_axes : list string;        (* getAxesNames() *)
  st_type : string;             (* getType() *)
  st_ant : list string;
  st_freq : list float;
  st_dir : list string;
  st_val : array5;
  st_weight : array5;
  st_history : list history_entry
}.

(** Modelled from the spec: [soltab.setValues(a, weight=True)] with no
    selection set replaces the weights of the table by an array of
    their shape ("updated weight array, same shape as input"); an array
    of another shape is taken to be refused. *)
Definition setValues_weight (soltab : Soltab) (a : array5) : result Soltab :=
  let '(n0, n1, n2, n3, n4) := dims5 (st_weight soltab) in
  if ((dim5 a 0 =? n0) && (dim5 a 1 =? n1) && (dim5 a 2 =? n2) && (dim5 a 3 =? n3)
      && (dim5 a 4 =? n4))%nat
  then Ok (mkSoltab (st_axes soltab) (st_type soltab) (st_ant soltab) (st_freq soltab)
                    (st_dir soltab) (st_val soltab) a (st_history soltab))
  else Raise ValueError.

(** [soltab.addHistory(...)] *)
Definition addHistory (soltab : Soltab) (h : history_entry) : Soltab :=
  mkSoltab (st_axes soltab) (st_type soltab) (st_ant soltab) (st_freq soltab)
           (st_dir soltab) (st_val soltab) (st_weight soltab) (st_history soltab ++ [h]).

(** What a slice handed to a task is: three axes [time, freq, pol], or,
    when bandpass mode meets a table with a direction axis, the four
    axes of [a[:, s, :, :]]. *)
Inductive station_slice : Type :=
| Slice3 (a : array3)
| Slice4 (a : array5) (s : nat).

(** [np.all(w == 0.0)] *)
Definition slice_all_zero (w : station_slice) : bool :=
  match w with
  | Slice3 a => np_all3 is_zero a
  | Slice4 a s =>
      let '(nt, _, nf, npol, ndir) := dims5 a in
      forallb (fun i =>
                 forallb (fun p =>
                            forallb (fun d => is_zero (get5 a (fst i) s (snd i) p d))
                                    (seq 0 ndir))
                         (seq 0 npol))
              (indices2 (nt, nf))
  end.

(** The argument tuples given to [mpm.put]. *)
Inductive task : Type :=
| BandpassTask (freqs : list float) (amps weights : station_slice) (telescope : string)
               (nSigma maxFlaggedFraction maxStddev : float) (plot : bool)
               (ants : list string) (s : nat)
| ResidTask (vals weights : array3) (soltype : string)
            (nSigma maxFlaggedFraction maxStddev : float) (ants : list string) (s : nat).

Definition task_maxStddev (a : task) : float :=
  match a with
  | BandpassTask _ _ _ _ _ _ m _ _ _ => m
  | ResidTask _ _ _ _ _ m _ _ => m
  end.

(** The output queue of the runner: [(station index, weights)]. *)
Definition run_queue : Type := list (nat * station_slice).

(** What a task on three-axis slices has put. *)
Definition slices3 (q : queue) : run_queue :=
  map (fun sw => (fst sw, Slice3 (snd sw))) q.

Record run_end : Type := mkRun {
  r_status : result Z;          (* the return value of [run], or the exception *)
  r_soltab : Soltab;            (* the table as [run] left it *)
  r_submitted : list task       (* every [mpm.put], in order *)
}.

(** Lines 512-522: the axes given to the transposes. *)
Definition run_axes (axis_names : list string) : list nat :=
  let freq_ind := index "freq" axis_names in
  let pol_ind := index "pol" axis_names in
  let time_ind := index "time" axis_names in
  let ant_ind := index "ant" axis_names in
  if str_in "dir" axis_names
  then [time_ind; ant_ind; freq_ind; pol_ind; index "dir" axis_names]
  else [time_ind; ant_ind; freq_ind; pol_ind].

(** The flag export of lines 584-604 works on a table of the solution
    set, which may be the table of the run itself.  It is a parameter
    of [run] here: given the name, the table and [weights_arraytmp],
    the status and the table as the export leaves it. *)
Definition flag_export : Type := string -> Soltab -> array5 -> result unit * Soltab.

(** Lines 366-459 of [_flag_bandpass] on slices of four axes
    [time, freq, pol, dir]: NumPy's and SciPy's shape rules decide what
    happens there, and the embedding of the flagger does not cover it.
    It is a parameter of [run] here: given the frequencies, the two
    slices, the band with its two limits, the three thresholds, the
    station list and the station index, the status and the weight slice
    as left. *)
Definition directions_flagger : Type :=
  list float -> station_slice -> station_slice -> string * float * float ->
  float -> float -> float -> list string -> nat -> result unit * station_slice.

Section Run.

Variable np : numlib.
Variable transfer_flags : flag_export.
Variable bandpass_on_directions : directions_flagger.

(** One task as the runner calls it, with its output queue.  On slices
    of four axes a bandpass task goes through the checks of lines
    341-363 as on any other. *)
Definition run_task (a : task) (outQueue : run_queue) : result (option Z) * run_queue :=
  match a with
  | BandpassTask freqs (Slice3 amps) (Slice3 weights) telescope nSigma mff msd plot ants s =>
      let e := _flag_bandpass np freqs amps weights telescope nSigma mff msd plot ants s [] in
      (t_result e, outQueue ++ slices3 (t_queue e))
  | BandpassTask freqs amps weights telescope nSigma mff msd plot ants s =>
      match bandpass_band np freqs telescope with
      | inl _ => (Ok (Some 1%Z), outQueue ++ [(s, weights)])
      | inr (Raise e) => (Raise e, outQueue)
      | inr (Ok band) =>
          if slice_all_zero weights then (Ok None, outQueue ++ [(s, weights)])
          else
            match bandpass_on_directions freqs amps weights band nSigma mff msd ants s with
            | (Ok _, weights') => (Ok None, outQueue ++ [(s, weights')])
            | (Raise e, _) => (Raise e, outQueue)
            end
      end
  | ResidTask vals weights soltype nSigma mff msd ants s =>
      let e := _flag_resid np vals weights soltype nSigma mff msd ants s [] in
      (t_result e, outQueue ++ slices3 (t_queue e))
  end.

(** Modelled from the spec: the task runner [multiprocManager] ([put],
    [wait], [get]).  "Executes them ... and returns the set of (antenna
    index, updated weight slice) results"; "a task that raises must not
    silently corrupt another task's result - at minimum its own
    antenna's weights must remain unmodified"; and, of the
    configuration errors, among them a median frequency outside any
    supported band, which is raised inside a task by [sys.exit(1)]:
    "run aborts with a non-zero status".  So a [SystemExit] ends the
    run with its status, and any other exception leaves the station of
    the task as it was.  Tasks run here one after the other, in the
    order of submission. *)
Fixpoint mpm_run (tasks : list task) (outQueue : run_queue) : result run_queue :=
  match tasks with
  | [] => Ok outQueue
  | a :: rest =>
      match run_task a outQueue with
      | (Raise (SystemExit c), _) => Raise (SystemExit c)
      | (Raise _, _) => mpm_run rest outQueue
      | (Ok _, q) => mpm_run rest q
      end
  end.

(** [weights_arraytmp[:, s, :, :, d] = w] for a slice of three axes;
    one of four axes, [b[:, s', :, :]], goes to all directions of the
    station ([weights_arraytmp[:, s, :, :] = w]). *)
Definition put_slice (a : array5) (s d : nat) (w : station_slice) : array5 :=
  match w with
  | Slice3 w3 => put_station a s d w3
  | Slice4 b s' =>
      mk5 (dims5 a)
          (fun t s'' f p d' => if (s'' =? s)%nat then get5 b t s' f p d'
                               else get5 a t s'' f p d')
  end.

(** [for (s, w) in mpm.get(): weights_arraytmp[:, s, :, :, d] = w] *)
Definition merge_results (d : nat) (results : run_queue) (weights : array5) : array5 :=
  fold_left (fun w sw => put_slice w (fst sw) d (snd sw)) results weights.

(** Lines 559-573: resid mode, one manager per direction. *)
Fixpoint resid_directions (solType : string) (nSigma maxFlaggedFraction maxStddev : float)
    (soltab : Soltab) (vals : array5) (dirs : list nat) (weights : array5)
    (submitted : list task) : result array5 * list task :=
  match dirs with
  | [] => (Ok weights, submitted)
  | d :: rest =>
      let tasks :=
        map (fun s => ResidTask (slice_station vals s d) (slice_station weights s d) solType
                                nSigma maxFlaggedFraction maxStddev (st_ant soltab) s)
            (seq 0 (List.length (st_ant soltab))) in
      match mpm_run tasks [] with
      | Raise e => (Raise e, submitted ++ tasks)
      | Ok results =>
          resid_directions solType nSigma maxFlaggedFraction maxStddev soltab vals rest
                           (merge_results d results weights) (submitted ++ tasks)
      end
  end.

(** Lines 544-547 and 576-604: the weights are transposed with [axes]
    and written to the table, the history gets its entry, and the flags
    are exported when a table is named for it. *)
Definition write_back (soltab : Soltab) (soltabExport : option string)
    (weights_arraytmp : array5) (axes : list nat) (h : history_entry)
    (submitted : list task) : run_end :=
  match transpose (List.length (st_axes soltab)) axes weights_arraytmp with
  | Raise e => mkRun (Raise e) soltab submitted
  | Ok weights_array =>
      match setValues_weight soltab weights_array with
      | Raise e => mkRun (Raise e) soltab submitted
      | Ok soltab' =>
          let soltab' := addHistory soltab' h in
          match soltabExport with
          | None => mkRun (Ok 0%Z) soltab' submitted
          | Some name =>
              match transfer_flags name soltab' weights_arraytmp with
              | (Ok _, soltab'') => mkRun (Ok 0%Z) soltab'' submitted
              | (Raise e, soltab'') => mkRun (Raise e) soltab'' submitted
              end
          end
      end
  end.

Definition run (soltab : Soltab) (mode : option string) (maxFlaggedFraction nSigma : float)
    (telescope refAnt soltabExport : string) (ncpu : nat) : run_end :=
  let refAnt := if (refAnt =? "")%string then None else Some refAnt in
  let soltabExport := if (soltabExport =? "")%string then None else Some soltabExport in
  if match mode with
     | None => true
     | Some m => negb (str_in (lower m) ["bandpass"; "resid"]%string)
     end
  then mkRun (Ok 1%Z) soltab []
  else
    let axis_names := st_axes soltab in
    if negb (str_in "freq" axis_names) || negb (str_in "pol" axis_names)
       || negb (str_in "time" axis_names) || negb (str_in "ant" axis_names)
    then mkRun (Ok 1%Z) soltab []
    else
      let has_dir := str_in "dir" axis_names in
      let axes := run_axes axis_names in
      let ndim := List.length axis_names in
      match transpose ndim axes (st_val soltab), transpose ndim axes (st_weight soltab) with
      | Raise e, _ | _, Raise e => mkRun (Raise e) soltab []
      | Ok vals, Ok weights =>
          let weights := flag_nans vals weights in
          let stations := seq 0 (List.length (st_ant soltab)) in
          if match mode with Some m => (m =? "bandpass")%string | None => false end then
            let solType := st_type soltab in
            if negb (solType =? "amplitude")%string then mkRun (Ok 1%Z) soltab []
            else
              let station (a : array5) (s : nat) : station_slice :=
                if has_dir then Slice4 a s else Slice3 (slice_station a s 0) in
              let tasks :=
                map (fun s => BandpassTask (st_freq soltab) (station vals s)
                                           (station weights s) telescope nSigma
                                           maxFlaggedFraction 0.01%float false
                                           (st_ant soltab) s) stations in
              match mpm_run tasks [] with
              | Raise e => mkRun (Raise e) soltab tasks
              | Ok results =>
                  (* line 544 gives four axes to the transpose, also on five *)
                  write_back soltab soltabExport (merge_results 0 results weights)
                             (firstn 4 axes)
                             (HistBandpass telescope maxFlaggedFraction nSigma) tasks
              end
          else
            let solType := st_type soltab in
            if negb (str_in solType ["phase"; "amplitude"]%string)
            then mkRun (Ok 1%Z) soltab []
            else
              let maxStddev := if (solType =? "phase")%string then 0.1%float else 0.02%float in
              let dirs := if has_dir then seq 0 (List.length (st_dir soltab)) else [0] in
              match resid_directions solType nSigma maxFlaggedFraction maxStddev soltab vals
                                     dirs weights [] with
              | (Raise e, submitted) => mkRun (Raise e) soltab submitted
              | (Ok weights', submitted) =>
                  write_back soltab soltabExport weights' axes
                             (HistResid maxFlaggedFraction nSigma) submitted
              end
      end.

End Run.

(** ** A small-input instance of the numerical library

    Exact on what the examples below evaluate: sums and averages of a
    few floats (NumPy adds fewer than eight elements from left to
    right), medians, and the decimal logarithm of the listed powers of
    ten.  Where a routine is not covered it answers [nan], or, for the
    fit, "no convergence". *)

Module Small.

Definition add_skipping_nan (acc x : float) : float :=
  if PrimFloat.is_nan x then acc else (acc + x)%float.

Definition nansum (l : list float) : float := fold_left add_skipping_nan l 0%float.

(** [np.average]: [np.multiply(a, w).sum() / w.sum()], refusing a zero
    sum of weights. *)
Definition average (a w : list float) : result float :=
  let scl := py_sum w in
  if (scl =? 0)%float then Raise ZeroDivisionError
  else Ok (py_sum (map2 PrimFloat.mul a w) / scl)%float.

Fixpoint insert_sorted (x : float) (l : list float) : list float :=
  match l with
  | [] => [x]
  | y :: r => if (x <=? y)%float then x :: l else y :: insert_sorted x r
  end.

Definition sort (l : list float) : list float := fold_right insert_sorted [] l.

(** The median of a list free of NaN: the middle element, or the mean
    of the two middle ones. *)
Definition median_sorted (l : list float) : float :=
  let s := sort l in
  let n := List.length s in
  if (n =? 0)%nat then nan
  else if Nat.odd n then nth (n / 2) s nan
  else ((nth (n / 2 - 1) s nan + nth (n / 2) s nan) / 2)%float.

Definition median (l : list float) : float :=
  if existsb PrimFloat.is_nan l then nan else median_sorted l.

Definition nanmedian (l : list float) : float :=
  median_sorted (filter (fun x => negb (PrimFloat.is_nan x)) l).

Definition lookup (table : list (float * float)) (x : float) : float :=
  match find (fun kv => (fst kv =? x)%float) table with
  | Some kv => snd kv
  | None => nan
  end.

Definition log10_table : list (float * float) :=
  [(1, 0); (10, 1); (100, 2); (1000, 3); (10000, 4); (1e16, 16);
   (100000, 5); (1000000, 6)]%float.

Definition log10 (x : float) : float := lookup log10_table x.

Definition power10 (x : float) : float := lookup (map (fun kv => (snd kv, fst kv)) log10_table) x.

(** Complex numbers as pairs; the exponential and the argument only at
    the origin of the phase circle. *)
Definition exp_j (x : float) : float * float :=
  if (x =? 0)%float then (1, 0)%float else (nan, nan).

Definition scale (w : float) (z : float * float) : float * float :=
  (w * fst z, w * snd z)%float.

Definition cadd_skipping_nan (acc z : float * float) : float * float :=
  if PrimFloat.is_nan (fst z) || PrimFloat.is_nan (snd z) then acc
  else (fst acc + fst z, snd acc + snd z)%float.

Definition nansum_c (l : list (float * float)) : float * float :=
  fold_left cadd_skipping_nan l (0, 0)%float.

Definition cdiv (z : float * float) (x : float) : float * float :=
  (fst z / x, snd z / x)%float.

Definition angle (z : float * float) : float :=
  if ((snd z =? 0) && (0 <? fst z))%float then 0%float else nan.

(** [normalize_phase] leaves a phase within [-3, 3] as it is. *)
Definition normalize (x : float) : float :=
  if (PrimFloat.abs x <=? 3)%float then x else nan.

Definition no_fit (f : list float -> list float -> result (list float))
    (xdata ydata sigma : list float) (bounds : list float * list float)
    : result (list float) :=
  Raise RuntimeError.

Definition numpy : numlib :=
  Build_numlib log10 power10 nansum average median nanmedian
               (float * float) exp_j scale nansum_c cdiv angle normalize no_fit.

End Small.

(** ** Example inputs *)

(** One station, [n] times, one frequency, one polarization. *)
Definition column3 (l : list float) : array3 :=
  mk3 (List.length l, 1, 1) (fun t _ _ => nth t l nan).

(** The entries of a three-axis array, row-major. *)
Definition flatten3 (a : array3) : list float :=
  let '(nt, nf, npol) := dims3 a in
  flat_map (fun i => map (fun p => get3 a (fst i) (snd i) p) (seq 0 npol)) (indices2 (nt, nf)).

Definition ones (n : nat) : list float := repeat 1%float n.

(** *** A short slice

    Amplitudes whose decimal logarithms are 0, 0, 0, 1, 4, 16, with
    unit weights. *)
Definition amps_ex : list float := [1; 1; 1; 10; 10000; 1e16]%float.

Definition vals_ex : array3 := column3 amps_ex.

Definition weights_ex : array3 := column3 (ones 6).

(** The resid flagger on it as [run] calls it by default ([nSigma = 5],
    [maxFlaggedFraction = 0.5], the cap 0.02 of amplitudes), and once
    more on the weights it leaves. *)
Definition first_run : task_end :=
  _flag_resid Small.numpy vals_ex weights_ex "amplitude" 5%float 0.5%float 0.02%float
              ["CS001"%string] 0 [].

Definition second_run : task_end :=
  _flag_resid Small.numpy vals_ex (t_weights first_run) "amplitude"
              5%float 0.5%float 0.02%float ["CS001"%string] 0 [].

(** What [resid_prepare] hands to the loop on the short slice, and the
    loop on it. *)
Definition weights_orig_ex : array2 :=
  match snd (resid_prepare Small.numpy "amplitude" 0 vals_ex weights_ex) with
  | Some (weights_orig, _, _, _) => weights_orig
  | None => slice_pol weights_ex 0
  end.

Definition vals_flagged_ex : array2 :=
  match snd (resid_prepare Small.numpy "amplitude" 0 vals_ex weights_ex) with
  | Some (_, vals_flagged, _, _) => vals_flagged
  | None => slice_pol vals_ex 0
  end.

Definition loop_ex : result (loop_state array2 resid_round_out) :=
  resid_loop Small.numpy 5%float 0.02%float weights_orig_ex vals_flagged_ex 6.

Definition loop_state_ex : loop_state array2 resid_round_out :=
  match loop_ex with
  | Ok st => st
  | Raise _ => loop_init weights_orig_ex
  end.

(** *** Three points

    Logarithms 1, 4, 16; with [nSigma = 125] and the cap 0.02 the
    threshold is 2.5, and two of the three points lie beyond it. *)
Definition vals_gate : array3 := column3 [10; 10000; 1e16]%float.

Definition weights_gate : array3 := column3 (ones 3).

(** *** Tables

    One station, one frequency, one polarization, no direction axis. *)
Definition table_of (ntimes : nat) (column : nat -> float) (freq : float)
    (soltype : string) : Soltab :=
  mkSoltab ["time"; "ant"; "freq"; "pol"]%string soltype ["CS001"%string] [freq] []
           (mk5 (ntimes, 1, 1, 1, 1) (fun t _ _ _ _ => column t))
           (mk5 (ntimes, 1, 1, 1, 1) (fun _ _ _ _ _ => 1%float)) [].

(** One time, value 1. *)
Definition table_ex (freq : float) (soltype : string) : Soltab :=
  table_of 1 (fun _ => 1%float) freq soltype.

(** An export that leaves the table of the run alone. *)
Definition no_transfer : flag_export := fun name soltab w => (Ok tt, soltab).

(** A table without direction axis leaves nothing to
    [bandpass_on_directions]. *)
Definition no_directions : directions_flagger :=
  fun freqs amps weights band nSigma maxFlaggedFraction maxStddev ants s =>
    (Raise ValueError, weights).

(** A long table: 16000 times, amplitude 1 except for 1000, 100 and 10
    at the first three times (logarithms 3, 2, 1). *)
Definition column_long (t : nat) : float :=
  match t with
  | 0 => 1000
  | 1 => 100
  | 2 => 10
  | _ => 1
  end%float.

Definition table_long : Soltab := table_of (160 * 100) column_long 150e6 "amplitude".

(** [run] in resid mode with [nSigma = 110] on a table, and the same
    run on the table a run has left. *)
Definition run_long (soltab : Soltab) : run_end :=
  run Small.numpy no_transfer no_directions soltab (Some "resid"%string) 0.5 110 "lofar" "" "" 0.

Definition first_long : run_end := run_long table_long.

(** The slices the first run hands to its one task. *)
Definition vals_long : array3 :=
  slice_station (transposed (run_axes (st_axes table_long)) (st_val table_long)) 0 0.

Definition weights_long : array3 :=
  slice_station (flag_nans (transposed (run_axes (st_axes table_long)) (st_val table_long))
                           (transposed (run_axes (st_axes table_long))
                                       (st_weight table_long))) 0 0.

(** *** A table stored in another order

    The axes are [freq, time, ant, pol]: two frequencies, two times,
    two stations, one polarization.  Every amplitude is 1 and every
    weight is 1, but for the solution at frequency 0, time 0, station
    1, which is flagged. *)
Definition table_stored : Soltab :=
  mkSoltab ["freq"; "time"; "ant"; "pol"]%string "amplitude" ["CS001"; "CS002"]%string
           [150e6; 151e6]%float []
           (mk5 (2, 2, 2, 1, 1) (fun _ _ _ _ _ => 1%float))
           (mk5 (2, 2, 2, 1, 1)
                (fun f t a _ _ => if ((f =? 0) && (t =? 0) && (a =? 1))%nat then 0%float
                                  else 1%float)) [].

(** [run] in resid mode, with its default parameters, on it. *)
Definition run_stored : run_end :=
  run Small.numpy no_transfer no_directions table_stored (Some "resid"%string)
      0.5 5 "lofar" "" "" 0.

(** *** Six outliers

    A hundred amplitudes: 1e6, 1e5, 1e4, 1000, 100, 10 (logarithms 6 to
    1) and 94 times 1, with unit weights.  The flagger with
    [nSigma = 6] and a cap of 10 that never applies: the threshold of a
    round is 0.6 times the root of the sum of the squares that are
    left, over the root of a hundredth of the weights that are left. *)
Definition amps_tiers : list float :=
  [1000000; 100000; 10000; 1000; 100; 10]%float ++ repeat 1%float 94.

Definition vals_tiers : array3 := column3 amps_tiers.

Definition flag_tiers (weights : array3) : task_end :=
  _flag_resid Small.numpy vals_tiers weights "amplitude" 6%float 0.5%float 10%float
              ["CS001"%string] 0 [].

Definition first_tiers : task_end := flag_tiers (column3 (ones 100)).

Definition second_tiers : task_end := flag_tiers (t_weights first_tiers).

(** *** A negative weight

    Logarithms 2, 1, 0 with the weights 1, -1, 10001, and the flagger
    with [nSigma = 110], [maxFlaggedFraction = 0.3] and the cap 0.02. *)
Definition vals_negative : array3 := column3 [100; 10; 1]%float.

Definition weights_negative : array3 := column3 [1; -1; 10001]%float.

Definition flag_negative : task_end :=
  _flag_resid Small.numpy vals_negative weights_negative "amplitude" 110%float 0.3%float
              0.02%float ["CS001"%string] 0 [].

(** *** Three channels of the HBA-low band

    One time, three frequencies, one polarization.  The initial model
    of the band is 0.0274, -0.0246, -0.0404 at the three frequencies;
    the amplitudes lie, in the decimal logarithm and after the
    normalization of lines 401-403, 0.06 above it, on it and 0.06 below
    it. *)
Definition row3 (l : list float) : array3 :=
  mk3 (1, List.length l, 1) (fun _ f _ => nth f l nan).

Definition freqs_hba : list float := [120e6; 150e6; 170e6]%float.

Definition amps_hba : array3 := row3 [122.3; 94.5; 79.4]%float.

Definition weights_hba : array3 := row3 (ones 3).

(** The decimal logarithm and the power of ten, as the C library
    gives them, at the values the three channels lead to. *)
Definition log10_hba : list (float * float) :=
  [(1.0, 0.0);
   (1.294179894179894, 0.11199464852702248);
   (0.8402116402116403, -0.07561130608216664);
   (1.2227991785621544, 0.08735513830884072);
   (0.9448448272618446, -0.024639510218181775);
   (0.7938696220591585, -0.10025081630034839)]%float.

Definition power10_hba : list (float * float) :=
  [(0.024639510218181816, 1.0583748475376584)]%float.

Definition numpy_hba : numlib :=
  Build_numlib (Small.lookup log10_hba) (Small.lookup power10_hba) Small.nansum
               Small.average Small.median Small.nanmedian (float * float) Small.exp_j
               Small.scale Small.nansum_c Small.cdiv Small.angle Small.normalize
               Small.no_fit.

(** The bandpass flagger on them as [run] calls it by default
    ([nSigma = 5], [maxFlaggedFraction = 0.5], the cap 0.01). *)
Definition flag_hba : task_end :=
  _flag_bandpass numpy_hba freqs_hba amps_hba weights_hba "lofar" 5%float 0.5%float
                 0.01%float false ["CS001"%string] 0 [].

(** * Vocabulary of the properties *)

(** Between rounds [niter] counts the rounds performed so far; the
    history has one entry per round. *)
Definition between_rounds {M R : Type} (st : loop_state M R) : Prop :=
  rounds st = niter st /\ niter st <= maxiter.

(** After the second round [nflag_prev] has just been set to [nflag]
    (line 109), so the guard of line 101 fails: a third round never
    starts. *)
Definition second_round_done {M R : Type} (st : loop_state M R) : Prop :=
  rounds st = 2 /\ nflag st = nflag_prev st.

(** [w'] has every flag of [w]. *)
Definition keeps_flags2 (w w' : array2) : Prop :=
  forall t f, is_zero (get2 w t f) = true -> is_zero (get2 w' t f) = true.

Definition keeps_flags3 (w w' : array3) : Prop :=
  forall t f p, is_zero (get3 w t f p) = true -> is_zero (get3 w' t f p) = true.

(** A task that returns has put [(s, weights)] once, with the weights
    it leaves; a task that raises has put nothing. *)
Definition puts_its_weights (s : nat) (outQueue : queue) (e : task_end) : Prop :=
  match t_result e with
  | Ok _ => t_queue e = outQueue ++ [(s, t_weights e)]
  | Raise _ => t_queue e = outQueue
  end.

(** The tasks on three-axis slices that [run] submits for direction
    [d] of the weights [w5]: each works on the weight slice of its own
    station. *)
Definition task_of_table (w5 : array5) (d : nat) (a : task) : Prop :=
  match a with
  | BandpassTask _ (Slice3 _) (Slice3 weights) _ _ _ _ _ _ s => weights = slice_station w5 s d
  | BandpassTask _ _ _ _ _ _ _ _ _ _ => False
  | ResidTask _ weights _ _ _ _ _ s => weights = slice_station w5 s d
  end.

(** The entries of an array, the first index slowest. *)
Definition entries5 (a : array5) : list float :=
  let '(n0, n1, n2, n3, n4) := dims5 a in
  flat_map (fun i0 =>
    flat_map (fun i1 =>
      flat_map (fun i2 =>
        flat_map (fun i3 => map (get5 a i0 i1 i2 i3) (seq 0 n4)) (seq 0 n3))
               (seq 0 n2))
             (seq 0 n1))
           (seq 0 n0).

(** Two states of the arrays that agree on polarization [pol]. *)
Definition same_pol (pol : nat) (st st' : array3 * array3) : Prop :=
  slice_pol (fst st) pol = slice_pol (fst st') pol /\
  slice_pol (snd st) pol = slice_pol (snd st') pol.

(** The fraction of line 116 for polarization [pol] of a station: the
    number of points the last round of the loop found bad, over the
    number of points that were not flagged before the loop. *)
Definition resid_fraction (np : numlib) (soltype : string) (nSigma maxStddev : float)
    (pol : nat) (vals weights : array3) : option float :=
  match resid_prepare np soltype pol vals weights with
  | (_, _, Some (weights_orig, vals_flagged, n, _)) =>
      match resid_loop np nSigma maxStddev weights_orig vals_flagged n with
      | Ok st =>
          match last_round st with
          | Some r =>
              match py_div (py_float (List.length (rr_bad r))) (py_float n) with
              | Ok frac => Some frac
              | Raise _ => None
              end
          | None => None
          end
      | Raise _ => None
      end
  | (_, _, None) => None
  end.

(** The fraction of line 440, likewise. *)
Definition bandpass_fraction (np : numlib) (freqs : list float) (band : string)
    (nSigma maxStddev : float) (pol : nat) (amps weights : array3) : option float :=
  match bandpass_prepare np freqs band (bandpass_amps_flagged amps weights)
                         (bandpass_sigma amps weights) pol with
  | Ok (amps_div, sigma_div, sigma_orig, n) =>
      match bandpass_loop np freqs band nSigma maxStddev amps_div sigma_div sigma_orig n with
      | Ok st =>
          match last_round st with
          | Some r =>
              match py_div (py_float (List.length (br_bad r))) (py_float n) with
              | Ok frac => Some frac
              | Raise _ => None
              end
          | None => None
          end
      | Raise _ => None
      end
  | Raise _ => None
  end.

(** The spec's words for the fraction of the full-flag gate, "the
    fraction of originally-unflagged points that the iterative clipping
    step flags": of the points of the polarization that were not
    flagged before the loop, those that the mask the loop leaves
    flags. *)
Definition clipped_fraction (np : numlib) (soltype : string) (nSigma maxStddev : float)
    (pol : nat) (vals weights : array3) : option float :=
  match resid_prepare np soltype pol vals weights with
  | (_, _, Some (weights_orig, vals_flagged, n, _)) =>
      match resid_loop np nSigma maxStddev weights_orig vals_flagged n with
      | Ok st =>
          let clipped :=
            np_where2 (fun t f => negb (is_zero (get2 weights_orig t f))
                                  && is_zero (get2 (trial st) t f))
                      (dims2 weights_orig) in
          Some (py_float (List.length clipped) / py_float n)%float
      | Raise _ => None
      end
  | (_, _, None) => None
  end.

(** Every weight of polarization [pol] is zero. *)
Definition fully_flagged (w : array3) (pol : nat) : Prop :=
  np_all2 is_zero (slice_pol w pol) = true.

(** The median frequency lies in neither band (lines 343-354). *)
Definition outside_bands (med : float) : bool :=
  negb ((med <? 180e6) && (110e6 <? med))%float && negb (med <? 90e6)%float.

(** The table has the axes [run] transposes and no other, so that
    NumPy accepts the transposes of lines 518-522. *)
Definition axes_fit (axis_names : list string) : bool :=
  (List.length (run_axes axis_names) =? List.length axis_names)%nat
  && forallb (fun k => existsb (Nat.eqb k) (run_axes axis_names))
             (seq 0 (List.length axis_names)).

(** A table [run] accepts for bandpass mode: the four axes, no
    direction axis, amplitudes. *)
Definition bandpass_table (soltab : Soltab) : bool :=
  str_in "freq" (st_axes soltab) && str_in "pol" (st_axes soltab)
  && str_in "time" (st_axes soltab) && str_in "ant" (st_axes soltab)
  && negb (str_in "dir" (st_axes soltab))
  && (st_type soltab =? "amplitude")%string.

(** A table [run] accepts for resid mode, without direction axis. *)
Definition resid_table (soltab : Soltab) : bool :=
  str_in "freq" (st_axes soltab) && str_in "pol" (st_axes soltab)
  && str_in "time" (st_axes soltab) && str_in "ant" (st_axes soltab)
  && negb (str_in "dir" (st_axes soltab))
  && str_in (st_type soltab) ["phase"; "amplitude"]%string.

(** What [run] may hand to a task: bandpass mode gives bandpass tasks
    with the cap 0.01; any other accepted mode gives resid tasks of the
    table's solution type, with the cap 0.1 for phases and 0.02 for
    amplitudes. *)
Definition submitted_cap (soltab : Soltab) (mode : option string) (a : task) : Prop :=
  match a with
  | BandpassTask _ _ _ _ _ _ m _ _ _ =>
      mode = Some "bandpass"%string /\ m = 0.01%float
  | ResidTask _ _ soltype _ _ m _ _ =>
      mode <> Some "bandpass"%string /\ soltype = st_type soltab /\
      ((soltype = "phase"%string /\ m = 0.1%float)
       \/ (soltype = "amplitude"%string /\ m = 0.02%float))
  end.

(** The number of points each round of the loop of polarization [pol]
    found bad, first round first. *)
Definition resid_history (np : numlib) (soltype : string) (nSigma maxStddev : float)
    (pol : nat) (vals weights : array3) : option (list nat) :=
  match resid_prepare np soltype pol vals weights with
  | (_, _, Some (weights_orig, vals_flagged, n, _)) =>
      match resid_loop np nSigma maxStddev weights_orig vals_flagged n with
      | Ok st => Some (rev (history st))
      | Raise _ => None
      end
  | (_, _, None) => None
  end.

(** The spec's words for a loop that may stop before the cap: the last
    count is degenerate (0, or all points that were not flagged), or it
    equals the count of the round before. *)
Definition early_stop_justified (nsols_unflagged : nat) (counts : list nat) : Prop :=
  match rev counts with
  | [] => False
  | n :: earlier =>
      n = 0 \/ n = nsols_unflagged \/
      match earlier with
      | m :: _ => n = m
      | [] => False
      end
  end.

(** The spec's words for the loop: at most five rounds, each on the
    original mask with the flags of the round before, "and stop when
    the flagged-point count stops changing or reaches a degenerate
    value".  The mask it ends with, and the counts of its rounds. *)
Fixpoint loop_as_specified {M R : Type} (fit_and_flag : M -> result R) (nbad : R -> nat)
    (reset : R -> M) (nsols_unflagged : nat) (rounds_left : nat) (previous : option nat)
    (m : M) (counts : list nat) : result (M * list nat) :=
  match rounds_left with
  | O => Ok (m, counts)
  | S rounds_left' =>
      match fit_and_flag m with
      | Raise e => Raise e
      | Ok r =>
          let n := nbad r in
          if ((n =? 0) || (n =? nsols_unflagged))%nat then Ok (m, counts ++ [n])
          else if match previous with
                  | Some n' => (n =? n')%nat
                  | None => false
                  end
               then Ok (reset r, counts ++ [n])
               else loop_as_specified fit_and_flag nbad reset nsols_unflagged rounds_left'
                                      (Some n) (reset r) (counts ++ [n])
      end
  end.

(** The mask of polarization [pol] and the counts when the loop of
    [_flag_resid] is replaced by the loop as specified. *)
Definition resid_as_specified (np : numlib) (soltype : string) (nSigma maxStddev : float)
    (pol : nat) (vals weights : array3) : option (list float * list nat) :=
  match resid_prepare np soltype pol vals weights with
  | (_, _, Some (weights_orig, vals_flagged, n, _)) =>
      match loop_as_specified (resid_round np nSigma maxStddev vals_flagged)
                              (fun r => List.length (rr_bad r))
                              (fun r => assign_at (rr_bad r) 0%float weights_orig)
                              n maxiter None weights_orig [] with
      | Ok (mask, counts) => Some (flatten2 mask, counts)
      | Raise _ => None
      end
  | (_, _, None) => None
  end.

(** The spec's words for the mean of amplitudes: "sum of weight·value
    divided by sum of weights". *)
Definition weighted_mean (w v : list float) : float :=
  (py_sum (map2 PrimFloat.mul w v) / py_sum w)%float.

(** The value [_B] returns at degree 0 for a basis function that
    [_bspline] has flagged for extrapolation at [x]. *)
Definition forced_leaf (x : float) (t : list float) (k n : nat) : result float :=
  fl <- bspline_flags x t k n ;;
  _B x 0 0 t true (snd fl).

(** The two configuration errors of bandpass mode. *)
Definition configuration_error (np : numlib) (freqs : list float) (telescope : string) : bool :=
  negb (lower telescope =? "lofar")%string || outside_bands (np_median np freqs).

(** The spec's words for a fatal error: the run "aborts with a
    non-zero status", "no partial result produced". *)
Definition aborted (soltab : Soltab) (r : run_end) : Prop :=
  r_soltab r = soltab /\
  exists c, c <> 0%Z /\ (r_status r = Ok c \/ r_status r = Raise (SystemExit c)).

(** ** Vocabulary of the further properties *)

(** A weight after a step: the weight before it, or [0.0]. *)
Definition kept_or_zeroed (w w' : float) : Prop := w' = w \/ w' = 0%float.

(** A flag stays a flag. *)
Definition flag_kept (w w' : float) : Prop := is_zero w = true -> is_zero w' = true.

(** A relation between weights, entry by entry. *)
Definition pointwise2 (R : float -> float -> Prop) (w w' : array2) : Prop :=
  forall t f, R (get2 w t f) (get2 w' t f).

Definition pointwise3 (R : float -> float -> Prop) (w w' : array3) : Prop :=
  forall t f p, R (get3 w t f p) (get3 w' t f p).

Definition pointwise5 (R : float -> float -> Prop) (w w' : array5) : Prop :=
  forall t s f p d, R (get5 w t s f p d) (get5 w' t s f p d).

(** A queue entry [(s, w)] of three axes, related to station [s],
    direction [d], of the weights [w5]. *)
Definition entry_pointwise (R : float -> float -> Prop) (w5 : array5) (d : nat)
    (sw : nat * station_slice) : Prop :=
  match snd sw with
  | Slice3 w => pointwise3 R (slice_station w5 (fst sw) d) w
  | Slice4 _ _ => False
  end.

(** The four checks after which [run] returns 1 (lines 501-503,
    507-511, 530-532, 550-552). *)
Definition run_refuses (soltab : Soltab) (mode : option string) : bool :=
  match mode with
  | None => true
  | Some m =>
      negb (str_in (lower m) ["bandpass"; "resid"]%string)
      || (negb (str_in "freq" (st_axes soltab)) || negb (str_in "pol" (st_axes soltab))
          || negb (str_in "time" (st_axes soltab)) || negb (str_in "ant" (st_axes soltab)))
      || (if (m =? "bandpass")%string
          then negb (st_type soltab =? "amplitude")%string
          else negb (str_in (st_type soltab) ["phase"; "amplitude"]%string))
  end.

(** The history entry of a run (lines 546-547, 581-582). *)
Definition run_history (mode : option string) (telescope : string)
    (maxFlaggedFraction nSigma : float) : history_entry :=
  if match mode with Some m => (m =? "bandpass")%string | None => false end
  then HistBandpass telescope maxFlaggedFraction nSigma
  else HistResid maxFlaggedFraction nSigma.

(** The two checks that come before the transposes (lines 501-503,
    507-511). *)
Definition refused_at_once (soltab : Soltab) (mode : option string) : bool :=
  match mode with
  | None => true
  | Some m =>
      negb (str_in (lower m) ["bandpass"; "resid"]%string)
      || (negb (str_in "freq" (st_axes soltab)) || negb (str_in "pol" (st_axes soltab))
          || negb (str_in "time" (st_axes soltab)) || negb (str_in "ant" (st_axes soltab)))
  end.

(** The table after a run that gave the weights [w] to it. *)
Definition written (soltab : Soltab) (w : array5) (h : history_entry) : Soltab :=
  mkSoltab (st_axes soltab) (st_type soltab) (st_ant soltab) (st_freq soltab)
           (st_dir soltab) (st_val soltab) w (st_history soltab ++ [h]).

(** The weights [run] works on (lines 518-526): those of the table in
    the order [time, ant, freq, pol(, dir)], with the NaN solutions
    flagged. *)
Definition run_weights (soltab : Soltab) : array5 :=
  flag_nans (transposed (run_axes (st_axes soltab)) (st_val soltab))
            (transposed (run_axes (st_axes soltab)) (st_weight soltab)).

(** The end of a run that has written the table: status 0 when no
    export is asked, else what the export makes of it. *)
Definition exported (transfer_flags : flag_export) (soltabExport : string)
    (soltab' : Soltab) (weights_arraytmp : array5) : result Z * Soltab :=
  if (soltabExport =? "")%string then (Ok 0%Z, soltab')
  else
    match transfer_flags soltabExport soltab' weights_arraytmp with
    | (Ok _, soltab'') => (Ok 0%Z, soltab'')
    | (Raise e, soltab'') => (Raise e, soltab'')
    end.

(** Transposing with [axes] twice gives an array back as it was: the
    permutation is its own inverse. *)
Definition restores_order (axes : list nat) : bool :=
  let axes := five_axes axes in
  forallb (fun k => (nth k axes 0 <? 5)%nat && (nth (nth k axes 0) axes 0 =? k)%nat
                    && (position k axes <? 5)%nat
                    && (position (position k axes) axes =? k)%nat)
          (seq 0 5).

(** The ways [run] ends: refused with status 1; stopped by an exception
    before anything is written - by a transpose of lines 518-522, or
    later; or written - the table has been given the weights [w] of the
    tasks, transposed with the axes of lines 512-522, and has its
    history entry, and the export, if any, has had it. *)
Inductive run_outcome (R : float -> float -> Prop) (transfer_flags : flag_export)
    (soltab : Soltab) (mode : option string) (telescope : string)
    (maxFlaggedFraction nSigma : float) (soltabExport : string) (r : run_end) : Prop :=
| RunRefused :
    run_refuses soltab mode = true ->
    refused_at_once soltab mode = true \/ axes_fit (st_axes soltab) = true ->
    r = mkRun (Ok 1%Z) soltab [] ->
    run_outcome R transfer_flags soltab mode telescope maxFlaggedFraction nSigma
                soltabExport r
| RunStopped (e : exn) :
    refused_at_once soltab mode = false ->
    axes_fit (st_axes soltab) = false \/ run_refuses soltab mode = false ->
    r_status r = Raise e -> r_soltab r = soltab ->
    run_outcome R transfer_flags soltab mode telescope maxFlaggedFraction nSigma
                soltabExport r
| RunWritten (w : array5) :
    run_refuses soltab mode = false ->
    axes_fit (st_axes soltab) = true ->
    dims5 w = dims5 (run_weights soltab) ->
    pointwise5 R (run_weights soltab) w ->
    (r_status r, r_soltab r)
    = exported transfer_flags soltabExport
               (written soltab (transposed (run_axes (st_axes soltab)) w)
                        (run_history mode telescope maxFlaggedFraction nSigma)) w ->
    run_outcome R transfer_flags soltab mode telescope maxFlaggedFraction nSigma
                soltabExport r.

(** The assertion of line 201: [n >= k+1 and len(c) >= n] for
    [n = len(t) - k - 1]. *)
Definition bspline_asserts (t c : list float) (k : nat) : bool :=
  let n := List.length t - k - 1 in
  ((k + 1 <=? n) && (n <=? List.length c))%nat.

(** The bounds handed to the fit (lines 327-329). *)
Definition fit_bounds (m : band_model) : list float * list float :=
  (map2 PrimFloat.sub (init_coeffs m) (bounds_deltas_lower m),
   map2 PrimFloat.add (init_coeffs m) (bounds_deltas_upper m)).

(** The bands [_fit_bandpass] knows (lines 305, 312). *)
Definition supported_band (band : string) : bool :=
  ((lower band =? "hba_low") || (lower band =? "lba"))%string.

(** Every lower bound is below its upper bound, and the initial
    coefficient lies between them. *)
Definition bounds_bracket (init : list float) (bounds : list float * list float) : bool :=
  (List.length (fst bounds) =? List.length init)%nat
  && (List.length (snd bounds) =? List.length init)%nat
  && forallb (fun lcu => (fst (fst lcu) <? snd lcu)%float
                         && (fst (fst lcu) <=? snd (fst lcu))%float
                         && (snd (fst lcu) <=? snd lcu)%float)
             (combine (combine (fst bounds) init) (snd bounds)).

(** The flags the task added to a frequency channel of a polarization
    do not depend on the time: the weights of the channel are all as
    they were, or all zero. *)
Definition whole_columns (w w' : array3) : Prop :=
  forall f p,
    (forall t, get3 w' t f p = get3 w t f p) \/ (forall t, get3 w' t f p = 0%float).

(** The count that ends the loop at once (lines 106, 418). *)
Definition degenerate (nsols_unflagged n : nat) : bool :=
  ((n =? 0) || (n =? nsols_unflagged))%nat.

(** A solution [_flag_resid] flags before anything else (lines 68-72):
    NaN, and for amplitudes also zero or negative. *)
Definition bad_solution (soltype : string) (v : float) : bool :=
  if (soltype =? "phase")%string then PrimFloat.is_nan v
  else PrimFloat.is_nan v || (v <=? 0)%float.

(** The entries of one polarization that are flagged when its loop
    starts: those that came flagged and the bad solutions. *)
Definition flagged_before_loop (soltype : string) (vals_pol weights_pol : array2)
    (t f : nat) : bool :=
  is_zero (get2 weights_pol t f) || bad_solution soltype (get2 vals_pol t f).

(** The polarization is skipped (line 73): all its entries are. *)
Definition pol_skipped (soltype : string) (vals_pol weights_pol : array2) : bool :=
  forallb (fun i => flagged_before_loop soltype vals_pol weights_pol (fst i) (snd i))
          (indices2 (dims2 weights_pol)).

(** The number of tasks of a run that goes through: one per station,
    and in resid mode on a table with a direction axis one per station
    and direction. *)
Definition tasks_expected (soltab : Soltab) (mode : option string) : nat :=
  List.length (st_ant soltab)
  * (if match mode with Some m => (m =? "bandpass")%string | None => false end then 1
     else if str_in "dir" (st_axes soltab) then List.length (st_dir soltab) else 1).

(** What every task of a run carries: the parameters of the call, the
    station list and the index of a station; a bandpass task the
    frequencies of the table and no request for a plot, a resid task
    the values of its station in some direction (of the values in the
    order [time, ant, freq, pol(, dir)] that lines 518-522 give
    them). *)
Definition task_of_call (soltab : Soltab) (telescope : string)
    (maxFlaggedFraction nSigma : float) (a : task) : Prop :=
  match a with
  | BandpassTask freqs _ _ tel ns mff _ plot ants s =>
      freqs = st_freq soltab /\ tel = telescope /\ ns = nSigma /\
      mff = maxFlaggedFraction /\ plot = false /\ ants = st_ant soltab /\
      s < List.length (st_ant soltab)
  | ResidTask vals _ _ ns mff _ ants s =>
      (exists d, vals = slice_station (transposed (run_axes (st_axes soltab)) (st_val soltab))
                                      s d) /\ ns = nSigma /\
      mff = maxFlaggedFraction /\ ants = st_ant soltab /\
      s < List.length (st_ant soltab)
  end.

(** ** Further example inputs *)

(** A fit that ends on its lower bounds. *)
Definition fit_at_lower_bounds (f : list float -> list float -> result (list float))
    (xdata ydata sigma : list float) (bounds : list float * list float)
    : result (list float) :=
  Ok (fst bounds).

Definition numpy_fitting : numlib :=
  Build_numlib Small.log10 Small.power10 Small.nansum Small.average Small.median
               Small.nanmedian (float * float) Small.exp_j Small.scale Small.nansum_c
               Small.cdiv Small.angle Small.normalize fit_at_lower_bounds.

(** One station, [n] times, one frequency, two polarizations. *)
Definition two_pols (a b : list float) : array3 :=
  mk3 (List.length a, 1, 2) (fun t _ p => if (p =? 0)%nat then nth t a nan else nth t b nan).

(** Two times, the first solution NaN. *)
Definition table_nan : Soltab :=
  table_of 2 (fun t => match t with 0 => nan | _ => 1%float end) 150e6 "amplitude".

(** A table with a fifth axis that is not the direction axis, holding
    phases. *)
Definition table_fifth_axis : Soltab :=
  mkSoltab ["time"; "ant"; "freq"; "pol"; "tec"]%string "phase" ["CS001"%string]
           [150e6%float] []
           (mk5 (1, 1, 1, 1, 1) (fun _ _ _ _ _ => 1%float))
           (mk5 (1, 1, 1, 1, 1) (fun _ _ _ _ _ => 1%float)) [].

(** [run] with its default parameters. *)
Definition run_default (soltab : Soltab) (mode : string) : run_end :=
  run Small.numpy no_transfer no_directions soltab (Some mode) 0.5 5 "lofar" "" "" 0.

(** The resid flagger as [run] calls it on amplitudes. *)
Definition resid_default (vals weights : array3) : task_end :=
  _flag_resid Small.numpy vals weights "amplitude" 5%float 0.5%float 0.02%float
              ["CS001"%string] 0 [].

(** * Properties *)

(** ** The sigma-clipping loop *)

Section ClipLoopFacts.

Context {M R : Type}.
Variable fit_and_flag : M -> result R.
Variable nbad : R -> nat.
Variable reset : R -> M.
Variable nsols_unflagged : nat.

Local Abbreviation loop := (clip_loop fit_and_flag nbad reset nsols_unflagged).

Lemma clip_loop_rounds (fuel : nat) :
  forall st st', between_rounds st -> loop fuel st = Some (Ok st') -> rounds st' <= maxiter.
Proof.
  induction fuel as [|fuel IH]; intros st st' [Hr Hn] H; simpl in H.
  - destruct (loop_guard st); [discriminate|].
    injection H as <-. rewrite Hr. exact Hn.
  - destruct (loop_guard st) eqn:G.
    + apply andb_prop in G as [_ G]. apply Nat.ltb_lt in G.
      destruct (fit_and_flag (trial st)) as [r|e]; [|discriminate].
      destruct ((nbad r =? 0)%nat || (nbad r =? nsols_unflagged)%nat).
      * injection H as <-. unfold rounds in *. simpl. lia.
      * apply IH in H; [exact H|].
        unfold between_rounds, rounds in *. simpl. lia.
    + injection H as <-. rewrite Hr. exact Hn.
Qed.

(** With more fuel than rounds left the loop comes to its end. *)
Lemma clip_loop_enough_fuel (fuel : nat) :
  forall st, maxiter < fuel + niter st -> loop fuel st <> None.
Proof.
  induction fuel as [|fuel IH]; intros st Hf; simpl.
  - destruct (loop_guard st) eqn:G; [|discriminate].
    apply andb_prop in G as [_ G]. apply Nat.ltb_lt in G. lia.
  - destruct (loop_guard st); [|discriminate].
    destruct (fit_and_flag (trial st)) as [r|e]; [|discriminate].
    destruct ((nbad r =? 0)%nat || (nbad r =? nsols_unflagged)%nat); [discriminate|].
    apply IH. cbn [niter]. lia.
Qed.

Lemma clip_loop_total (m : M) : loop (S maxiter) (loop_init m) <> None.
Proof. apply clip_loop_enough_fuel. cbn [niter loop_init]. lia. Qed.

Lemma clip_loop_stops (fuel : nat) (st st' : loop_state M R) :
  second_round_done st -> loop fuel st = Some (Ok st') -> st' = st.
Proof.
  intros [_ He] H.
  assert (G : loop_guard st = false).
  { unfold loop_guard. rewrite He, Z.eqb_refl. reflexivity. }
  destruct fuel; simpl in H; rewrite G in H; congruence.
Qed.

Lemma clip_loop_two_rounds (fuel : nat) (m : M) (st' : loop_state M R) :
  loop fuel (loop_init m) = Some (Ok st') -> rounds st' <= 2.
Proof.
  destruct fuel as [|fuel]; [discriminate|]. simpl.
  destruct (fit_and_flag m) as [r1|e]; [|discriminate].
  destruct ((nbad r1 =? 0)%nat || (nbad r1 =? nsols_unflagged)%nat).
  { intros H; injection H as <-. cbn. lia. }
  destruct fuel as [|fuel]; simpl.
  { destruct (loop_guard _); [discriminate|]. intros H; injection H as <-. cbn. lia. }
  destruct (loop_guard _).
  2:{ intros H; injection H as <-. cbn. lia. }
  cbn [trial niter nflag_prev history].
  destruct (fit_and_flag (reset r1)) as [r2|e]; [|discriminate].
  destruct ((nbad r2 =? 0)%nat || (nbad r2 =? nsols_unflagged)%nat).
  { intros H; injection H as <-. cbn. lia. }
  intros H. apply clip_loop_stops in H.
  - subst st'. cbn. lia.
  - split; reflexivity.
Qed.

(** Whatever holds of the initial mask and of every reset mask holds of
    the mask the loop ends with. *)
Lemma clip_loop_trial (P : M -> Prop) (fuel : nat) :
  (forall r, P (reset r)) ->
  forall st st', P (trial st) -> loop fuel st = Some (Ok st') -> P (trial st').
Proof.
  intros Hreset. induction fuel as [|fuel IH]; intros st st' HP H; simpl in H.
  - destruct (loop_guard st); [discriminate|]. injection H as <-. exact HP.
  - destruct (loop_guard st).
    + destruct (fit_and_flag (trial st)) as [r|e]; [|discriminate].
      destruct ((nbad r =? 0)%nat || (nbad r =? nsols_unflagged)%nat).
      * injection H as <-. exact HP.
      * apply IH in H; [exact H|]. simpl. apply Hreset.
    + injection H as <-. exact HP.
Qed.

Lemma run_clip_loop_rounds (m : M) (st : loop_state M R) :
  run_clip_loop fit_and_flag nbad reset nsols_unflagged m = Ok st -> rounds st <= maxiter.
Proof.
  unfold run_clip_loop.
  destruct (loop (S maxiter) (loop_init m)) as [r|] eqn:E; [|discriminate].
  intros ->. eapply clip_loop_rounds; [|exact E].
  split; [reflexivity|]. cbn. unfold maxiter. lia.
Qed.

Lemma run_clip_loop_two_rounds (m : M) (st : loop_state M R) :
  run_clip_loop fit_and_flag nbad reset nsols_unflagged m = Ok st -> rounds st <= 2.
Proof.
  unfold run_clip_loop.
  destruct (loop (S maxiter) (loop_init m)) as [r|] eqn:E; [|discriminate].
  intros ->. eapply clip_loop_two_rounds. exact E.
Qed.

Lemma run_clip_loop_trial (P : M -> Prop) (m : M) (st : loop_state M R) :
  (forall r, P (reset r)) -> P m ->
  run_clip_loop fit_and_flag nbad reset nsols_unflagged m = Ok st -> P (trial st).
Proof.
  intros Hreset Hm. unfold run_clip_loop.
  destruct (loop (S maxiter) (loop_init m)) as [r|] eqn:E; [|discriminate].
  intros ->. eapply clip_loop_trial; [exact Hreset| |exact E]. exact Hm.
Qed.

End ClipLoopFacts.

(** ** Arrays *)

Lemma is_zero_0 : is_zero 0%float = true.
Proof. reflexivity. Qed.

Lemma get2_slice_pol (a : array3) (pol t f : nat) :
  get2 (slice_pol a pol) t f = get3 a t f pol.
Proof. unfold slice_pol. destruct (dims3 a) as [[nt nf] npol]. reflexivity. Qed.

Lemma dims2_slice_pol (a : array3) (pol : nat) :
  dims2 (slice_pol a pol) = fst (dims3 a).
Proof. unfold slice_pol. destruct (dims3 a) as [[nt nf] npol]. reflexivity. Qed.

Lemma keeps_flags3_refl (w : array3) : keeps_flags3 w w.
Proof. intros t f p H. exact H. Qed.

Lemma keeps_flags3_trans (a b c : array3) :
  keeps_flags3 a b -> keeps_flags3 b c -> keeps_flags3 a c.
Proof. intros H1 H2 t f p H. apply H2, H1, H. Qed.

Lemma keeps_flags2_assign_at (idx : list index2) (w : array2) :
  keeps_flags2 w (assign_at idx 0%float w).
Proof.
  intros t f H. simpl. destruct (mem2 (t, f) idx); [apply is_zero_0|exact H].
Qed.

Lemma keeps_flags3_fill_pol (w : array3) (pol : nat) :
  keeps_flags3 w (fill_pol w pol 0%float).
Proof.
  intros t f p H. simpl. destruct (p =? pol)%nat; [apply is_zero_0|exact H].
Qed.

Lemma keeps_flags3_fill_freqs (w : array3) (fs : list nat) (pol : nat) :
  keeps_flags3 w (fill_freqs w fs pol 0%float).
Proof.
  intros t f p H. simpl.
  destruct ((p =? pol)%nat && existsb (Nat.eqb f) fs); [apply is_zero_0|exact H].
Qed.

Lemma keeps_flags3_set_pol (w : array3) (pol : nat) (m : array2) :
  keeps_flags2 (slice_pol w pol) m -> keeps_flags3 w (set_pol w pol m).
Proof.
  intros Hm t f p H. simpl. destruct (p =? pol)%nat eqn:E; [|exact H].
  apply Nat.eqb_eq in E. subst p. apply Hm. rewrite get2_slice_pol. exact H.
Qed.

(** ** [for pol in range(npols)] *)

Lemma for_pols_invariant (P : array3 * array3 -> Prop)
    (body : nat -> array3 * array3 -> result unit * (array3 * array3)) :
  (forall pol st, P st -> P (snd (body pol st))) ->
  forall pols st, P st -> P (snd (for_pols body pols st)).
Proof.
  intros Hbody pols. induction pols as [|pol rest IH]; intros st H; simpl; [exact H|].
  specialize (Hbody pol st H). destruct (body pol st) as [[u|e] st']; simpl in *.
  - apply IH, Hbody.
  - exact Hbody.
Qed.

(** ** Log messages *)

Lemma logged_invariant (P : array3 -> Prop) (ants : list string) (s : nat)
    (before after : array3) :
  P before -> P after -> P (snd (logged ants s before after)).
Proof.
  intros Hb Ha. unfold logged. destruct (station_name ants s); assumption.
Qed.

Lemma logged_returns (ants : list string) (s : nat) (before after : array3) (u : unit) :
  fst (logged ants s before after) = Ok u ->
  s < List.length ants /\ snd (logged ants s before after) = after.
Proof.
  unfold logged, station_name. destruct (nth_error ants s) eqn:E; [|discriminate].
  intros _. split; [|reflexivity]. apply nth_error_Some. rewrite E. discriminate.
Qed.

Lemma logged_known_station (ants : list string) (s : nat) (before after : array3) :
  s < List.length ants -> logged ants s before after = (Ok tt, after).
Proof.
  intros H. unfold logged, station_name.
  destruct (nth_error ants s) eqn:E; [reflexivity|].
  apply nth_error_None in E. lia.
Qed.

Lemma logged_unknown_station (ants : list string) (s : nat) (before after : array3) :
  List.length ants <= s -> logged ants s before after = (Raise IndexError, before).
Proof.
  intros H. unfold logged, station_name.
  destruct (nth_error ants s) eqn:E; [|reflexivity].
  assert (nth_error ants s <> None) as N by (rewrite E; discriminate).
  apply nth_error_Some in N. lia.
Qed.

(** ** Monotonic flagging *)

Section Monotonic.

Variable np : numlib.

Lemma resid_prepare_keeps_flags (soltype : string) (pol : nat) (vals weights : array3) :
  keeps_flags3 weights (snd (fst (resid_prepare np soltype pol vals weights))).
Proof.
  unfold resid_prepare.
  set (bad_sols := if (soltype =? "phase")%string then _ else _).
  assert (K : keeps_flags3 weights
                (set_pol weights pol (assign_at bad_sols 0%float (slice_pol weights pol)))).
  { apply keeps_flags3_set_pol, keeps_flags2_assign_at. }
  destruct (np_all2 is_zero _); exact K.
Qed.

Lemma resid_prepare_weights_orig (soltype : string) (pol : nat) (vals weights : array3)
    (vals' weights' : array3) (weights_orig vals_flagged : array2) (n : nat) (mean : float) :
  resid_prepare np soltype pol vals weights
    = (vals', weights', Some (weights_orig, vals_flagged, n, mean)) ->
  weights_orig = slice_pol weights' pol.
Proof.
  unfold resid_prepare.
  destruct (np_all2 is_zero _); [discriminate|].
  intros H. injection H as _ <- <- _ _ _. reflexivity.
Qed.

Lemma resid_loop_keeps_flags (nSigma maxStddev : float) (weights_orig vals_flagged : array2)
    (n : nat) (st : loop_state array2 resid_round_out) :
  resid_loop np nSigma maxStddev weights_orig vals_flagged n = Ok st ->
  keeps_flags2 weights_orig (trial st).
Proof.
  apply (run_clip_loop_trial _ _ _ _ (keeps_flags2 weights_orig)).
  - intros r. apply keeps_flags2_assign_at.
  - intros t f H. exact H.
Qed.

Lemma resid_commit_keeps_flags (maxFlaggedFraction : float) (ants : list string) (s : nat)
    (pol : nat) (weights : array3) (n : nat) (st : loop_state array2 resid_round_out) :
  keeps_flags2 (slice_pol weights pol) (trial st) ->
  keeps_flags3 weights (snd (resid_commit maxFlaggedFraction ants s pol weights n st)).
Proof.
  intros Ht. unfold resid_commit.
  destruct (last_round st) as [r|]; [|apply keeps_flags3_refl].
  destruct (py_div _ _) as [frac|e]; [|apply keeps_flags3_refl].
  destruct (maxFlaggedFraction <? frac)%float; cbv zeta.
  - apply logged_invariant; [apply keeps_flags3_refl|apply keeps_flags3_fill_pol].
  - apply logged_invariant; apply keeps_flags3_set_pol, Ht.
Qed.

Lemma resid_pol_keeps_flags (soltype : string) (nSigma maxFlaggedFraction maxStddev : float)
    (ants : list string) (s : nat) (pol : nat) (st : array3 * array3) :
  keeps_flags3 (snd st)
    (snd (snd (resid_pol np soltype nSigma maxFlaggedFraction maxStddev ants s pol st))).
Proof.
  unfold resid_pol.
  pose proof (resid_prepare_keeps_flags soltype pol (fst st) (snd st)) as K.
  destruct (resid_prepare np soltype pol (fst st) (snd st))
    as [[vals' weights'] [[[[weights_orig vals_flagged] n] mean]|]] eqn:E; simpl in K.
  2:{ exact K. }
  apply resid_prepare_weights_orig in E.
  destruct (resid_loop np nSigma maxStddev weights_orig vals_flagged n) as [stf|e] eqn:L.
  2:{ exact K. }
  apply resid_loop_keeps_flags in L. subst weights_orig.
  simpl. eapply keeps_flags3_trans; [exact K|].
  apply resid_commit_keeps_flags. exact L.
Qed.

Lemma flag_resid_keeps_flags (vals weights : array3) (soltype : string)
    (nSigma maxFlaggedFraction maxStddev : float) (ants : list string) (s : nat)
    (outQueue : queue) :
  keeps_flags3 weights
    (t_weights (_flag_resid np vals weights soltype nSigma maxFlaggedFraction maxStddev
                            ants s outQueue)).
Proof.
  unfold _flag_resid. destruct (np_all3 is_zero weights); [apply keeps_flags3_refl|].
  pose proof (for_pols_invariant (fun st => keeps_flags3 weights (snd st))
                (resid_pol np soltype nSigma maxFlaggedFraction maxStddev ants s)) as I.
  specialize (I (fun pol st H => keeps_flags3_trans _ _ _ H
                   (resid_pol_keeps_flags soltype nSigma maxFlaggedFraction maxStddev
                                          ants s pol st))
                (seq 0 (snd (dims3 vals))) (vals, weights) (keeps_flags3_refl weights)).
  destruct (for_pols _ _ _) as [[u|e] [vals' weights']]; exact I.
Qed.

Lemma bandpass_commit_keeps_flags (amps : array3)
    (nSigma maxFlaggedFraction maxStddev median_min median_max : float)
    (ants : list string) (s : nat) (pol : nat)
    (weights : array3) (n : nat) (st : loop_state (list float) bandpass_round_out) :
  keeps_flags3 weights
    (snd (bandpass_commit np amps nSigma maxFlaggedFraction maxStddev median_min median_max
                          ants s pol weights n st)).
Proof.
  unfold bandpass_commit.
  destruct (last_round st) as [r|]; [|apply keeps_flags3_refl].
  destruct (nSigma * maxStddev <? br_stdev_all r)%float.
  { apply logged_invariant; [apply keeps_flags3_refl|apply keeps_flags3_fill_pol]. }
  destruct (py_div _ _) as [frac|e]; [|apply keeps_flags3_refl].
  destruct (maxFlaggedFraction <? frac)%float.
  { apply logged_invariant; [apply keeps_flags3_refl|apply keeps_flags3_fill_pol]. }
  cbv zeta.
  destruct (_ || _); apply logged_invariant; try apply keeps_flags3_fill_freqs;
    (eapply keeps_flags3_trans; [apply keeps_flags3_fill_freqs|apply keeps_flags3_fill_pol]).
Qed.

Lemma bandpass_pol_keeps_flags (freqs : list float) (amps amps_flagged sigma : array3)
    (band : string) (nSigma maxFlaggedFraction maxStddev median_min median_max : float)
    (ants : list string) (s : nat) (pol : nat) (st : array3 * array3) :
  keeps_flags3 (snd st)
    (snd (snd (bandpass_pol np freqs amps amps_flagged sigma band nSigma maxFlaggedFraction
                            maxStddev median_min median_max ants s pol st))).
Proof.
  unfold bandpass_pol.
  destruct (np_all2 is_zero _); [apply keeps_flags3_refl|].
  destruct (bandpass_prepare np freqs band amps_flagged sigma pol)
    as [[[[amps_div sigma_div] sigma_orig] n]|e]; simpl; [|apply keeps_flags3_refl].
  destruct (bandpass_loop np freqs band nSigma maxStddev amps_div sigma_div sigma_orig n)
    as [stf|e]; simpl; [|apply keeps_flags3_refl].
  apply bandpass_commit_keeps_flags.
Qed.

Lemma flag_bandpass_keeps_flags (freqs : list float) (amps weights : array3)
    (telescope : string) (nSigma maxFlaggedFraction maxStddev : float) (plot : bool)
    (ants : list string) (s : nat) (outQueue : queue) :
  keeps_flags3 weights
    (t_weights (_flag_bandpass np freqs amps weights telescope nSigma maxFlaggedFraction
                               maxStddev plot ants s outQueue)).
Proof.
  unfold _flag_bandpass.
  destruct (bandpass_band np freqs telescope) as [[]|[[[band mmin] mmax]|e]];
    try apply keeps_flags3_refl.
  destruct (np_all3 is_zero weights); [apply keeps_flags3_refl|].
  set (body := bandpass_pol _ _ _ _ _ _ _ _ _ _ _ _ _).
  pose proof (for_pols_invariant (fun st => keeps_flags3 weights (snd st)) body) as I.
  specialize (I (fun pol st H => keeps_flags3_trans _ _ _ H
                   (bandpass_pol_keeps_flags _ _ _ _ _ _ _ _ _ _ _ _ pol st))
                (seq 0 (snd (dims3 amps))) (amps, weights) (keeps_flags3_refl weights)).
  destruct (for_pols _ _ _) as [[u|e] [amps' weights']]; exact I.
Qed.

End Monotonic.

(** ** What the tasks put on the queue *)

Lemma flag_resid_queue (np : numlib) (vals weights : array3) (soltype : string)
    (nSigma maxFlaggedFraction maxStddev : float) (ants : list string) (s : nat)
    (outQueue : queue) :
  puts_its_weights s outQueue
    (_flag_resid np vals weights soltype nSigma maxFlaggedFraction maxStddev ants s outQueue).
Proof.
  unfold _flag_resid, puts_its_weights.
  destruct (np_all3 is_zero weights); [reflexivity|].
  destruct (for_pols _ _ _) as [[u|e] [vals' weights']]; reflexivity.
Qed.

Lemma flag_bandpass_queue (np : numlib) (freqs : list float) (amps weights : array3)
    (telescope : string) (nSigma maxFlaggedFraction maxStddev : float) (plot : bool)
    (ants : list string) (s : nat) (outQueue : queue) :
  puts_its_weights s outQueue
    (_flag_bandpass np freqs amps weights telescope nSigma maxFlaggedFraction maxStddev
                    plot ants s outQueue).
Proof.
  unfold _flag_bandpass, puts_its_weights.
  destruct (bandpass_band np freqs telescope) as [[]|[[[band mmin] mmax]|e]];
    try reflexivity.
  destruct (np_all3 is_zero weights); [reflexivity|].
  destruct (for_pols _ _ _) as [[u|e] [amps' weights']]; reflexivity.
Qed.

(** ** Slices of one station *)

Lemma get3_slice_station (a : array5) (s d t f p : nat) :
  get3 (slice_station a s d) t f p = get5 a t s f p d.
Proof.
  unfold slice_station. destruct (dims5 a) as [[[[nt na] nf] npol] ndir]. reflexivity.
Qed.

(** ** Slices of one polarization *)

Lemma array2_eq (d : nat * nat) (g h : nat -> nat -> float) :
  (forall t f, g t f = h t f) -> mk2 d g = mk2 d h.
Proof.
  intros H. f_equal. extensionality t. extensionality f. apply H.
Qed.

Lemma slice_pol_set_pol_other (a : array3) (q pol : nat) (s : array2) :
  pol <> q -> slice_pol (set_pol a q s) pol = slice_pol a pol.
Proof.
  intros Hq. unfold slice_pol. simpl. destruct (dims3 a) as [[nt nf] npol].
  apply array2_eq. intros t f. simpl.
  destruct (Nat.eqb_spec pol q); [contradiction|reflexivity].
Qed.

Lemma slice_pol_set_pol_same (a : array3) (pol : nat) (s : array2) :
  dims2 s = fst (dims3 a) -> slice_pol (set_pol a pol s) pol = s.
Proof.
  intros Hd. unfold slice_pol. simpl. destruct (dims3 a) as [[nt nf] npol].
  destruct s as [d g]. simpl in *. subst d.
  apply array2_eq. intros t f. simpl. rewrite Nat.eqb_refl. reflexivity.
Qed.

Lemma slice_pol_fill_pol_other (a : array3) (q pol : nat) (v : float) :
  pol <> q -> slice_pol (fill_pol a q v) pol = slice_pol a pol.
Proof.
  intros Hq. unfold slice_pol. simpl. destruct (dims3 a) as [[nt nf] npol].
  apply array2_eq. intros t f. simpl.
  destruct (Nat.eqb_spec pol q); [contradiction|reflexivity].
Qed.

Lemma slice_pol_fill_freqs_other (a : array3) (fs : list nat) (q pol : nat) (v : float) :
  pol <> q -> slice_pol (fill_freqs a fs q v) pol = slice_pol a pol.
Proof.
  intros Hq. unfold slice_pol. simpl. destruct (dims3 a) as [[nt nf] npol].
  apply array2_eq. intros t f. simpl.
  destruct (Nat.eqb_spec pol q); [contradiction|reflexivity].
Qed.

Lemma fully_flagged_fill_pol (a : array3) (pol : nat) :
  np_all2 is_zero (slice_pol (fill_pol a pol 0%float) pol) = true.
Proof.
  unfold np_all2. apply forallb_forall. intros i _.
  rewrite get2_slice_pol. simpl. rewrite Nat.eqb_refl. reflexivity.
Qed.

Lemma in_indices2 (d : nat * nat) (t f : nat) :
  In (t, f) (indices2 d) <-> t < fst d /\ f < snd d.
Proof.
  unfold indices2. rewrite in_flat_map. split.
  - intros [t' [Ht Hf]]. apply in_map_iff in Hf as [f' [E Hf]].
    injection E as -> ->. apply in_seq in Ht, Hf. lia.
  - intros [Ht Hf]. exists t. split; [apply in_seq; lia|].
    apply in_map, in_seq. lia.
Qed.

(** A fully flagged station is fully flagged in each polarization. *)
Lemma np_all3_slice (a : array3) (pol : nat) :
  pol < snd (dims3 a) -> np_all3 is_zero a = true ->
  np_all2 is_zero (slice_pol a pol) = true.
Proof.
  unfold np_all3, np_all2. intros Hp H.
  rewrite dims2_slice_pol. destruct (dims3 a) as [[nt nf] npol]. simpl in *.
  apply forallb_forall. intros i Hi. rewrite get2_slice_pol.
  rewrite forallb_forall in H. specialize (H i Hi).
  rewrite forallb_forall in H. apply H. apply in_seq. lia.
Qed.

(** ** The polarizations do not touch each other *)

Lemma same_pol_refl (pol : nat) (st : array3 * array3) : same_pol pol st st.
Proof. split; reflexivity. Qed.

Lemma same_pol_trans (pol : nat) (a b c : array3 * array3) :
  same_pol pol a b -> same_pol pol b c -> same_pol pol a c.
Proof. intros [H1 H2] [H3 H4]. split; congruence. Qed.

Lemma for_pols_app (body : nat -> array3 * array3 -> result unit * (array3 * array3))
    (l1 l2 : list nat) (st : array3 * array3) :
  for_pols body (l1 ++ l2) st =
  match for_pols body l1 st with
  | (Ok _, st') => for_pols body l2 st'
  | (Raise e, st') => (Raise e, st')
  end.
Proof.
  revert st. induction l1 as [|p l1 IH]; intros st; simpl; [reflexivity|].
  destruct (body p st) as [[u|e] st']; [apply IH|reflexivity].
Qed.

Lemma for_pols_frame (body : nat -> array3 * array3 -> result unit * (array3 * array3))
    (pol : nat) (pols : list nat) :
  (forall q st, q <> pol -> same_pol pol st (snd (body q st))) ->
  ~ In pol pols ->
  forall st, same_pol pol st (snd (for_pols body pols st)).
Proof.
  intros Hbody. induction pols as [|q rest IH]; intros Hn st; simpl.
  - apply same_pol_refl.
  - assert (Hq : q <> pol) by (intros ->; apply Hn; left; reflexivity).
    specialize (Hbody q st Hq).
    destruct (body q st) as [[u|e] st']; simpl in *; [|exact Hbody].
    eapply same_pol_trans; [exact Hbody|]. apply IH.
    intros Hin. apply Hn. right. exact Hin.
Qed.

Lemma seq_split_at (pol npols : nat) :
  pol < npols -> seq 0 npols = seq 0 pol ++ pol :: seq (S pol) (npols - S pol).
Proof.
  intros H. replace npols with (pol + S (npols - S pol)) at 1 by lia.
  rewrite seq_app. reflexivity.
Qed.

(** ** The whole-polarization gate *)

Section Gate.

Variable np : numlib.

Lemma resid_prepare_frame (soltype : string) (q pol : nat) (vals weights : array3) :
  pol <> q ->
  same_pol pol (vals, weights) (fst (resid_prepare np soltype q vals weights)).
Proof.
  intros Hq. unfold resid_prepare, same_pol. cbv zeta.
  destruct (np_all2 is_zero _); simpl.
  - split; [reflexivity|]. rewrite slice_pol_set_pol_other by exact Hq. reflexivity.
  - split.
    + destruct (soltype =? "phase")%string; destruct (soltype =? "amplitude")%string;
        repeat rewrite slice_pol_set_pol_other by exact Hq; reflexivity.
    + rewrite slice_pol_set_pol_other by exact Hq. reflexivity.
Qed.

Lemma resid_commit_frame (maxFlaggedFraction : float) (ants : list string) (s : nat)
    (q pol : nat) (weights : array3) (n : nat) (st : loop_state array2 resid_round_out) :
  pol <> q ->
  slice_pol (snd (resid_commit maxFlaggedFraction ants s q weights n st)) pol
  = slice_pol weights pol.
Proof.
  intros Hq. unfold resid_commit.
  destruct (last_round st) as [r|]; [|reflexivity].
  destruct (py_div _ _) as [frac|e]; [|reflexivity].
  destruct (maxFlaggedFraction <? frac)%float; cbv zeta;
    apply (logged_invariant (fun w => slice_pol w pol = slice_pol weights pol));
    try reflexivity.
  - apply slice_pol_fill_pol_other, Hq.
  - apply slice_pol_set_pol_other, Hq.
  - apply slice_pol_set_pol_other, Hq.
Qed.

Lemma resid_pol_frame (soltype : string) (nSigma maxFlaggedFraction maxStddev : float)
    (ants : list string) (s : nat) (pol q : nat) (st : array3 * array3) :
  q <> pol ->
  same_pol pol st
    (snd (resid_pol np soltype nSigma maxFlaggedFraction maxStddev ants s q st)).
Proof.
  intros Hq. assert (Hq' : pol <> q) by congruence.
  unfold resid_pol. destruct st as [vals weights]. simpl fst. simpl snd.
  pose proof (resid_prepare_frame soltype q pol vals weights Hq') as F.
  destruct (resid_prepare np soltype q vals weights)
    as [[vals' weights'] [[[[weights_orig vals_flagged] n] mean]|]]; simpl in F.
  2:{ exact F. }
  destruct (resid_loop np nSigma maxStddev weights_orig vals_flagged n) as [stf|e].
  2:{ exact F. }
  pose proof (resid_commit_frame maxFlaggedFraction ants s q pol weights' n stf Hq') as C.
  destruct F as [F1 F2]. split; simpl in *; congruence.
Qed.

(** What [resid_prepare] hands to the loop depends on the slices of
    the polarization alone. *)
Lemma resid_prepare_info_ext (soltype : string) (pol : nat)
    (vals weights vals' weights' : array3) :
  same_pol pol (vals, weights) (vals', weights') ->
  snd (resid_prepare np soltype pol vals weights)
  = snd (resid_prepare np soltype pol vals' weights').
Proof.
  intros [Hv Hw]. simpl in Hv, Hw. unfold resid_prepare. cbv zeta.
  destruct (soltype =? "amplitude")%string; destruct (soltype =? "phase")%string;
    rewrite !slice_pol_set_pol_same
      by (simpl; rewrite ?dims2_slice_pol; reflexivity);
    rewrite ?Hv, ?Hw; destruct (np_all2 is_zero _); reflexivity.
Qed.

Lemma not_in_seq_before (pol : nat) : ~ In pol (seq 0 pol).
Proof. intros H. apply in_seq in H. lia. Qed.

Lemma not_in_seq_after (pol k : nat) : ~ In pol (seq (S pol) k).
Proof. intros H. apply in_seq in H. lia. Qed.

Lemma resid_gate (vals weights : array3) (soltype : string)
    (nSigma maxFlaggedFraction maxStddev : float) (ants : list string) (s : nat)
    (outQueue : queue) (pol : nat) (frac : float) (ret : option Z) :
  dims3 weights = dims3 vals ->
  pol < snd (dims3 vals) ->
  resid_fraction np soltype nSigma maxStddev pol vals weights = Some frac ->
  (maxFlaggedFraction <? frac)%float = true ->
  t_result (_flag_resid np vals weights soltype nSigma maxFlaggedFraction maxStddev
                        ants s outQueue) = Ok ret ->
  fully_flagged
    (t_weights (_flag_resid np vals weights soltype nSigma maxFlaggedFraction maxStddev
                            ants s outQueue)) pol.
Proof.
  intros Hd Hp Hfrac Hgt. unfold _flag_resid, fully_flagged.
  destruct (np_all3 is_zero weights) eqn:A.
  { intros _. simpl. apply np_all3_slice; [rewrite Hd; exact Hp|exact A]. }
  rewrite (seq_split_at pol _ Hp), for_pols_app.
  set (body := resid_pol np soltype nSigma maxFlaggedFraction maxStddev ants s).
  pose proof (for_pols_frame body pol (seq 0 pol)
                (fun q st => resid_pol_frame soltype _ _ _ ants s pol q st)
                (not_in_seq_before pol) (vals, weights)) as F1.
  destruct (for_pols body (seq 0 pol) (vals, weights)) as [[u|e] [vals1 weights1]];
    [|discriminate].
  simpl in F1. simpl for_pols.
  (* the round of [pol] itself *)
  assert (B : forall u, fst (body pol (vals1, weights1)) = Ok u ->
                        np_all2 is_zero (slice_pol (snd (snd (body pol (vals1, weights1)))) pol)
                        = true).
  { unfold body, resid_pol. simpl fst. simpl snd.
    pose proof (resid_prepare_info_ext soltype pol vals weights vals1 weights1 F1) as I.
    unfold resid_fraction in Hfrac.
    destruct (resid_prepare np soltype pol vals weights)
      as [[v0 w0] [[[[weights_orig vals_flagged] n] mean]|]]; [|discriminate].
    destruct (resid_prepare np soltype pol vals1 weights1) as [[v1 w1] info1].
    simpl in I. subst info1. simpl fst. simpl snd.
    destruct (resid_loop np nSigma maxStddev weights_orig vals_flagged n) as [st|e];
      [|discriminate].
    unfold resid_commit.
    destruct (last_round st) as [r|]; [|discriminate].
    destruct (py_div _ _) as [frac'|e]; [|discriminate].
    injection Hfrac as ->. rewrite Hgt. simpl. intros u' L.
    apply logged_returns in L as [_ ->]. apply fully_flagged_fill_pol. }
  destruct (body pol (vals1, weights1)) as [[u'|e] [vals2 weights2]];
    [|simpl; discriminate].
  specialize (B u' eq_refl). simpl in B. set (st2 := (vals2, weights2)).
  pose proof (for_pols_frame body pol (seq (S pol) (snd (dims3 vals) - S pol))
                (fun q st => resid_pol_frame soltype _ _ _ ants s pol q st)
                (not_in_seq_after pol _) st2) as F2.
  destruct (for_pols body _ st2) as [[u''|e] [vals3 weights3]]; [|discriminate].
  intros _. destruct F2 as [_ F2]. simpl in F2. simpl t_weights.
  rewrite <- F2. exact B.
Qed.

Lemma bandpass_commit_frame (amps : array3)
    (nSigma maxFlaggedFraction maxStddev median_min median_max : float)
    (ants : list string) (s : nat) (q pol : nat)
    (weights : array3) (n : nat) (st : loop_state (list float) bandpass_round_out) :
  pol <> q ->
  slice_pol (snd (bandpass_commit np amps nSigma maxFlaggedFraction maxStddev median_min
                                  median_max ants s q weights n st)) pol
  = slice_pol weights pol.
Proof.
  intros Hq. unfold bandpass_commit.
  destruct (last_round st) as [r|]; [|reflexivity].
  destruct (nSigma * maxStddev <? br_stdev_all r)%float.
  { apply (logged_invariant (fun w => slice_pol w pol = slice_pol weights pol));
      [reflexivity|apply slice_pol_fill_pol_other, Hq]. }
  destruct (py_div _ _) as [frac|e]; [|reflexivity].
  destruct (maxFlaggedFraction <? frac)%float.
  { apply (logged_invariant (fun w => slice_pol w pol = slice_pol weights pol));
      [reflexivity|apply slice_pol_fill_pol_other, Hq]. }
  cbv zeta.
  destruct (_ || _);
    apply (logged_invariant (fun w => slice_pol w pol = slice_pol weights pol));
    try (apply slice_pol_fill_freqs_other, Hq).
  rewrite slice_pol_fill_pol_other by exact Hq. apply slice_pol_fill_freqs_other, Hq.
Qed.

Lemma bandpass_pol_frame (freqs : list float) (amps amps_flagged sigma : array3)
    (band : string) (nSigma maxFlaggedFraction maxStddev median_min median_max : float)
    (ants : list string) (s : nat) (pol q : nat) (st : array3 * array3) :
  q <> pol ->
  same_pol pol st
    (snd (bandpass_pol np freqs amps amps_flagged sigma band nSigma maxFlaggedFraction
                       maxStddev median_min median_max ants s q st)).
Proof.
  intros Hq. assert (Hq' : pol <> q) by congruence. unfold bandpass_pol.
  destruct (np_all2 is_zero _); [apply same_pol_refl|].
  destruct (bandpass_prepare np freqs band amps_flagged sigma q)
    as [[[[amps_div sigma_div] sigma_orig] n]|e]; simpl; [|apply same_pol_refl].
  destruct (bandpass_loop np freqs band nSigma maxStddev amps_div sigma_div sigma_orig n)
    as [stf|e]; simpl; [|apply same_pol_refl].
  split; simpl; [reflexivity|]. symmetry. apply bandpass_commit_frame, Hq'.
Qed.

Lemma bandpass_gate (freqs : list float) (amps weights : array3) (telescope : string)
    (nSigma maxFlaggedFraction maxStddev : float) (plot : bool) (ants : list string)
    (s : nat) (outQueue : queue) (band : string) (median_min median_max : float)
    (pol : nat) (frac : float) (ret : option Z) :
  bandpass_band np freqs telescope = inr (Ok (band, median_min, median_max)) ->
  dims3 weights = dims3 amps ->
  pol < snd (dims3 amps) ->
  bandpass_fraction np freqs band nSigma maxStddev pol amps weights = Some frac ->
  (maxFlaggedFraction <? frac)%float = true ->
  t_result (_flag_bandpass np freqs amps weights telescope nSigma maxFlaggedFraction
                           maxStddev plot ants s outQueue) = Ok ret ->
  fully_flagged
    (t_weights (_flag_bandpass np freqs amps weights telescope nSigma maxFlaggedFraction
                               maxStddev plot ants s outQueue)) pol.
Proof.
  intros Hband Hd Hp Hfrac Hgt. unfold _flag_bandpass, fully_flagged. rewrite Hband.
  destruct (np_all3 is_zero weights) eqn:A.
  { intros _. simpl. apply np_all3_slice; [rewrite Hd; exact Hp|exact A]. }
  rewrite (seq_split_at pol _ Hp), for_pols_app.
  set (body := bandpass_pol np freqs amps _ _ band nSigma maxFlaggedFraction maxStddev
                            median_min median_max ants s).
  assert (Fr : forall q st, q <> pol -> same_pol pol st (snd (body q st))).
  { intros q st Hq. apply bandpass_pol_frame, Hq. }
  pose proof (for_pols_frame body pol (seq 0 pol) Fr (not_in_seq_before pol)
                (amps, weights)) as F1.
  destruct (for_pols body (seq 0 pol) (amps, weights)) as [[u|e] [amps1 weights1]];
    [|discriminate].
  simpl for_pols.
  (* the round of [pol] itself *)
  assert (Z : forall u, fst (body pol (amps1, weights1)) = Ok u ->
                        np_all2 is_zero (slice_pol (snd (snd (body pol (amps1, weights1)))) pol)
                        = true).
  { unfold body, bandpass_pol. simpl snd. simpl fst.
    destruct (np_all2 is_zero (slice_pol weights1 pol)) eqn:Z.
    { intros _ _. exact Z. }
    unfold bandpass_fraction in Hfrac.
    destruct (bandpass_prepare _ _ _ _ _ _) as [[[[amps_div sigma_div] sigma_orig] n]|e];
      [|discriminate].
    destruct (bandpass_loop _ _ _ _ _ _ _ _ _) as [st|e]; [|discriminate].
    unfold bandpass_commit.
    destruct (last_round st) as [r|]; [|discriminate].
    destruct (nSigma * maxStddev <? br_stdev_all r)%float.
    { simpl. intros u' L. apply logged_returns in L as [_ ->].
      apply fully_flagged_fill_pol. }
    destruct (py_div _ _) as [frac'|e]; [|discriminate].
    injection Hfrac as ->. rewrite Hgt. simpl. intros u' L.
    apply logged_returns in L as [_ ->]. apply fully_flagged_fill_pol. }
  destruct (body pol (amps1, weights1)) as [[u'|e] [amps2 weights2]];
    [|simpl; discriminate].
  specialize (Z u' eq_refl). simpl in Z. set (st2 := (amps2, weights2)).
  pose proof (for_pols_frame body pol (seq (S pol) (snd (dims3 amps) - S pol)) Fr
                (not_in_seq_after pol _) st2) as F2.
  destruct (for_pols body _ st2) as [[u''|e] [amps3 weights3]]; [|discriminate].
  intros _. destruct F2 as [_ F2]. simpl in F2. simpl t_weights.
  rewrite <- F2. exact Z.
Qed.

End Gate.

(** ** The value slice *)

Section Values.

Variable np : numlib.

Lemma resid_pol_phase_vals (nSigma maxFlaggedFraction maxStddev : float)
    (ants : list string) (s : nat) (pol : nat) (st : array3 * array3) :
  fst (snd (resid_pol np "phase" nSigma maxFlaggedFraction maxStddev ants s pol st)) = fst st.
Proof.
  unfold resid_pol, resid_prepare. cbv zeta.
  change ("phase" =? "phase")%string with true.
  change ("phase" =? "amplitude")%string with false. cbv iota.
  destruct (np_all2 is_zero _); [reflexivity|].
  destruct (resid_loop _ _ _ _ _ _) as [stf|e]; reflexivity.
Qed.

Lemma flag_resid_phase_vals (vals weights : array3)
    (nSigma maxFlaggedFraction maxStddev : float) (ants : list string) (s : nat)
    (outQueue : queue) :
  t_vals (_flag_resid np vals weights "phase" nSigma maxFlaggedFraction maxStddev
                      ants s outQueue) = vals.
Proof.
  unfold _flag_resid. destruct (np_all3 is_zero weights); [reflexivity|].
  pose proof (for_pols_invariant (fun st => fst st = vals)
                (resid_pol np "phase" nSigma maxFlaggedFraction maxStddev ants s)) as I.
  specialize (I (fun pol st H =>
                   eq_trans (resid_pol_phase_vals nSigma maxFlaggedFraction maxStddev
                                                  ants s pol st) H)
                (seq 0 (snd (dims3 vals))) (vals, weights) eq_refl).
  destruct (for_pols _ _ _) as [[u|e] [vals' weights']]; exact I.
Qed.

Lemma bandpass_pol_vals (freqs : list float) (amps amps_flagged sigma : array3)
    (band : string) (nSigma maxFlaggedFraction maxStddev median_min median_max : float)
    (ants : list string) (s : nat) (pol : nat) (st : array3 * array3) :
  fst (snd (bandpass_pol np freqs amps amps_flagged sigma band nSigma maxFlaggedFraction
                         maxStddev median_min median_max ants s pol st)) = fst st.
Proof.
  unfold bandpass_pol.
  destruct (np_all2 is_zero _); [reflexivity|].
  destruct (bandpass_prepare _ _ _ _ _ _) as [[[[amps_div sigma_div] sigma_orig] n]|e];
    simpl; [|reflexivity].
  destruct (bandpass_loop _ _ _ _ _ _ _ _ _) as [stf|e]; reflexivity.
Qed.

Lemma flag_bandpass_vals (freqs : list float) (amps weights : array3) (telescope : string)
    (nSigma maxFlaggedFraction maxStddev : float) (plot : bool) (ants : list string)
    (s : nat) (outQueue : queue) :
  t_vals (_flag_bandpass np freqs amps weights telescope nSigma maxFlaggedFraction
                         maxStddev plot ants s outQueue) = amps.
Proof.
  unfold _flag_bandpass.
  destruct (bandpass_band np freqs telescope) as [[]|[[[band mmin] mmax]|e]];
    try reflexivity.
  destruct (np_all3 is_zero weights); [reflexivity|].
  set (body := bandpass_pol _ _ _ _ _ _ _ _ _ _ _ _ _).
  pose proof (for_pols_invariant (fun st => fst st = amps) body) as I.
  specialize (I (fun pol st H => eq_trans (bandpass_pol_vals _ _ _ _ _ _ _ _ _ _ _ _ pol st) H)
                (seq 0 (snd (dims3 amps))) (amps, weights) eq_refl).
  destruct (for_pols _ _ _) as [[u|e] [amps' weights']]; exact I.
Qed.

End Values.

(** ** Configuration errors of bandpass mode *)

Section Configuration.

Variable np : numlib.

Lemma bandpass_unsupported_telescope (freqs : list float) (amps weights : array3)
    (telescope : string) (nSigma maxFlaggedFraction maxStddev : float) (plot : bool)
    (ants : list string) (s : nat) (outQueue : queue) :
  (lower telescope =? "lofar")%string = false ->
  _flag_bandpass np freqs amps weights telescope nSigma maxFlaggedFraction maxStddev
                 plot ants s outQueue
  = mkEnd (Ok (Some 1%Z)) amps weights (outQueue ++ [(s, weights)]).
Proof.
  intros H. unfold _flag_bandpass, bandpass_band. rewrite H. reflexivity.
Qed.

Lemma bandpass_outside_bands (freqs : list float) (amps weights : array3)
    (telescope : string) (nSigma maxFlaggedFraction maxStddev : float) (plot : bool)
    (ants : list string) (s : nat) (outQueue : queue) :
  (lower telescope =? "lofar")%string = true ->
  outside_bands (np_median np freqs) = true ->
  _flag_bandpass np freqs amps weights telescope nSigma maxFlaggedFraction maxStddev
                 plot ants s outQueue
  = mkEnd (Raise (SystemExit 1)) amps weights outQueue.
Proof.
  intros H O. unfold _flag_bandpass, bandpass_band. rewrite H.
  unfold outside_bands in O. apply andb_prop in O as [O1 O2].
  apply negb_true_iff in O1, O2. rewrite O1, O2. reflexivity.
Qed.

(** [_fit_bandpass] leaves with status 1 on a band it does not know
    (lines 322-324). *)
Lemma fit_bandpass_unsupported_band (freq logamp sigma : list float) (band : string)
    (do_fit : bool) :
  (lower band =? "hba_low")%string = false ->
  (lower band =? "lba")%string = false ->
  _fit_bandpass np freq logamp sigma band do_fit = Raise (SystemExit 1).
Proof.
  intros H1 H2. unfold _fit_bandpass, select_band. rewrite H1, H2. reflexivity.
Qed.

End Configuration.

(** ** The cap on the standard deviation *)

Section Cap.

Variable np : numlib.
Variable transfer_flags : flag_export.
Variable bandpass_on_directions : directions_flagger.

Lemma transpose_fit (axis_names : list string) (a : array5) :
  axes_fit axis_names = true ->
  transpose (List.length axis_names) (run_axes axis_names) a
  = Ok (transposed (run_axes axis_names) a).
Proof.
  unfold axes_fit, transpose. intros ->. reflexivity.
Qed.

Lemma transpose_returns (ndim : nat) (axes : list nat) (a b : array5) :
  transpose ndim axes a = Ok b -> b = transposed axes a.
Proof.
  unfold transpose. destruct (_ && _); [|discriminate]. intros H. injection H as <-.
  reflexivity.
Qed.

Lemma transpose_raises (ndim : nat) (axes : list nat) (a b : array5) (e : exn) :
  transpose ndim axes a = Raise e -> transpose ndim axes b = Raise e.
Proof.
  unfold transpose. destruct (_ && _); [discriminate|]. intros H. exact H.
Qed.

Lemma transpose_length (ndim : nat) (axes : list nat) (a b : array5) :
  transpose ndim axes a = Ok b -> List.length axes = ndim.
Proof.
  unfold transpose. destruct (List.length axes =? ndim)%nat eqn:E; [|discriminate].
  intros _. apply Nat.eqb_eq, E.
Qed.

Lemma transpose_fits (axis_names : list string) (a b : array5) :
  transpose (List.length axis_names) (run_axes axis_names) a = Ok b ->
  axes_fit axis_names = true.
Proof.
  unfold transpose, axes_fit. destruct (_ && _); [reflexivity|discriminate].
Qed.

Lemma transpose_misfits (axis_names : list string) (a : array5) (e : exn) :
  transpose (List.length axis_names) (run_axes axis_names) a = Raise e ->
  axes_fit axis_names = false.
Proof.
  unfold transpose, axes_fit. destruct (_ && _); [discriminate|reflexivity].
Qed.

Lemma setValues_weight_returns (soltab soltab' : Soltab) (a : array5) :
  setValues_weight soltab a = Ok soltab' ->
  soltab' = mkSoltab (st_axes soltab) (st_type soltab) (st_ant soltab) (st_freq soltab)
                     (st_dir soltab) (st_val soltab) a (st_history soltab).
Proof.
  unfold setValues_weight.
  destruct (dims5 (st_weight soltab)) as [[[[n0 n1] n2] n3] n4].
  destruct (_ && _); [|discriminate]. intros H. injection H as <-. reflexivity.
Qed.

Lemma write_back_submitted (soltab : Soltab) (soltabExport : option string)
    (w : array5) (axes : list nat) (h : history_entry) (submitted : list task) :
  r_submitted (write_back transfer_flags soltab soltabExport w axes h submitted) = submitted.
Proof.
  unfold write_back.
  destruct (transpose _ _ _) as [wa|e]; [|reflexivity].
  destruct (setValues_weight _ _) as [soltab'|e]; [|reflexivity].
  destruct soltabExport as [name|]; [|reflexivity].
  destruct (transfer_flags _ _ _) as [[u|e] soltab'']; reflexivity.
Qed.

Lemma resid_directions_submitted (P : task -> Prop) (solType : string)
    (nSigma maxFlaggedFraction maxStddev : float) (soltab : Soltab) (vals : array5) :
  (forall v w s, P (ResidTask v w solType nSigma maxFlaggedFraction maxStddev
                              (st_ant soltab) s)) ->
  forall dirs weights submitted,
    Forall P submitted ->
    Forall P (snd (resid_directions np bandpass_on_directions solType nSigma
                                    maxFlaggedFraction maxStddev soltab
                                    vals dirs weights submitted)).
Proof.
  intros HP dirs. induction dirs as [|d rest IH]; intros weights submitted Hs; simpl.
  - exact Hs.
  - assert (Hs' : Forall P (submitted ++
              map (fun s => ResidTask (slice_station vals s d) (slice_station weights s d)
                                      solType nSigma maxFlaggedFraction maxStddev
                                      (st_ant soltab) s)
                  (seq 0 (List.length (st_ant soltab))))).
    { apply Forall_app. split; [exact Hs|]. apply Forall_map, Forall_forall.
      intros s _. apply HP. }
    destruct (mpm_run np _ _ []) as [results|e]; [|exact Hs'].
    apply IH, Hs'.
Qed.

Lemma run_submitted_cap (soltab : Soltab) (mode : option string)
    (maxFlaggedFraction nSigma : float) (telescope refAnt soltabExport : string)
    (ncpu : nat) :
  Forall (submitted_cap soltab mode)
         (r_submitted (run np transfer_flags bandpass_on_directions soltab mode
                           maxFlaggedFraction nSigma telescope refAnt soltabExport ncpu)).
Proof.
  unfold run. cbv zeta.
  destruct (match mode with None => true | Some m => _ end); [constructor|].
  destruct (_ || _); [constructor|].
  destruct (transpose _ _ (st_val soltab)) as [vals|e]; [|constructor].
  destruct (transpose _ _ (st_weight soltab)) as [weights|e]; [|constructor].
  destruct (match mode with Some m => (m =? "bandpass")%string | None => false end) eqn:B.
  - assert (Hm : mode = Some "bandpass"%string).
    { destruct mode as [m|]; [|discriminate]. apply String.eqb_eq in B. congruence. }
    destruct (negb (st_type soltab =? "amplitude")%string); [constructor|].
    assert (Ht : forall stations (fa fw : nat -> station_slice),
               Forall (submitted_cap soltab mode)
                 (map (fun s => BandpassTask (st_freq soltab) (fa s) (fw s)
                                  telescope nSigma maxFlaggedFraction 0.01%float false
                                  (st_ant soltab) s) stations)).
    { intros stations fa fw. apply Forall_map, Forall_forall. intros s _. simpl.
      split; [exact Hm|reflexivity]. }
    destruct (mpm_run np _ _ []) as [results|e]; [|apply Ht].
    rewrite write_back_submitted. apply Ht.
  - assert (Hm : mode <> Some "bandpass"%string).
    { intros ->. discriminate. }
    destruct (negb (str_in (st_type soltab) _)) eqn:Ty; [constructor|].
    apply negb_false_iff in Ty. unfold str_in in Ty. cbn [existsb] in Ty.
    pose proof (resid_directions_submitted (submitted_cap soltab mode) (st_type soltab)
                  nSigma maxFlaggedFraction
                  (if (st_type soltab =? "phase")%string then 0.1%float else 0.02%float)
                  soltab vals) as S.
    assert (HP : forall v w s,
               submitted_cap soltab mode
                 (ResidTask v w (st_type soltab) nSigma maxFlaggedFraction
                    (if (st_type soltab =? "phase")%string then 0.1%float else 0.02%float)
                    (st_ant soltab) s)).
    { intros v w s. simpl. split; [exact Hm|]. split; [reflexivity|].
      destruct (st_type soltab =? "phase")%string eqn:Ph.
      - left. apply String.eqb_eq in Ph. split; [exact Ph|reflexivity].
      - right. cbn [orb] in Ty. rewrite orb_false_r in Ty.
        apply String.eqb_eq in Ty. split; [exact Ty|reflexivity]. }
    specialize (S HP
                  (if str_in "dir" (st_axes soltab)
                   then seq 0 (List.length (st_dir soltab)) else [0])
                  (flag_nans vals weights) [] (Forall_nil _)).
    destruct (resid_directions _ _ _ _ _ _ _ _ _ _ _) as [[w'|e] sub]; simpl in S;
      [rewrite write_back_submitted|]; exact S.
Qed.

(** The tasks of resid mode on a table without direction axis: one
    per station, on the slices of the station. *)
Lemma run_resid_submitted (soltab : Soltab) (maxFlaggedFraction nSigma : float)
    (telescope refAnt soltabExport : string) (ncpu : nat) :
  resid_table soltab = true ->
  axes_fit (st_axes soltab) = true ->
  r_submitted (run np transfer_flags bandpass_on_directions soltab (Some "resid"%string)
                   maxFlaggedFraction nSigma telescope refAnt soltabExport ncpu)
  = map (fun s => ResidTask
                    (slice_station (transposed (run_axes (st_axes soltab)) (st_val soltab)) s 0)
                    (slice_station
                       (flag_nans (transposed (run_axes (st_axes soltab)) (st_val soltab))
                                  (transposed (run_axes (st_axes soltab)) (st_weight soltab)))
                       s 0)
                    (st_type soltab) nSigma maxFlaggedFraction
                    (if (st_type soltab =? "phase")%string
                     then 0.1%float else 0.02%float)
                    (st_ant soltab) s)
        (seq 0 (List.length (st_ant soltab))).
Proof.
  intros T A. unfold resid_table in T.
  apply andb_prop in T as [T Hty]. apply andb_prop in T as [T Hdir].
  apply andb_prop in T as [T Hant]. apply andb_prop in T as [T Htime].
  apply andb_prop in T as [Hfreq Hpol]. apply negb_true_iff in Hdir.
  unfold run. cbv zeta.
  change (negb (str_in (lower "resid") ["bandpass"; "resid"]%string)) with false.
  change ("resid" =? "bandpass")%string with false. cbv iota.
  rewrite Hfreq, Hpol, Htime, Hant, Hdir, Hty. simpl negb. cbv iota. simpl orb. cbv iota.
  rewrite !(transpose_fit _ _ A).
  simpl resid_directions.
  destruct (mpm_run np _ _ []) as [results|e]; [|reflexivity].
  apply write_back_submitted.
Qed.

End Cap.

(** ** Extrapolation in the spline evaluator *)

Lemma B_flagged_leaf (x : float) (i : nat) (t : list float) :
  _B x 0 i t true false = Ok 1%float.
Proof. reflexivity. Qed.

Lemma B_inverted_leaf (x : float) (i : nat) (t : list float) :
  _B x 0 i t true true = Ok (-1)%float.
Proof. reflexivity. Qed.

Lemma bspline_flags_never_invert (x : float) (t : list float) (k n : nat)
    (fl : list bool * bool) :
  bspline_flags x t k n = Ok fl -> snd fl = false.
Proof.
  unfold bspline_flags. destruct (getitem t n) as [tn|e]; [|discriminate]. simpl.
  destruct (tn <=? x)%float; [intros H; injection H as <-; reflexivity|].
  destruct (getitem t k) as [tk|e]; [|discriminate]. simpl.
  destruct (x <? tk)%float; intros H; injection H as <-; reflexivity.
Qed.

Lemma bspline_flags_above (x : float) (t : list float) (k n : nat) (tn : float) :
  getitem t n = Ok tn -> (tn <=? x)%float = true ->
  bspline_flags x t k n = Ok (set_last (repeat false n), false).
Proof. intros G H. unfold bspline_flags. rewrite G. simpl. rewrite H. reflexivity. Qed.

Lemma bspline_flags_below (x : float) (t : list float) (k n : nat) (tn tk : float) :
  getitem t n = Ok tn -> (tn <=? x)%float = false ->
  getitem t k = Ok tk -> (x <? tk)%float = true ->
  bspline_flags x t k n = Ok (set_first (repeat false n), false).
Proof.
  intros G H G' H'. unfold bspline_flags. rewrite G. simpl. rewrite H, G'. simpl.
  rewrite H'. reflexivity.
Qed.

(** ** A second run *)

Lemma fully_flagged_keeps (w w' : array3) (pol : nat) :
  dims3 w' = dims3 w -> keeps_flags3 w w' -> fully_flagged w pol -> fully_flagged w' pol.
Proof.
  unfold fully_flagged, np_all2. intros Hd K H.
  rewrite dims2_slice_pol in *. rewrite Hd.
  apply forallb_forall. intros i Hi. rewrite forallb_forall in H.
  specialize (H i Hi). rewrite get2_slice_pol in *. apply K, H.
Qed.

Section Dims.

Variable np : numlib.

Lemma resid_pol_dims (soltype : string) (nSigma maxFlaggedFraction maxStddev : float)
    (ants : list string) (s : nat) (pol : nat) (st : array3 * array3) :
  dims3 (snd (snd (resid_pol np soltype nSigma maxFlaggedFraction maxStddev ants s pol st)))
  = dims3 (snd st).
Proof.
  unfold resid_pol, resid_prepare. cbv zeta.
  destruct (np_all2 is_zero _); [reflexivity|].
  destruct (resid_loop _ _ _ _ _ _) as [stf|e]; [|reflexivity].
  unfold resid_commit. destruct (last_round stf) as [r|]; [|reflexivity].
  destruct (py_div _ _) as [frac|e]; [|reflexivity]. simpl.
  destruct (maxFlaggedFraction <? frac)%float;
    apply (logged_invariant (fun w => dims3 w = dims3 (snd st))); reflexivity.
Qed.

Lemma flag_resid_dims (vals weights : array3) (soltype : string)
    (nSigma maxFlaggedFraction maxStddev : float) (ants : list string) (s : nat)
    (outQueue : queue) :
  dims3 (t_weights (_flag_resid np vals weights soltype nSigma maxFlaggedFraction
                                maxStddev ants s outQueue)) = dims3 weights.
Proof.
  unfold _flag_resid. destruct (np_all3 is_zero weights); [reflexivity|].
  pose proof (for_pols_invariant (fun st => dims3 (snd st) = dims3 weights)
                (resid_pol np soltype nSigma maxFlaggedFraction maxStddev ants s)) as I.
  specialize (I (fun pol st H =>
                   eq_trans (resid_pol_dims soltype nSigma maxFlaggedFraction maxStddev
                                            ants s pol st) H)
                (seq 0 (snd (dims3 vals))) (vals, weights) eq_refl).
  destruct (for_pols _ _ _) as [[u|e] [vals' weights']]; exact I.
Qed.

Lemma bandpass_pol_dims (freqs : list float) (amps amps_flagged sigma : array3)
    (band : string) (nSigma maxFlaggedFraction maxStddev median_min median_max : float)
    (ants : list string) (s : nat) (pol : nat) (st : array3 * array3) :
  dims3 (snd (snd (bandpass_pol np freqs amps amps_flagged sigma band nSigma
                                maxFlaggedFraction maxStddev median_min median_max
                                ants s pol st)))
  = dims3 (snd st).
Proof.
  unfold bandpass_pol.
  destruct (np_all2 is_zero _); [reflexivity|].
  destruct (bandpass_prepare _ _ _ _ _ _) as [[[[amps_div sigma_div] sigma_orig] n]|e];
    simpl; [|reflexivity].
  destruct (bandpass_loop _ _ _ _ _ _ _ _ _) as [stf|e]; simpl; [|reflexivity].
  unfold bandpass_commit. destruct (last_round stf) as [r|]; [|reflexivity].
  destruct (nSigma * maxStddev <? br_stdev_all r)%float;
    [apply (logged_invariant (fun w => dims3 w = dims3 (snd st))); reflexivity|].
  destruct (py_div _ _) as [frac|e]; [|reflexivity]. simpl.
  destruct (maxFlaggedFraction <? frac)%float;
    [apply (logged_invariant (fun w => dims3 w = dims3 (snd st))); reflexivity|].
  destruct (_ || _);
    apply (logged_invariant (fun w => dims3 w = dims3 (snd st))); reflexivity.
Qed.

Lemma flag_bandpass_dims (freqs : list float) (amps weights : array3) (telescope : string)
    (nSigma maxFlaggedFraction maxStddev : float) (plot : bool) (ants : list string)
    (s : nat) (outQueue : queue) :
  dims3 (t_weights (_flag_bandpass np freqs amps weights telescope nSigma
                                   maxFlaggedFraction maxStddev plot ants s outQueue))
  = dims3 weights.
Proof.
  unfold _flag_bandpass.
  destruct (bandpass_band np freqs telescope) as [[]|[[[band mmin] mmax]|e]];
    try reflexivity.
  destruct (np_all3 is_zero weights); [reflexivity|].
  set (body := bandpass_pol _ _ _ _ _ _ _ _ _ _ _ _ _).
  pose proof (for_pols_invariant (fun st => dims3 (snd st) = dims3 weights) body) as I.
  specialize (I (fun pol st H => eq_trans (bandpass_pol_dims _ _ _ _ _ _ _ _ _ _ _ _ pol st) H)
                (seq 0 (snd (dims3 amps))) (amps, weights) eq_refl).
  destruct (for_pols _ _ _) as [[u|e] [amps' weights']]; exact I.
Qed.

End Dims.

(** * The claims *)

(** A closed equation settled by running both sides. *)
Ltac by_evaluation := vm_compute; reflexivity.

(** The same for a conjunction of closed equations. *)
Ltac each_by_evaluation :=
  repeat match goal with
         | |- _ /\ _ => split
         end; by_evaluation.

(** C1, at an input where the code departs from it: [run] in resid
    mode, with its default parameters, on the table stored in the order
    [freq, time, ant, pol].  The axes of lines 512-522 are [1, 2, 0, 3];
    the two tasks flag nothing and the run returns 0.  The solution at
    frequency 0, time 0, station 1 is flagged in the table and is not
    flagged in the table the run leaves; the zero is now the weight of
    the solution at frequency 1, time 0, station 0: lines 576-580 give
    the weights to the table transposed with the same axes once more,
    not with their inverse.  (The weights in the order of the table,
    before and after.) *)
Theorem write_back_loses_a_flag :
  run_axes (st_axes table_stored) = [1; 2; 0; 3] /\
  r_status run_stored = Ok 0%Z /\
  entries5 (st_weight table_stored) = [1; 0; 1; 1; 1; 1; 1; 1]%float /\
  entries5 (st_weight (r_soltab run_stored)) = [1; 1; 1; 1; 0; 1; 1; 1]%float /\
  is_zero (get5 (st_weight table_stored) 0 0 1 0 0) = true /\
  is_zero (get5 (st_weight (r_soltab run_stored)) 0 0 1 0 0) = false.
Proof. each_by_evaluation. Qed.

(** C5 (bounded iteration).  The convergence loop of either flagger
    goes through at most 5 rounds, whatever the input; this holds of
    the loop for any amount of fuel, and six rounds of fuel are always
    enough for it to end. *)
Theorem bounded_iteration (np : numlib) :
  (forall nSigma maxStddev weights_orig vals_flagged n st,
      resid_loop np nSigma maxStddev weights_orig vals_flagged n = Ok st ->
      rounds st <= 5) /\
  (forall freqs band nSigma maxStddev amps_div sigma_div sigma_orig n st,
      bandpass_loop np freqs band nSigma maxStddev amps_div sigma_div sigma_orig n = Ok st ->
      rounds st <= 5) /\
  (forall (M R : Type) (fit_and_flag : M -> result R) nbad reset n fuel m st,
      clip_loop fit_and_flag nbad reset n fuel (loop_init m) = Some (Ok st) ->
      rounds st <= 5) /\
  (forall (M R : Type) (fit_and_flag : M -> result R) nbad reset n m,
      clip_loop fit_and_flag nbad reset n (S maxiter) (loop_init m) <> None).
Proof.
  repeat split.
  - intros. eapply run_clip_loop_rounds. eassumption.
  - intros. eapply run_clip_loop_rounds. eassumption.
  - intros M R fit_and_flag nbad reset n fuel m st H.
    eapply clip_loop_rounds; [|exact H]. split; [reflexivity|]. cbn. unfold maxiter. lia.
  - intros. apply clip_loop_total.
Qed.

Lemma bounded_iteration_witness :
  loop_ex = Ok loop_state_ex /\ rounds loop_state_ex <= 5.
Proof.
  assert (E : loop_ex = Ok loop_state_ex) by (vm_compute; reflexivity).
  split; [exact E|].
  exact (proj1 (bounded_iteration Small.numpy) _ _ _ _ _ _ E).
Defined.




(** C10 (the cap on the standard deviation).  Every task [run] submits
    carries the cap that its mode and the table's solution type fix:
    0.01 in bandpass mode, 0.1 for phases and 0.02 for amplitudes in
    resid mode.  [run] has no argument that changes it. *)
Theorem maxStddev_fixed_by_mode_and_type (np : numlib)
    (transfer_flags : flag_export) (bandpass_on_directions : directions_flagger)
    (soltab : Soltab) (mode : option string) (maxFlaggedFraction nSigma : float)
    (telescope refAnt soltabExport : string) (ncpu : nat) :
  Forall (submitted_cap soltab mode)
         (r_submitted (run np transfer_flags bandpass_on_directions soltab mode
                           maxFlaggedFraction nSigma telescope refAnt soltabExport ncpu)).
Proof. apply run_submitted_cap. Qed.

(** The three caps on the one-station table. *)
Example caps_of_the_three_modes :
  map task_maxStddev
      (r_submitted (run Small.numpy no_transfer no_directions (table_ex 150e6 "amplitude")
                        (Some "bandpass"%string) 0.5 5 "lofar" "" "" 0)) = [0.01%float] /\
  map task_maxStddev
      (r_submitted (run Small.numpy no_transfer no_directions (table_ex 150e6 "phase")
                        (Some "resid"%string) 0.5 5 "lofar" "" "" 0)) = [0.1%float] /\
  map task_maxStddev
      (r_submitted (run Small.numpy no_transfer no_directions (table_ex 150e6 "amplitude")
                        (Some "resid"%string) 0.5 5 "lofar" "" "" 0)) = [0.02%float].
Proof. each_by_evaluation. Qed.

(** C2, at an input where the code departs from it: [run] in bandpass
    mode with the telescope "vla" - a configuration error - on the
    one-station table.  The task puts its weights on the queue and
    returns 1, and the run is not aborted: it returns 0. *)
Theorem unsupported_telescope_does_not_abort :
  configuration_error Small.numpy [150e6%float] "vla" = true /\
  (let amps := slice_station (st_val (table_ex 150e6 "amplitude")) 0 0 in
   let weights := slice_station (st_weight (table_ex 150e6 "amplitude")) 0 0 in
   _flag_bandpass Small.numpy [150e6%float] amps weights "vla" 5 0.5 0.01 false
                  ["CS001"%string] 0 []
   = mkEnd (Ok (Some 1%Z)) amps weights [(0, weights)]) /\
  r_status (run Small.numpy no_transfer no_directions (table_ex 150e6 "amplitude")
                (Some "bandpass"%string) 0.5 5 "vla" "" "" 0) = Ok 0%Z /\
  ~ aborted (table_ex 150e6 "amplitude")
            (run Small.numpy no_transfer no_directions (table_ex 150e6 "amplitude")
                 (Some "bandpass"%string) 0.5 5 "vla" "" "" 0).
Proof.
  assert (S : r_status (run Small.numpy no_transfer no_directions
                            (table_ex 150e6 "amplitude")
                            (Some "bandpass"%string) 0.5 5 "vla" "" "" 0) = Ok 0%Z)
    by (vm_compute; reflexivity).
  split; [reflexivity|]. split; [reflexivity|]. split; [exact S|].
  intros [_ [c [Hc [H|H]]]]; rewrite S in H.
  - injection H as <-. apply Hc. reflexivity.
  - discriminate.
Qed.

(** C3, at an input where the code departs from it.  On amplitudes
    with logarithms 0, 0, 0, 1, 4, 16 and unit weights the weighted
    mean is 3.5; line 87 computes 21/36 (the sum is divided by the
    number of points once more), and nothing is subtracted: the
    residuals given to the loop are the logarithms themselves. *)
Theorem amplitude_mean_not_removed :
  match resid_prepare Small.numpy "amplitude" 0 vals_ex weights_ex with
  | (_, _, Some (weights_orig, vals_flagged, n, mean)) =>
      let logv := map (np_log10 Small.numpy) amps_ex in
      logv = [0; 0; 0; 1; 4; 16]%float /\
      weighted_mean (flatten2 weights_orig) logv = 3.5%float /\
      mean = (21 / 36)%float /\
      flatten2 vals_flagged = logv
  | (_, _, None) => False
  end.
Proof. vm_compute. repeat split; reflexivity. Qed.

(** In phase mode the mean is the argument of the weighted sum of the
    complex exponentials, over the number of points times the sum of
    the weights, and the residuals are the values less that mean,
    brought back by [normalize_phase], with the flagged ones at zero. *)
Lemma phase_mean_removed (np : numlib) (pol : nat) (vals weights vals' weights' : array3)
    (weights_orig vals_flagged : array2) (n : nat) (mean : float) :
  resid_prepare np "phase" pol vals weights
    = (vals', weights', Some (weights_orig, vals_flagged, n, mean)) ->
  mean = np_angle np
           (np_cdiv np
              (np_nansum_c np
                 (map2 (fun wi vi => np_scale np wi (np_exp_j np vi))
                       (flatten2 weights_orig) (flatten2 (slice_pol vals pol))))
              (py_float (List.length (flatten2 (slice_pol vals pol)))
               * py_sum (flatten2 weights_orig))%float) /\
  forall t f,
    get2 vals_flagged t f =
    if mem2 (t, f) (np_where2 (fun t f => is_zero (get2 weights_orig t f))
                              (dims2 weights_orig))
    then 0%float
    else normalize_phase np (get3 vals t f pol - mean)%float.
Proof.
  unfold resid_prepare. cbv zeta.
  change ("phase" =? "phase")%string with true.
  change ("phase" =? "amplitude")%string with false. cbv iota.
  destruct (np_all2 is_zero _); [discriminate|].
  intros H. injection H as _ _ <- <- _ <-.
  split; [reflexivity|]. intros t f. simpl. rewrite get2_slice_pol. reflexivity.
Qed.

(** C4, at an input where the code departs from it: [run] in resid
    mode with [nSigma = 110] on the long table.  The first round finds
    one point bad, the second finds two; the count has not stabilized,
    two is neither zero nor all 16000 points, and the cap of five
    rounds is not reached - yet the loop is over: line 109 has set
    [nflag_prev] to the [nflag] of the same round. *)
Theorem loop_stops_after_second_round :
  r_submitted first_long
    = [ResidTask vals_long weights_long "amplitude" 110 0.5 0.02 ["CS001"%string] 0] /\
  resid_history Small.numpy "amplitude" 110%float 0.02%float 0 vals_long weights_long
    = Some [1; 2] /\
  match snd (resid_prepare Small.numpy "amplitude" 0 vals_long weights_long) with
  | Some (_, _, nsols_unflagged, _) =>
      (nsols_unflagged =? 160 * 100)%nat = true
      /\ ~ early_stop_justified nsols_unflagged [1; 2]
  | None => False
  end /\
  List.length [1; 2] < maxiter.
Proof.
  split.
  { unfold first_long, run_long.
    rewrite (run_resid_submitted Small.numpy no_transfer no_directions table_long)
      by reflexivity.
    reflexivity. }
  split; [by_evaluation|].
  split; [|unfold maxiter; simpl; lia].
  assert (E' : match snd (resid_prepare Small.numpy "amplitude" 0 vals_long weights_long)
               with
               | Some (_, _, n', _) => (n' =? 160 * 100)%nat
               | None => false
               end = true)
    by by_evaluation.
  destruct (snd (resid_prepare Small.numpy "amplitude" 0 vals_long weights_long))
    as [[[[wo vf] n] m]|]; [|discriminate].
  split; [exact E'|]. unfold early_stop_justified.
  cbn [rev app]. intros [H|[H|H]]; try discriminate.
  subst n. vm_compute in E'. discriminate.
Qed.

(** On every input the loop of either flagger is over after two
    rounds. *)
Lemma loops_end_after_two_rounds (np : numlib) :
  (forall nSigma maxStddev weights_orig vals_flagged n st,
      resid_loop np nSigma maxStddev weights_orig vals_flagged n = Ok st ->
      rounds st <= 2) /\
  (forall freqs band nSigma maxStddev amps_div sigma_div sigma_orig n st,
      bandpass_loop np freqs band nSigma maxStddev amps_div sigma_div sigma_orig n = Ok st ->
      rounds st <= 2).
Proof.
  split; intros; eapply run_clip_loop_two_rounds; eassumption.
Qed.

(** C6 (extrapolation), as the code has it.  [_bspline] never sets
    [invert]: for [x] at or above [t[n]] it flags the last basis
    function, for [x] below [t[k]] the first, and on either side the
    degree-0 values of the flagged function are forced to +1.0. *)
Theorem extrapolation_forces_plus_one (x : float) (t : list float) (k n : nat) :
  (forall fl,
      bspline_flags x t k n = Ok fl ->
      snd fl = false /\ forall i, _B x 0 i t true (snd fl) = Ok 1%float) /\
  (forall tn,
      getitem t n = Ok tn -> (tn <=? x)%float = true ->
      bspline_flags x t k n = Ok (set_last (repeat false n), false)) /\
  (forall tn tk,
      getitem t n = Ok tn -> (tn <=? x)%float = false ->
      getitem t k = Ok tk -> (x <? tk)%float = true ->
      bspline_flags x t k n = Ok (set_first (repeat false n), false)).
Proof.
  split; [|split].
  - intros fl H. apply bspline_flags_never_invert in H. rewrite H.
    split; [reflexivity|]. intros i. apply B_flagged_leaf.
  - intros. eapply bspline_flags_above; eassumption.
  - intros. eapply bspline_flags_below; eassumption.
Qed.

(** 20 MHz lies below the knots of the LBA model. *)
Lemma extrapolation_forces_plus_one_witness :
  bspline_flags 20e6 knots_LBA 3 13 = Ok (set_first (repeat false 13), false).
Proof.
  apply (proj2 (proj2 (extrapolation_forces_plus_one 20e6 knots_LBA 3 13))
               77610779.0%float 30003357.0%float); reflexivity.
Defined.

(** C6 as stated fails: below the LBA knots (20 MHz) and above them
    (80 MHz) the forced value is the same, +1.0, and the first and the
    last basis function, each with coefficient 1, both contribute a
    positive value. *)
Lemma extrapolation_same_sign :
  forced_leaf 20e6 knots_LBA 3 13 = Ok 1%float /\
  forced_leaf 80e6 knots_LBA 3 13 = Ok 1%float /\
  (exists lo hi,
      _bspline 20e6 knots_LBA (1 :: repeat 0 12)%float 3 = Ok lo
      /\ _bspline 80e6 knots_LBA (repeat 0%float 12 ++ [1%float]) 3 = Ok hi
      /\ (0 <? lo)%float = true /\ (0 <? hi)%float = true).
Proof.
  split; [reflexivity|]. split; [reflexivity|].
  eexists. eexists. split; [cbv; reflexivity|]. split; [cbv; reflexivity|].
  split; reflexivity.
Qed.

(** C7 (a second run), as the code has it.  The flagger run a second
    time, with the same parameters, on the weights the first run left
    removes no flag, and a polarization the first run left fully
    flagged stays fully flagged; it can add flags. *)
Theorem second_run_keeps_flags (np : numlib) :
  (forall vals weights soltype nSigma maxFlaggedFraction maxStddev ants s outQueue outQueue',
      let first := _flag_resid np vals weights soltype nSigma maxFlaggedFraction maxStddev
                               ants s outQueue in
      let second := _flag_resid np vals (t_weights first) soltype nSigma maxFlaggedFraction
                                maxStddev ants s outQueue' in
      keeps_flags3 (t_weights first) (t_weights second) /\
      forall pol, fully_flagged (t_weights first) pol -> fully_flagged (t_weights second) pol) /\
  (forall freqs amps weights telescope nSigma maxFlaggedFraction maxStddev plot ants s
          outQueue outQueue',
      let first := _flag_bandpass np freqs amps weights telescope nSigma maxFlaggedFraction
                                  maxStddev plot ants s outQueue in
      let second := _flag_bandpass np freqs amps (t_weights first) telescope nSigma
                                   maxFlaggedFraction maxStddev plot ants s outQueue' in
      keeps_flags3 (t_weights first) (t_weights second) /\
      forall pol, fully_flagged (t_weights first) pol -> fully_flagged (t_weights second) pol).
Proof.
  split; intros; cbv zeta.
  - split; [apply flag_resid_keeps_flags|]. intros pol.
    apply fully_flagged_keeps; [apply flag_resid_dims|apply flag_resid_keeps_flags].
  - split; [apply flag_bandpass_keeps_flags|]. intros pol.
    apply fully_flagged_keeps; [apply flag_bandpass_dims|apply flag_bandpass_keeps_flags].
Qed.

(** The three channels of [flag_hba] are fully flagged by the first
    run, and so they are after a second. *)
Lemma second_run_keeps_flags_witness :
  fully_flagged (t_weights flag_hba) 0 /\
  fully_flagged
    (t_weights (_flag_bandpass numpy_hba freqs_hba amps_hba (t_weights flag_hba) "lofar"
                               5%float 0.5%float 0.01%float false ["CS001"%string] 0 [])) 0.
Proof.
  assert (F : fully_flagged (t_weights flag_hba) 0) by by_evaluation.
  split; [exact F|].
  exact (proj2 (proj2 (second_run_keeps_flags numpy_hba) freqs_hba amps_hba weights_hba
                      "lofar"%string 5%float 0.5%float 0.01%float false
                      ["CS001"%string] 0 [] []) 0 F).
Defined.

(** C7 as stated fails, and by the design of the loop.  On the hundred
    amplitudes of [amps_tiers] every round brings the threshold below
    one more of the six outliers.  The first run stops after the two
    rounds it ever makes and flags the first two; the second run, on
    the weights of the first, flags the next two.  (The weights of the
    first eight points, after the first and after the second run.) *)
Lemma second_run_flags_more :
  (t_result first_tiers, firstn 8 (flatten3 (t_weights first_tiers)),
   t_result second_tiers, firstn 8 (flatten3 (t_weights second_tiers)))
  = (Ok None, [0; 0; 1; 1; 1; 1; 1; 1]%float,
     Ok None, [0; 0; 0; 0; 1; 1; 1; 1]%float).
Proof. by_evaluation. Qed.

(** The same with the loop as the spec words it, which goes on until
    the count stabilizes: on [amps_tiers] the counts are 1, 2, 3, 4, 5
    and the cap of five rounds ends the loop with five of the six
    outliers flagged; on the weights that leaves, a second loop flags
    the sixth (counts 1, 1).  So the cap alone keeps the weights of a
    first run from being a fixed point. *)
Lemma second_run_flags_more_as_specified :
  resid_as_specified Small.numpy "amplitude" 6%float 10%float 0 vals_tiers
                     (column3 (ones 100))
  = Some ([0; 0; 0; 0; 0]%float ++ ones 95, [1; 2; 3; 4; 5]) /\
  resid_as_specified Small.numpy "amplitude" 6%float 10%float 0 vals_tiers
                     (column3 ([0; 0; 0; 0; 0]%float ++ ones 95))
  = Some ([0; 0; 0; 0; 0; 0]%float ++ ones 94, [1; 1]).
Proof. each_by_evaluation. Qed.

(** C9 (the value slice), as the code has it.  A resid task on phases
    and a bandpass task leave the value slice as they found it. *)
Theorem values_untouched_on_phases_and_in_bandpass (np : numlib) :
  (forall vals weights nSigma maxFlaggedFraction maxStddev ants s outQueue,
      t_vals (_flag_resid np vals weights "phase" nSigma maxFlaggedFraction maxStddev
                          ants s outQueue) = vals) /\
  (forall freqs amps weights telescope nSigma maxFlaggedFraction maxStddev plot ants s
          outQueue,
      t_vals (_flag_bandpass np freqs amps weights telescope nSigma maxFlaggedFraction
                             maxStddev plot ants s outQueue) = amps).
Proof.
  split; intros; [apply flag_resid_phase_vals|apply flag_bandpass_vals].
Qed.

(** C9 as stated fails: a resid task on amplitudes overwrites the value
    slice with the logarithms (line 81) and sets the flagged entries to
    zero (line 92, through the view). *)
Lemma amplitude_values_overwritten :
  flatten3 vals_ex = [1; 1; 1; 10; 10000; 1e16]%float /\
  t_result first_run = Ok None /\
  flatten3 (t_vals first_run) = [0; 0; 0; 1; 4; 16]%float /\
  flatten3 (t_vals second_run) = [0; 0; 0; 0; 0; 0]%float /\
  get3 (t_vals first_run) 3 0 0 <> get3 vals_ex 3 0 0.
Proof.
  split; [by_evaluation|]. split; [by_evaluation|]. split; [by_evaluation|].
  split; [by_evaluation|].
  intros H. vm_compute in H.
  discriminate (f_equal (fun x => PrimFloat.eqb x 1) H).
Qed.

(** * Lemmas for the further properties *)

(** ** Relations between the weights before and after *)

Section Pointwise.

Variable R : float -> float -> Prop.
Hypothesis R_refl : forall a, R a a.
Hypothesis R_trans : forall a b c, R a b -> R b c -> R a c.
Hypothesis R_zero : forall a, R a 0%float.

Variable np : numlib.

Lemma pointwise3_refl (w : array3) : pointwise3 R w w.
Proof. intros t f p. apply R_refl. Qed.

Lemma pointwise3_trans (a b c : array3) :
  pointwise3 R a b -> pointwise3 R b c -> pointwise3 R a c.
Proof. intros H1 H2 t f p. eapply R_trans; [apply H1|apply H2]. Qed.

Lemma pointwise5_refl (w : array5) : pointwise5 R w w.
Proof. intros t s f p d. apply R_refl. Qed.

Lemma pointwise2_assign_at (idx : list index2) (w : array2) :
  pointwise2 R w (assign_at idx 0%float w).
Proof.
  intros t f. simpl. destruct (mem2 (t, f) idx); [apply R_zero|apply R_refl].
Qed.

Lemma pointwise3_fill_pol (w : array3) (pol : nat) :
  pointwise3 R w (fill_pol w pol 0%float).
Proof.
  intros t f p. simpl. destruct (p =? pol)%nat; [apply R_zero|apply R_refl].
Qed.

Lemma pointwise3_fill_freqs (w : array3) (fs : list nat) (pol : nat) :
  pointwise3 R w (fill_freqs w fs pol 0%float).
Proof.
  intros t f p. simpl.
  destruct ((p =? pol)%nat && existsb (Nat.eqb f) fs); [apply R_zero|apply R_refl].
Qed.

Lemma pointwise3_set_pol (w : array3) (pol : nat) (m : array2) :
  pointwise2 R (slice_pol w pol) m -> pointwise3 R w (set_pol w pol m).
Proof.
  intros Hm t f p. simpl. destruct (p =? pol)%nat eqn:E; [|apply R_refl].
  apply Nat.eqb_eq in E. subst p. specialize (Hm t f).
  rewrite get2_slice_pol in Hm. exact Hm.
Qed.

Lemma resid_prepare_pointwise (soltype : string) (pol : nat) (vals weights : array3) :
  pointwise3 R weights (snd (fst (resid_prepare np soltype pol vals weights))).
Proof.
  unfold resid_prepare.
  set (bad_sols := if (soltype =? "phase")%string then _ else _).
  assert (K : pointwise3 R weights
                (set_pol weights pol (assign_at bad_sols 0%float (slice_pol weights pol)))).
  { apply pointwise3_set_pol, pointwise2_assign_at. }
  destruct (np_all2 is_zero _); exact K.
Qed.

Lemma resid_loop_pointwise (nSigma maxStddev : float) (weights_orig vals_flagged : array2)
    (n : nat) (st : loop_state array2 resid_round_out) :
  resid_loop np nSigma maxStddev weights_orig vals_flagged n = Ok st ->
  pointwise2 R weights_orig (trial st).
Proof.
  apply (run_clip_loop_trial _ _ _ _ (pointwise2 R weights_orig)).
  - intros r. apply pointwise2_assign_at.
  - intros t f. apply R_refl.
Qed.

Lemma resid_commit_pointwise (maxFlaggedFraction : float) (ants : list string) (s : nat)
    (pol : nat) (weights : array3) (n : nat) (st : loop_state array2 resid_round_out) :
  pointwise2 R (slice_pol weights pol) (trial st) ->
  pointwise3 R weights (snd (resid_commit maxFlaggedFraction ants s pol weights n st)).
Proof.
  intros Ht. unfold resid_commit.
  destruct (last_round st) as [r|]; [|apply pointwise3_refl].
  destruct (py_div _ _) as [frac|e]; [|apply pointwise3_refl].
  destruct (maxFlaggedFraction <? frac)%float; cbv zeta.
  - apply logged_invariant; [apply pointwise3_refl|apply pointwise3_fill_pol].
  - apply logged_invariant; apply pointwise3_set_pol, Ht.
Qed.

Lemma resid_pol_pointwise (soltype : string) (nSigma maxFlaggedFraction maxStddev : float)
    (ants : list string) (s : nat) (pol : nat) (st : array3 * array3) :
  pointwise3 R (snd st)
    (snd (snd (resid_pol np soltype nSigma maxFlaggedFraction maxStddev ants s pol st))).
Proof.
  unfold resid_pol.
  pose proof (resid_prepare_pointwise soltype pol (fst st) (snd st)) as K.
  destruct (resid_prepare np soltype pol (fst st) (snd st))
    as [[vals' weights'] [[[[weights_orig vals_flagged] n] mean]|]] eqn:E; simpl in K.
  2:{ exact K. }
  apply resid_prepare_weights_orig in E.
  destruct (resid_loop np nSigma maxStddev weights_orig vals_flagged n) as [stf|e] eqn:L.
  2:{ exact K. }
  apply resid_loop_pointwise in L. subst weights_orig.
  simpl. eapply pointwise3_trans; [exact K|].
  apply resid_commit_pointwise. exact L.
Qed.

Lemma flag_resid_pointwise (vals weights : array3) (soltype : string)
    (nSigma maxFlaggedFraction maxStddev : float) (ants : list string) (s : nat)
    (outQueue : queue) :
  pointwise3 R weights
    (t_weights (_flag_resid np vals weights soltype nSigma maxFlaggedFraction maxStddev
                            ants s outQueue)).
Proof.
  unfold _flag_resid. destruct (np_all3 is_zero weights); [apply pointwise3_refl|].
  pose proof (for_pols_invariant (fun st => pointwise3 R weights (snd st))
                (resid_pol np soltype nSigma maxFlaggedFraction maxStddev ants s)) as I.
  specialize (I (fun pol st H => pointwise3_trans _ _ _ H
                   (resid_pol_pointwise soltype nSigma maxFlaggedFraction maxStddev
                                        ants s pol st))
                (seq 0 (snd (dims3 vals))) (vals, weights) (pointwise3_refl weights)).
  destruct (for_pols _ _ _) as [[u|e] [vals' weights']]; exact I.
Qed.

Lemma bandpass_commit_pointwise (amps : array3)
    (nSigma maxFlaggedFraction maxStddev median_min median_max : float)
    (ants : list string) (s : nat) (pol : nat)
    (weights : array3) (n : nat) (st : loop_state (list float) bandpass_round_out) :
  pointwise3 R weights
    (snd (bandpass_commit np amps nSigma maxFlaggedFraction maxStddev median_min median_max
                          ants s pol weights n st)).
Proof.
  unfold bandpass_commit.
  destruct (last_round st) as [r|]; [|apply pointwise3_refl].
  destruct (nSigma * maxStddev <? br_stdev_all r)%float.
  { apply logged_invariant; [apply pointwise3_refl|apply pointwise3_fill_pol]. }
  destruct (py_div _ _) as [frac|e]; [|apply pointwise3_refl].
  destruct (maxFlaggedFraction <? frac)%float.
  { apply logged_invariant; [apply pointwise3_refl|apply pointwise3_fill_pol]. }
  cbv zeta.
  destruct (_ || _); apply logged_invariant; try apply pointwise3_fill_freqs;
    (eapply pointwise3_trans; [apply pointwise3_fill_freqs|apply pointwise3_fill_pol]).
Qed.

Lemma bandpass_pol_pointwise (freqs : list float) (amps amps_flagged sigma : array3)
    (band : string) (nSigma maxFlaggedFraction maxStddev median_min median_max : float)
    (ants : list string) (s : nat) (pol : nat) (st : array3 * array3) :
  pointwise3 R (snd st)
    (snd (snd (bandpass_pol np freqs amps amps_flagged sigma band nSigma maxFlaggedFraction
                            maxStddev median_min median_max ants s pol st))).
Proof.
  unfold bandpass_pol.
  destruct (np_all2 is_zero _); [apply pointwise3_refl|].
  destruct (bandpass_prepare np freqs band amps_flagged sigma pol)
    as [[[[amps_div sigma_div] sigma_orig] n]|e]; simpl; [|apply pointwise3_refl].
  destruct (bandpass_loop np freqs band nSigma maxStddev amps_div sigma_div sigma_orig n)
    as [stf|e]; simpl; [|apply pointwise3_refl].
  apply bandpass_commit_pointwise.
Qed.

Lemma flag_bandpass_pointwise (freqs : list float) (amps weights : array3)
    (telescope : string) (nSigma maxFlaggedFraction maxStddev : float) (plot : bool)
    (ants : list string) (s : nat) (outQueue : queue) :
  pointwise3 R weights
    (t_weights (_flag_bandpass np freqs amps weights telescope nSigma maxFlaggedFraction
                               maxStddev plot ants s outQueue)).
Proof.
  unfold _flag_bandpass.
  destruct (bandpass_band np freqs telescope) as [[]|[[[band mmin] mmax]|e]];
    try apply pointwise3_refl.
  destruct (np_all3 is_zero weights); [apply pointwise3_refl|].
  set (body := bandpass_pol _ _ _ _ _ _ _ _ _ _ _ _ _).
  pose proof (for_pols_invariant (fun st => pointwise3 R weights (snd st)) body) as I.
  specialize (I (fun pol st H => pointwise3_trans _ _ _ H
                   (bandpass_pol_pointwise _ _ _ _ _ _ _ _ _ _ _ _ pol st))
                (seq 0 (snd (dims3 amps))) (amps, weights) (pointwise3_refl weights)).
  destruct (for_pols _ _ _) as [[u|e] [amps' weights']]; exact I.
Qed.

Variable transfer_flags : flag_export.
Variable bandpass_on_directions : directions_flagger.

Lemma run_task_pointwise (w5 : array5) (d : nat) (a : task) (q : run_queue) :
  task_of_table w5 d a ->
  Forall (entry_pointwise R w5 d) q ->
  Forall (entry_pointwise R w5 d) (snd (run_task np bandpass_on_directions a q)).
Proof.
  intros Ha Hq.
  assert (G : forall s weights e,
             weights = slice_station w5 s d ->
             pointwise3 R weights (t_weights e) -> puts_its_weights s [] e ->
             Forall (entry_pointwise R w5 d) (q ++ slices3 (t_queue e))).
  { intros s weights e -> K P. unfold puts_its_weights in P.
    apply Forall_app. split; [exact Hq|].
    destruct (t_result e); rewrite P; [|constructor].
    constructor; [exact K|constructor]. }
  destruct a as [freqs amps weights telescope nSigma mff msd plot ants s
                |vals weights soltype nSigma mff msd ants s]; simpl in *.
  - destruct amps as [amps|a5 s5]; [|contradiction].
    destruct weights as [weights|a5 s5]; [|contradiction]. simpl.
    eapply G; [exact Ha|apply flag_bandpass_pointwise|apply flag_bandpass_queue].
  - eapply G; [exact Ha|apply flag_resid_pointwise|apply flag_resid_queue].
Qed.

Lemma mpm_run_pointwise (w5 : array5) (d : nat) (tasks : list task) :
  Forall (task_of_table w5 d) tasks ->
  forall q results,
    Forall (entry_pointwise R w5 d) q ->
    mpm_run np bandpass_on_directions tasks q = Ok results ->
    Forall (entry_pointwise R w5 d) results.
Proof.
  induction tasks as [|a rest IH]; intros Ht q results Hq H; simpl in H.
  - injection H as <-. exact Hq.
  - inversion Ht as [|? ? Ha Hrest]; subst.
    pose proof (run_task_pointwise w5 d a q Ha Hq) as K.
    destruct (run_task np bandpass_on_directions a q) as [[r|e] q']; simpl in K.
    + eapply IH; [exact Hrest|exact K|exact H].
    + destruct e; try discriminate; exact (IH Hrest q results Hq H).
Qed.

Lemma dims5_merge_results (d : nat) (results : run_queue) (acc : array5) :
  dims5 (merge_results d results acc) = dims5 acc.
Proof.
  unfold merge_results. revert acc.
  induction results as [|[s w] rest IH]; intros acc; simpl; [reflexivity|].
  rewrite IH. destruct w; reflexivity.
Qed.

Lemma merge_results_pointwise (w5 : array5) (d : nat) (results : run_queue) :
  Forall (entry_pointwise R w5 d) results ->
  forall acc, pointwise5 R w5 acc -> pointwise5 R w5 (merge_results d results acc).
Proof.
  unfold merge_results.
  induction results as [|[s w] rest IH]; intros Hr acc Hacc; simpl; [exact Hacc|].
  inversion Hr as [|? ? Hsw Hrest]; subst. apply IH; [exact Hrest|].
  unfold entry_pointwise in Hsw. simpl in Hsw.
  destruct w as [w|a5 s5]; [|contradiction].
  intros t s' f p d'. simpl.
  destruct ((s' =? s)%nat && (d' =? d)%nat) eqn:E; [|apply Hacc].
  apply andb_prop in E as [Es Ed]. apply Nat.eqb_eq in Es, Ed. subst s' d'.
  specialize (Hsw t f p). rewrite get3_slice_station in Hsw. exact Hsw.
Qed.

Lemma resid_directions_pointwise (solType : string)
    (nSigma maxFlaggedFraction maxStddev : float) (soltab : Soltab) (vals : array5)
    (dirs : list nat) :
  forall weights submitted weights' submitted',
    resid_directions np bandpass_on_directions solType nSigma maxFlaggedFraction maxStddev
                     soltab vals dirs weights submitted = (Ok weights', submitted') ->
    pointwise5 R weights weights' /\ dims5 weights' = dims5 weights.
Proof.
  induction dirs as [|d rest IH]; intros weights submitted weights' submitted' H; simpl in H.
  - injection H as <- _. split; [apply pointwise5_refl|reflexivity].
  - destruct (mpm_run np _ _ []) as [results|e] eqn:E; [|discriminate].
    apply IH in H. destruct H as [H Hd]. rewrite dims5_merge_results in Hd.
    split; [|exact Hd].
    apply (mpm_run_pointwise weights d) in E; [|apply Forall_map, Forall_forall|constructor].
    + intros t s f p d'. eapply R_trans; [|apply H].
      apply (merge_results_pointwise weights d results E weights), pointwise5_refl.
    + intros s _. reflexivity.
Qed.

Lemma write_back_outcome (soltab : Soltab) (mode : option string) (telescope : string)
    (maxFlaggedFraction nSigma : float) (soltabExport : string) (w : array5)
    (axes : list nat) (submitted : list task) :
  run_refuses soltab mode = false ->
  axes_fit (st_axes soltab) = true ->
  dims5 w = dims5 (run_weights soltab) ->
  (forall wa, transpose (List.length (st_axes soltab)) axes w = Ok wa ->
              axes = run_axes (st_axes soltab) /\ pointwise5 R (run_weights soltab) w) ->
  run_outcome R transfer_flags soltab mode telescope maxFlaggedFraction nSigma soltabExport
    (write_back transfer_flags soltab
                (if (soltabExport =? "")%string then None else Some soltabExport)
                w axes (run_history mode telescope maxFlaggedFraction nSigma) submitted).
Proof.
  intros Hr Hfit Hd Hax.
  assert (E0 : refused_at_once soltab mode = false).
  { unfold run_refuses in Hr. unfold refused_at_once. destruct mode as [m|]; [|discriminate].
    apply orb_false_iff in Hr as [Hr _]. exact Hr. }
  unfold write_back.
  destruct (transpose _ axes w) as [wa|e] eqn:T.
  2:{ apply (RunStopped _ _ _ _ _ _ _ _ _ e);
        [exact E0|right; exact Hr|reflexivity|reflexivity]. }
  destruct (Hax wa eq_refl) as [-> K]. apply transpose_returns in T. subst wa.
  destruct (setValues_weight soltab _) as [soltab'|e] eqn:V.
  2:{ apply (RunStopped _ _ _ _ _ _ _ _ _ e);
        [exact E0|right; exact Hr|reflexivity|reflexivity]. }
  apply setValues_weight_returns in V. subst soltab'.
  apply (RunWritten _ _ _ _ _ _ _ _ _ w); [exact Hr|exact Hfit|exact Hd|exact K|].
  unfold exported, addHistory, written.
  cbn [st_axes st_type st_ant st_freq st_dir st_val st_weight st_history].
  destruct (soltabExport =? "")%string; [reflexivity|].
  destruct (transfer_flags _ _ _) as [[u|e] soltab'']; reflexivity.
Qed.

Lemma run_outcomes (soltab : Soltab) (mode : option string)
    (maxFlaggedFraction nSigma : float) (telescope refAnt soltabExport : string)
    (ncpu : nat) :
  run_outcome R transfer_flags soltab mode telescope maxFlaggedFraction nSigma soltabExport
    (run np transfer_flags bandpass_on_directions soltab mode maxFlaggedFraction nSigma
         telescope refAnt soltabExport ncpu).
Proof.
  unfold run. cbv zeta.
  destruct mode as [m|]; [|apply RunRefused; [reflexivity|left; reflexivity|reflexivity]].
  destruct (negb (str_in (lower m) _)) eqn:M.
  { apply RunRefused; [|left|reflexivity]; unfold run_refuses, refused_at_once; rewrite M;
      reflexivity. }
  destruct (_ || _) eqn:A.
  { apply RunRefused; [|left|reflexivity]; unfold run_refuses, refused_at_once;
      rewrite M, A; reflexivity. }
  assert (E0 : refused_at_once soltab (Some m) = false).
  { unfold refused_at_once. rewrite M, A. reflexivity. }
  destruct (transpose _ _ (st_val soltab)) as [vals|e] eqn:Tv.
  2:{ apply (RunStopped _ _ _ _ _ _ _ _ _ e);
        [exact E0|left; eapply transpose_misfits; exact Tv|reflexivity|reflexivity]. }
  destruct (transpose _ _ (st_weight soltab)) as [weights|e] eqn:Tw.
  2:{ apply (RunStopped _ _ _ _ _ _ _ _ _ e);
        [exact E0|left; eapply transpose_misfits; exact Tw|reflexivity|reflexivity]. }
  pose proof (transpose_fits _ _ _ Tv) as Hfit.
  pose proof (transpose_length _ _ _ _ Tv) as Hlen.
  apply transpose_returns in Tv, Tw. subst vals weights.
  fold (run_weights soltab).
  destruct (m =? "bandpass")%string eqn:B.
  - destruct (negb (st_type soltab =? "amplitude")%string) eqn:T.
    { apply RunRefused; [|right; exact Hfit|reflexivity].
      unfold run_refuses. rewrite M, A, B, T. reflexivity. }
    assert (Hr : run_refuses soltab (Some m) = false).
    { unfold run_refuses. rewrite M, A, B, T. reflexivity. }
    destruct (mpm_run np _ _ []) as [results|e] eqn:E.
    2:{ apply (RunStopped _ _ _ _ _ _ _ _ _ e);
          [exact E0|right; exact Hr|reflexivity|reflexivity]. }
    pose proof (write_back_outcome soltab (Some m) telescope maxFlaggedFraction nSigma
                  soltabExport (merge_results 0 results (run_weights soltab))
                  (firstn 4 (run_axes (st_axes soltab)))) as W.
    unfold run_history in W. rewrite B in W. apply W; clear W;
      [exact Hr|exact Hfit|apply dims5_merge_results|].
    intros wa Twa. apply transpose_length in Twa.
    unfold run_axes in *. destruct (str_in "dir" (st_axes soltab)) eqn:D.
    { simpl in Twa, Hlen. rewrite <- Hlen in Twa. discriminate. }
    split; [reflexivity|].
    apply (mpm_run_pointwise (run_weights soltab) 0) in E;
      [|apply Forall_map, Forall_forall|constructor].
    + apply (merge_results_pointwise _ 0 results E), pointwise5_refl.
    + intros s _. reflexivity.
  - destruct (negb (str_in (st_type soltab) _)) eqn:T.
    { apply RunRefused; [|right; exact Hfit|reflexivity].
      unfold run_refuses. rewrite M, A, B, T. reflexivity. }
    assert (Hr : run_refuses soltab (Some m) = false).
    { unfold run_refuses. rewrite M, A, B, T. reflexivity. }
    destruct (resid_directions _ _ _ _ _ _ _ _ _ _ _) as [[w'|e] sub] eqn:E.
    + pose proof (write_back_outcome soltab (Some m) telescope maxFlaggedFraction nSigma
                    soltabExport w' (run_axes (st_axes soltab)) sub) as W.
      unfold run_history in W. rewrite B in W.
      apply resid_directions_pointwise in E as [E Ed].
      apply W; [exact Hr|exact Hfit|exact Ed|].
      intros wa _. split; [reflexivity|exact E].
    + apply (RunStopped _ _ _ _ _ _ _ _ _ e);
        [exact E0|right; exact Hr|reflexivity|reflexivity].
Qed.

End Pointwise.

(** ** The spline evaluator within its knots *)

Lemma getitem_ok (t : list float) (i : nat) :
  i < List.length t -> exists v, getitem t i = Ok v.
Proof.
  intros H. unfold getitem. destruct (nth_error t i) as [v|] eqn:E.
  - exists v. reflexivity.
  - apply nth_error_None in E. lia.
Qed.

Lemma getitem_out (t : list float) (i : nat) :
  List.length t <= i -> getitem t i = Raise IndexError.
Proof.
  intros H. unfold getitem. apply nth_error_None in H. rewrite H. reflexivity.
Qed.

(** Read [t[i]] for an index shown to be in range. *)
Ltac read_item t i :=
  let v := fresh "v" in
  let E := fresh "E" in
  destruct (getitem_ok t i) as [v E]; [lia|rewrite E; cbn [bind]].

Lemma B_in_bounds (x : float) (t : list float) (extrap invert : bool) (k : nat) :
  forall i, i + k + 1 < List.length t -> exists v, _B x k i t extrap invert = Ok v.
Proof.
  induction k as [|k IH]; intros i H; cbn [_B].
  - destruct extrap; [destruct invert; eexists; reflexivity|].
    read_item t i. destruct (v <=? x)%float; [|eexists; reflexivity].
    read_item t (i + 1). eexists. reflexivity.
  - read_item t (i + S k). read_item t i.
    destruct (IH i) as [b1 B1]; [lia|]. destruct (IH (i + 1)) as [b2 B2]; [lia|].
    rewrite B1, B2. cbn [bind].
    destruct (v =? v0)%float; cbn [bind];
      (read_item t (i + S k + 1); read_item t (i + 1);
       destruct (v1 =? v2)%float; cbn [bind]; eexists; reflexivity).
Qed.

Lemma B_out_of_bounds (x : float) (t : list float) (extrap invert : bool) (k i : nat) :
  List.length t <= i + k -> (k = 0 -> extrap = false) ->
  _B x k i t extrap invert = Raise IndexError.
Proof.
  intros H He. destruct k as [|k]; cbn [_B].
  - rewrite (He eq_refl). rewrite getitem_out by lia. reflexivity.
  - rewrite getitem_out by lia. reflexivity.
Qed.

Lemma length_set_last (l : list bool) : List.length (set_last l) = List.length l.
Proof.
  unfold set_last. rewrite <- (length_rev l).
  destruct (rev l) as [|a r]; [reflexivity|].
  rewrite length_rev. reflexivity.
Qed.

Lemma length_set_first (l : list bool) : List.length (set_first l) = List.length l.
Proof. destruct l; reflexivity. Qed.

Lemma bspline_flags_ok (x : float) (t : list float) (k n : nat) :
  n < List.length t -> k < List.length t ->
  exists fl, bspline_flags x t k n = Ok fl /\ List.length (fst fl) = n.
Proof.
  intros Hn Hk. unfold bspline_flags.
  read_item t n. destruct (v <=? x)%float.
  { eexists. split; [reflexivity|]. simpl. rewrite length_set_last. apply repeat_length. }
  read_item t k. destruct (x <? v0)%float.
  - eexists. split; [reflexivity|]. simpl. rewrite length_set_first. apply repeat_length.
  - eexists. split; [reflexivity|]. simpl. apply repeat_length.
Qed.

Lemma sum_basis_ok (x : float) (t c : list float) (k : nat) (invert : bool) (n : nat) :
  n <= List.length c -> n + k < List.length t ->
  forall terms acc,
    Forall (fun ie => fst ie < n) terms ->
    exists v, sum_basis x t c k invert terms acc = Ok v.
Proof.
  intros Hc Ht terms. induction terms as [|[i e] rest IH]; intros acc H; cbn [sum_basis].
  - eexists. reflexivity.
  - inversion H as [|? ? Hi Hrest]; subst. simpl in Hi.
    read_item c i.
    destruct (B_in_bounds x t e invert k i) as [b B]; [lia|].
    rewrite B. cbn [bind]. apply IH, Hrest.
Qed.

Lemma bspline_asserts_Z (t c : list float) (k : nat) :
  ((Z.of_nat k + 1 <=? Z.of_nat (List.length t) - Z.of_nat k - 1)%Z
   && (Z.of_nat (List.length t) - Z.of_nat k - 1 <=? Z.of_nat (List.length c))%Z)
  = bspline_asserts t c k.
Proof.
  unfold bspline_asserts. cbv zeta.
  destruct (k + 1 <=? List.length t - k - 1)%nat eqn:A.
  - apply Nat.leb_le in A.
    replace (Z.of_nat k + 1 <=? Z.of_nat (List.length t) - Z.of_nat k - 1)%Z with true
      by (symmetry; apply Z.leb_le; lia).
    cbn [andb].
    destruct (List.length t - k - 1 <=? List.length c)%nat eqn:B.
    + apply Nat.leb_le in B. apply Z.leb_le. lia.
    + apply Nat.leb_gt in B. apply Z.leb_gt. lia.
  - apply Nat.leb_gt in A.
    replace (Z.of_nat k + 1 <=? Z.of_nat (List.length t) - Z.of_nat k - 1)%Z with false
      by (symmetry; apply Z.leb_gt; lia).
    reflexivity.
Qed.

Lemma bspline_ok (x : float) (t c : list float) (k : nat) :
  bspline_asserts t c k = true -> exists v, _bspline x t c k = Ok v.
Proof.
  intros A. unfold _bspline. cbv zeta. rewrite bspline_asserts_Z, A.
  unfold bspline_asserts in A. cbv zeta in A.
  apply andb_prop in A as [A1 A2]. apply Nat.leb_le in A1, A2.
  replace (Z.to_nat (Z.of_nat (List.length t) - Z.of_nat k - 1))
    with (List.length t - k - 1) by lia.
  destruct (bspline_flags_ok x t k (List.length t - k - 1)) as [fl [F L]]; [lia|lia|].
  rewrite F. cbn [bind].
  apply (sum_basis_ok x t c k (snd fl) (List.length t - k - 1)); [exact A2|lia|].
  apply Forall_forall. intros [i e] Hin. apply in_combine_l, in_seq in Hin. simpl. lia.
Qed.

Lemma bspline_assertion_fails (x : float) (t c : list float) (k : nat) :
  bspline_asserts t c k = false -> _bspline x t c k = Raise AssertionError.
Proof.
  intros A. unfold _bspline. cbv zeta. rewrite bspline_asserts_Z, A. reflexivity.
Qed.

Lemma bspline_curve_ok (knots coeffs : list float) :
  bspline_asserts knots coeffs 3 = true ->
  forall freq, exists ys,
    bspline_curve knots coeffs freq = Ok ys /\ List.length ys = List.length freq.
Proof.
  intros A freq. induction freq as [|f rest [ys [IH L]]]; cbn [bspline_curve].
  - exists []. split; reflexivity.
  - destruct (bspline_ok f knots coeffs 3 A) as [y Y]. rewrite Y, IH. cbn [bind].
    exists (y :: ys). split; [reflexivity|]. simpl. rewrite L. reflexivity.
Qed.

Lemma bandpass_LBA_ok (freq coeffs : list float) :
  List.length coeffs = 13 ->
  exists ys, _bandpass_LBA freq coeffs = Ok ys /\ List.length ys = List.length freq.
Proof.
  intros L. unfold _bandpass_LBA, with_coeffs. rewrite L. cbn [Nat.eqb].
  apply bspline_curve_ok. unfold bspline_asserts. rewrite L. reflexivity.
Qed.

Lemma bandpass_HBA_low_ok (freq coeffs : list float) :
  List.length coeffs = 10 ->
  exists ys, _bandpass_HBA_low freq coeffs = Ok ys /\ List.length ys = List.length freq.
Proof.
  intros L. unfold _bandpass_HBA_low, with_coeffs. rewrite L. cbn [Nat.eqb].
  apply bspline_curve_ok. unfold bspline_asserts. rewrite L. reflexivity.
Qed.

Lemma with_coeffs_wrong_count (n : nat) (coeffs : list float) (body : result (list float)) :
  List.length coeffs <> n -> with_coeffs n coeffs body = Raise TypeError.
Proof.
  intros H. unfold with_coeffs. apply Nat.eqb_neq in H. rewrite H. reflexivity.
Qed.

(** ** The band models *)

Lemma select_band_cases (band : string) (m : band_model) :
  select_band band = Ok m -> m = band_hba_low \/ m = band_lba.
Proof.
  unfold select_band. destruct (lower band =? "hba_low")%string.
  { intros H; injection H as <-. left. reflexivity. }
  destruct (lower band =? "lba")%string; [|discriminate].
  intros H; injection H as <-. right. reflexivity.
Qed.

Lemma supported_band_select (band : string) :
  supported_band band = true -> exists m, select_band band = Ok m.
Proof.
  unfold supported_band, select_band. destruct (lower band =? "hba_low")%string.
  { intros _. eexists. reflexivity. }
  destruct (lower band =? "lba")%string; [|discriminate].
  intros _. eexists. reflexivity.
Qed.

(** The model of a band takes as many coefficients as the band has
    initial ones. *)
Lemma band_model_ok (band : string) (m : band_model) (freq coeffs : list float) :
  select_band band = Ok m ->
  List.length coeffs = List.length (init_coeffs m) ->
  exists ys, bandpass_function m freq coeffs = Ok ys /\ List.length ys = List.length freq.
Proof.
  intros S L. destruct (select_band_cases band m S) as [-> | ->]; simpl in *.
  - apply bandpass_HBA_low_ok, L.
  - apply bandpass_LBA_ok, L.
Qed.

Lemma band_model_wrong_count (band : string) (m : band_model) (freq coeffs : list float) :
  select_band band = Ok m ->
  List.length coeffs <> List.length (init_coeffs m) ->
  bandpass_function m freq coeffs = Raise TypeError.
Proof.
  intros S L. destruct (select_band_cases band m S) as [-> | ->]; simpl in *;
    apply with_coeffs_wrong_count, L.
Qed.

Section FitFacts.

Variable np : numlib.

Lemma fit_bandpass_unfit (freq : list float) (band : string) :
  supported_band band = true ->
  exists ys,
    List.length ys = List.length freq /\
    forall logamp sigma, _fit_bandpass np freq logamp sigma band false = Ok (None, ys).
Proof.
  intros S. destruct (supported_band_select band S) as [m M].
  destruct (band_model_ok band m freq (init_coeffs m) M eq_refl) as [ys [Y L]].
  exists ys. split; [exact L|]. intros logamp sigma.
  unfold _fit_bandpass. rewrite M. cbn [bind]. rewrite Y. reflexivity.
Qed.

End FitFacts.

(** ** The loop in closed form *)

Section ClipLoopClosed.

Context {M R : Type}.
Variable fit_and_flag : M -> result R.
Variable nbad : R -> nat.
Variable reset : R -> M.
Variable nsols_unflagged : nat.

Lemma clip_loop_step (fuel : nat) (st : loop_state M R) :
  clip_loop fit_and_flag nbad reset nsols_unflagged (S fuel) st
  = if loop_guard st then
      match fit_and_flag (trial st) with
      | Raise e => Some (Raise e)
      | Ok r =>
          let n := nbad r in
          if ((n =? 0) || (n =? nsols_unflagged))%nat then
            Some (Ok (mkLoop (niter st) (Z.of_nat n) (nflag_prev st) (trial st)
                             (Some r) (n :: history st)))
          else
            let prev := if (0 <? niter st)%nat then Z.of_nat n else nflag_prev st in
            clip_loop fit_and_flag nbad reset nsols_unflagged fuel
                      (mkLoop (S (niter st)) (Z.of_nat n) prev (reset r)
                              (Some r) (n :: history st))
      end
    else Some (Ok st).
Proof. reflexivity. Qed.

(** The loop makes one round and breaks, or makes two rounds: then the
    mask it leaves is the reset of the first round when the second one
    breaks, and of the second otherwise. *)
Lemma run_clip_loop_closed (m : M) :
  run_clip_loop fit_and_flag nbad reset nsols_unflagged m
  = (r1 <- fit_and_flag m ;;
     if degenerate nsols_unflagged (nbad r1)
     then Ok (mkLoop 0 (Z.of_nat (nbad r1)) (-1)%Z m (Some r1) [nbad r1])
     else
       r2 <- fit_and_flag (reset r1) ;;
       if degenerate nsols_unflagged (nbad r2)
       then Ok (mkLoop 1 (Z.of_nat (nbad r2)) (-1)%Z (reset r1) (Some r2)
                       [nbad r2; nbad r1])
       else Ok (mkLoop 2 (Z.of_nat (nbad r2)) (Z.of_nat (nbad r2)) (reset r2) (Some r2)
                       [nbad r2; nbad r1])).
Proof.
  unfold run_clip_loop, degenerate, loop_init. change (S maxiter) with 6.
  rewrite clip_loop_step.
  change (loop_guard (mkLoop 0 0%Z (-1)%Z m None [])) with true. cbv iota.
  cbn [trial history niter nflag_prev].
  destruct (fit_and_flag m) as [r1|e]; [|reflexivity]. cbn [bind].
  destruct ((nbad r1 =? 0)%nat || (nbad r1 =? nsols_unflagged)%nat); [reflexivity|].
  change (0 <? 0)%nat with false. cbv iota.
  rewrite clip_loop_step.
  replace (loop_guard (mkLoop 1 (Z.of_nat (nbad r1)) (-1)%Z (reset r1) (Some r1) [nbad r1]))
    with true.
  2:{ unfold loop_guard. cbn [nflag nflag_prev niter].
      replace (Z.of_nat (nbad r1) =? -1)%Z with false by (symmetry; apply Z.eqb_neq; lia).
      reflexivity. }
  cbn [trial history niter nflag_prev].
  destruct (fit_and_flag (reset r1)) as [r2|e]; [|reflexivity]. cbn [bind].
  destruct ((nbad r2 =? 0)%nat || (nbad r2 =? nsols_unflagged)%nat); [reflexivity|].
  change (0 <? 1)%nat with true. cbv iota.
  rewrite clip_loop_step.
  replace (loop_guard (mkLoop 2 (Z.of_nat (nbad r2)) (Z.of_nat (nbad r2)) (reset r2)
                              (Some r2) [nbad r2; nbad r1])) with false.
  2:{ unfold loop_guard. cbn [nflag nflag_prev niter]. rewrite Z.eqb_refl. reflexivity. }
  reflexivity.
Qed.

End ClipLoopClosed.

(** ** One-axis arrays *)

Lemma length_assign1 (idx : list nat) (v : float) (a : list float) :
  List.length (assign1 idx v a) = List.length a.
Proof.
  unfold assign1. rewrite length_map, length_combine, length_seq. apply Nat.min_id.
Qed.

Lemma length_where1 (cond : float -> bool) (a : list float) :
  List.length (where1 cond a) <= List.length a.
Proof.
  unfold where1. rewrite length_map.
  eapply Nat.le_trans; [apply filter_length_le|].
  rewrite length_combine, length_seq, Nat.min_id. apply Nat.le_refl.
Qed.

Lemma length_reduce_axis0 (g : list float -> float) (a : array2) :
  List.length (reduce_axis0 g a) = snd (dims2 a).
Proof. unfold reduce_axis0. rewrite length_map, length_seq. reflexivity. Qed.

Lemma zip_with_ok (g : float -> float -> float) (a b : list float) :
  List.length a = List.length b -> zip_with g a b = Ok (map2 g a b).
Proof. intros H. unfold zip_with. rewrite H, Nat.eqb_refl. reflexivity. Qed.

(** ** The bandpass flagger before its loop *)

Section BandpassFacts.

Variable np : numlib.

Lemma bandpass_band_supported (freqs : list float) (telescope band : string)
    (median_min median_max : float) :
  bandpass_band np freqs telescope = inr (Ok (band, median_min, median_max)) ->
  supported_band band = true /\ median_min = 50%float /\ median_max = 200%float.
Proof.
  unfold bandpass_band. destruct (lower telescope =? "lofar")%string; [|discriminate].
  destruct (_ && _).
  { intros H. injection H as <- <- <-. repeat split. }
  destruct (_ <? _)%float; [|discriminate].
  intros H. injection H as <- <- <-. repeat split.
Qed.

Lemma bandpass_prepare_ok (freqs : list float) (band : string) (amps_flagged sigma : array3)
    (pol : nat) :
  supported_band band = true ->
  List.length freqs = snd (fst (dims3 amps_flagged)) ->
  exists amps_div sigma_div sigma_orig n,
    bandpass_prepare np freqs band amps_flagged sigma pol
    = Ok (amps_div, sigma_div, sigma_orig, n) /\
    List.length amps_div = List.length freqs /\
    List.length sigma_div = snd (fst (dims3 sigma)) /\
    List.length sigma_orig = snd (fst (dims3 sigma)) /\
    n <= List.length freqs.
Proof.
  intros S L. unfold bandpass_prepare. cbv zeta.
  destruct (fit_bandpass_unfit np freqs band S) as [bp [Lbp Fit]].
  rewrite Fit. cbn [bind snd].
  set (med := reduce_axis0 (np_nanmedian np) (slice_pol amps_flagged pol)).
  assert (Lmed : List.length med = List.length freqs).
  { unfold med. rewrite length_reduce_axis0, dims2_slice_pol. symmetry. exact L. }
  set (a0 := map (fun a => (a / np_nanmedian np med)%float) med).
  assert (La0 : List.length a0 = List.length freqs).
  { unfold a0. rewrite length_map. exact Lmed. }
  set (a1 := assign1 (where1 PrimFloat.is_nan a0) 1%float a0).
  set (a2 := assign1 (where1 (fun a => (a <=? 0)%float) a1) 1%float a1).
  assert (La2 : List.length a2 = List.length freqs).
  { unfold a2, a1. rewrite !length_assign1. exact La0. }
  rewrite zip_with_ok by (rewrite length_map; congruence). cbn [bind].
  set (a3 := map (fun a => (a / _)%float) a2).
  assert (La3 : List.length a3 = List.length freqs).
  { unfold a3. rewrite length_map. exact La2. }
  rewrite zip_with_ok by (rewrite length_map; congruence). cbn [bind].
  do 4 eexists. split; [reflexivity|].
  split; [exact La3|].
  split; [rewrite !length_assign1, length_reduce_axis0, dims2_slice_pol; reflexivity|].
  split; [rewrite length_reduce_axis0, dims2_slice_pol; reflexivity|].
  rewrite <- La0. apply length_where1.
Qed.

(** ** The flags of a bandpass task are whole columns *)

Lemma bandpass_commit_columns (amps : array3)
    (nSigma maxFlaggedFraction maxStddev median_min median_max : float)
    (ants : list string) (s : nat) (q : nat)
    (weights : array3) (n : nat) (st : loop_state (list float) bandpass_round_out) :
  let weights' := snd (bandpass_commit np amps nSigma maxFlaggedFraction maxStddev
                                       median_min median_max ants s q weights n st) in
  (forall t f p, p <> q -> get3 weights' t f p = get3 weights t f p) /\
  (forall f, (forall t, get3 weights' t f q = get3 weights t f q)
             \/ (forall t, get3 weights' t f q = 0%float)).
Proof.
  assert (Hsame : (forall t f p, p <> q -> get3 weights t f p = get3 weights t f p) /\
                  (forall f, (forall t, get3 weights t f q = get3 weights t f q)
                             \/ (forall t, get3 weights t f q = 0%float))).
  { split; [reflexivity|]. intros f. left. reflexivity. }
  assert (Hfill : forall w,
             (forall t f p, p <> q -> get3 w t f p = get3 weights t f p) ->
             (forall t f p, p <> q -> get3 (fill_pol w q 0%float) t f p = get3 weights t f p) /\
             (forall f, (forall t, get3 (fill_pol w q 0%float) t f q = get3 weights t f q)
                        \/ (forall t, get3 (fill_pol w q 0%float) t f q = 0%float))).
  { intros w Hw. split.
    - intros t f p Hp. simpl. apply Nat.eqb_neq in Hp. rewrite Hp.
      apply Hw. apply Nat.eqb_neq, Hp.
    - intros f. right. intros t. simpl. rewrite Nat.eqb_refl. reflexivity. }
  assert (Hfreqs : forall fs,
             (forall t f p, p <> q ->
                            get3 (fill_freqs weights fs q 0%float) t f p = get3 weights t f p) /\
             (forall f, (forall t, get3 (fill_freqs weights fs q 0%float) t f q
                                   = get3 weights t f q)
                        \/ (forall t, get3 (fill_freqs weights fs q 0%float) t f q = 0%float))).
  { intros fs. split.
    - intros t f p Hp. simpl. apply Nat.eqb_neq in Hp. rewrite Hp. reflexivity.
    - intros f. simpl. rewrite Nat.eqb_refl. cbn [andb].
      destruct (existsb (Nat.eqb f) fs); [right|left]; intros t; reflexivity. }
  cbv zeta.
  set (P := fun w : array3 =>
              (forall t f p, p <> q -> get3 w t f p = get3 weights t f p) /\
              (forall f, (forall t, get3 w t f q = get3 weights t f q)
                         \/ (forall t, get3 w t f q = 0%float))).
  change (P (snd (bandpass_commit np amps nSigma maxFlaggedFraction maxStddev median_min
                                  median_max ants s q weights n st))).
  unfold bandpass_commit.
  destruct (last_round st) as [r|]; [|exact Hsame].
  destruct (nSigma * maxStddev <? br_stdev_all r)%float.
  { apply (logged_invariant P); [exact Hsame|apply Hfill; reflexivity]. }
  destruct (py_div _ _) as [frac|e]; [|exact Hsame].
  destruct (maxFlaggedFraction <? frac)%float.
  { apply (logged_invariant P); [exact Hsame|apply Hfill; reflexivity]. }
  cbv zeta. destruct (_ || _); apply (logged_invariant P); try apply Hfreqs.
  apply Hfill. apply Hfreqs.
Qed.

Lemma bandpass_pol_columns (freqs : list float) (amps amps_flagged sigma : array3)
    (band : string) (nSigma maxFlaggedFraction maxStddev median_min median_max : float)
    (ants : list string) (s : nat) (q : nat) (st : array3 * array3) :
  let w' := snd (snd (bandpass_pol np freqs amps amps_flagged sigma band nSigma
                                   maxFlaggedFraction maxStddev median_min median_max
                                   ants s q st)) in
  (forall t f p, p <> q -> get3 w' t f p = get3 (snd st) t f p) /\
  (forall f, (forall t, get3 w' t f q = get3 (snd st) t f q)
             \/ (forall t, get3 w' t f q = 0%float)).
Proof.
  assert (Hsame : (forall t f p, p <> q -> get3 (snd st) t f p = get3 (snd st) t f p) /\
                  (forall f, (forall t, get3 (snd st) t f q = get3 (snd st) t f q)
                             \/ (forall t, get3 (snd st) t f q = 0%float))).
  { split; [reflexivity|]. intros f. left. reflexivity. }
  cbv zeta. unfold bandpass_pol.
  destruct (np_all2 is_zero _); [exact Hsame|].
  destruct (bandpass_prepare np freqs band amps_flagged sigma q)
    as [[[[amps_div sigma_div] sigma_orig] n]|e]; simpl; [|exact Hsame].
  destruct (bandpass_loop np freqs band nSigma maxStddev amps_div sigma_div sigma_orig n)
    as [stf|e]; simpl; [|exact Hsame].
  apply bandpass_commit_columns.
Qed.

End BandpassFacts.

(** Over distinct polarizations, steps that touch their own
    polarization alone, by whole columns, add up to whole columns. *)
Lemma for_pols_columns (body : nat -> array3 * array3 -> result unit * (array3 * array3)) :
  (forall q st,
      (forall t f p, p <> q -> get3 (snd (snd (body q st))) t f p = get3 (snd st) t f p) /\
      (forall f, (forall t, get3 (snd (snd (body q st))) t f q = get3 (snd st) t f q)
                 \/ (forall t, get3 (snd (snd (body q st))) t f q = 0%float))) ->
  forall pols st,
    NoDup pols ->
    (forall t f p, ~ In p pols ->
                   get3 (snd (snd (for_pols body pols st))) t f p = get3 (snd st) t f p) /\
    whole_columns (snd st) (snd (snd (for_pols body pols st))).
Proof.
  intros Hbody pols. induction pols as [|q rest IH]; intros st Hnd; cbn [for_pols].
  - split; [reflexivity|]. intros f p. left. reflexivity.
  - inversion Hnd as [|? ? Hq Hrest]; subst.
    destruct (Hbody q st) as [Hother Hown].
    destruct (body q st) as [[u|e] st1]; cbn [snd] in *.
    + destruct (IH st1 Hrest) as [IHout IHcol]. split.
      * intros t f p Hp. rewrite IHout by (intros Hin; apply Hp; right; exact Hin).
        apply Hother. intros ->. apply Hp. left. reflexivity.
      * intros f p. destruct (Nat.eq_dec p q) as [->|Hp].
        -- destruct (Hown f) as [H|H]; [left|right]; intros t;
             rewrite IHout by exact Hq; apply H.
        -- destruct (IHcol f p) as [H|H]; [left|right]; intros t; rewrite H;
             [apply Hother; exact Hp|reflexivity].
    + split.
      * intros t f p Hp. apply Hother. intros ->. apply Hp. left. reflexivity.
      * intros f p. destruct (Nat.eq_dec p q) as [->|Hp].
        -- apply Hown.
        -- left. intros t. apply Hother, Hp.
Qed.

(** ** Index lists *)

Lemma index2_eqb_eq (i j : index2) : index2_eqb i j = true <-> i = j.
Proof.
  unfold index2_eqb. destruct i as [a b], j as [c d]. simpl.
  rewrite andb_true_iff, !Nat.eqb_eq. split.
  - intros [-> ->]. reflexivity.
  - intros H. injection H as -> ->. split; reflexivity.
Qed.

Lemma mem2_np_where2 (cond : nat -> nat -> bool) (d : nat * nat) (t f : nat) :
  mem2 (t, f) (np_where2 cond d) = ((t <? fst d)%nat && (f <? snd d)%nat && cond t f).
Proof.
  apply eq_true_iff_eq. unfold mem2, np_where2.
  rewrite existsb_exists, !andb_true_iff, !Nat.ltb_lt. split.
  - intros [j [Hin E]]. apply index2_eqb_eq in E. subst j.
    apply filter_In in Hin as [Hin C]. apply in_indices2 in Hin. simpl in C. tauto.
  - intros [[Ht Hf] C]. exists (t, f). split; [|apply index2_eqb_eq; reflexivity].
    apply filter_In. split; [apply in_indices2; split; assumption|exact C].
Qed.

Lemma forallb_ext_in {A : Type} (g h : A -> bool) (l : list A) :
  (forall a, In a l -> g a = h a) -> forallb g l = forallb h l.
Proof.
  induction l as [|a l IH]; intros H; simpl; [reflexivity|].
  rewrite (H a (or_introl eq_refl)), IH; [reflexivity|].
  intros b Hb. apply H. right. exact Hb.
Qed.

Lemma np_all3_get (cond : float -> bool) (a : array3) (t f p : nat) :
  np_all3 cond a = true ->
  t < fst (fst (dims3 a)) -> f < snd (fst (dims3 a)) -> p < snd (dims3 a) ->
  cond (get3 a t f p) = true.
Proof.
  unfold np_all3. destruct (dims3 a) as [[nt nf] npol]. simpl. intros H Ht Hf Hp.
  rewrite forallb_forall in H. specialize (H (t, f)).
  rewrite forallb_forall in H. apply H.
  - apply in_indices2. split; assumption.
  - apply in_seq. lia.
Qed.

Lemma slice_pol_fill_pol_same (a : array3) (pol : nat) (v : float) :
  slice_pol (fill_pol a pol v) pol = mk2 (dims2 (slice_pol a pol)) (fun _ _ => v).
Proof.
  rewrite dims2_slice_pol. unfold slice_pol. simpl. destruct (dims3 a) as [[nt nf] npol].
  apply array2_eq. intros t f. simpl. rewrite Nat.eqb_refl. reflexivity.
Qed.

Lemma same_pol_sym (pol : nat) (a b : array3 * array3) : same_pol pol a b -> same_pol pol b a.
Proof. intros [H1 H2]. split; symmetry; assumption. Qed.

(** ** One polarization of the resid flagger, taken alone *)

Section ResidFacts.

Variable np : numlib.

Lemma resid_pol_vals (soltype : string) (nSigma maxFlaggedFraction maxStddev : float)
    (ants : list string) (s : nat) (pol : nat) (st : array3 * array3) :
  fst (snd (resid_pol np soltype nSigma maxFlaggedFraction maxStddev ants s pol st))
  = fst (fst (resid_prepare np soltype pol (fst st) (snd st))).
Proof.
  unfold resid_pol.
  destruct (resid_prepare np soltype pol (fst st) (snd st))
    as [[vals' weights'] [[[[weights_orig vals_flagged] n] mean]|]]; [|reflexivity].
  destruct (resid_loop _ _ _ _ _ _) as [stf|e]; reflexivity.
Qed.

Lemma resid_prepare_weights_slice (soltype : string) (pol : nat) (vals weights : array3) :
  slice_pol (snd (fst (resid_prepare np soltype pol vals weights))) pol
  = assign_at (np_where2 (fun t f => bad_solution soltype (get2 (slice_pol vals pol) t f))
                         (dims2 (slice_pol vals pol)))
              0%float (slice_pol weights pol).
Proof.
  unfold resid_prepare, bad_solution. cbv zeta.
  destruct (soltype =? "phase")%string; destruct (np_all2 is_zero _); cbn [fst snd];
    apply slice_pol_set_pol_same; simpl; rewrite dims2_slice_pol; reflexivity.
Qed.

Lemma resid_prepare_vals_slice (soltype : string) (pol : nat) (vals weights : array3) :
  slice_pol (fst (fst (resid_prepare np soltype pol vals weights))) pol
  = let vals_pol := slice_pol vals pol in
    let weights_orig :=
      assign_at (np_where2 (fun t f => bad_solution soltype (get2 vals_pol t f))
                           (dims2 vals_pol))
                0%float (slice_pol weights pol) in
    if np_all2 is_zero weights_orig then vals_pol
    else if (soltype =? "phase")%string then vals_pol
    else assign_at (np_where2 (fun t f => is_zero (get2 weights_orig t f))
                              (dims2 weights_orig))
                   0%float
                   (if (soltype =? "amplitude")%string
                    then map_array2 (np_log10 np) vals_pol else vals_pol).
Proof.
  assert (A : (soltype =? "phase")%string = true -> (soltype =? "amplitude")%string = false).
  { intros P. apply String.eqb_eq in P. subst soltype. reflexivity. }
  unfold resid_prepare, bad_solution. cbv zeta.
  destruct (soltype =? "phase")%string; [rewrite (A eq_refl)|];
    destruct (soltype =? "amplitude")%string;
    rewrite !slice_pol_set_pol_same by (simpl; rewrite ?dims2_slice_pol; reflexivity);
    destruct (np_all2 is_zero _); cbn [fst snd];
    rewrite ?slice_pol_set_pol_same by (simpl; rewrite ?dims2_slice_pol; reflexivity);
    reflexivity.
Qed.

(** The slices [resid_prepare] leaves depend on the slices of the
    polarization alone. *)
Lemma resid_prepare_ext (soltype : string) (pol : nat)
    (vals weights vals' weights' : array3) :
  same_pol pol (vals, weights) (vals', weights') ->
  same_pol pol (fst (resid_prepare np soltype pol vals weights))
               (fst (resid_prepare np soltype pol vals' weights')).
Proof.
  intros [Hv Hw]. simpl in Hv, Hw. split.
  - rewrite !resid_prepare_vals_slice, Hv, Hw. reflexivity.
  - rewrite !resid_prepare_weights_slice, Hv, Hw. reflexivity.
Qed.

Lemma resid_loop_dims (nSigma maxStddev : float) (weights_orig vals_flagged : array2)
    (n : nat) (st : loop_state array2 resid_round_out) :
  resid_loop np nSigma maxStddev weights_orig vals_flagged n = Ok st ->
  dims2 (trial st) = dims2 weights_orig.
Proof.
  apply (run_clip_loop_trial _ _ _ _ (fun m => dims2 m = dims2 weights_orig));
    intros; reflexivity.
Qed.

Lemma resid_commit_ext (maxFlaggedFraction : float) (ants : list string) (s : nat)
    (pol : nat) (w w' : array3) (n : nat) (st : loop_state array2 resid_round_out) :
  slice_pol w pol = slice_pol w' pol ->
  dims2 (trial st) = dims2 (slice_pol w pol) ->
  fst (resid_commit maxFlaggedFraction ants s pol w n st)
  = fst (resid_commit maxFlaggedFraction ants s pol w' n st) /\
  slice_pol (snd (resid_commit maxFlaggedFraction ants s pol w n st)) pol
  = slice_pol (snd (resid_commit maxFlaggedFraction ants s pol w' n st)) pol.
Proof.
  intros Hw Hd. unfold resid_commit.
  destruct (last_round st) as [r|]; [|split; [reflexivity|exact Hw]].
  destruct (py_div _ _) as [frac|e]; [|split; [reflexivity|exact Hw]].
  assert (S : slice_pol (set_pol w pol (trial st)) pol
              = slice_pol (set_pol w' pol (trial st)) pol).
  { rewrite !slice_pol_set_pol_same; [reflexivity| |].
    - rewrite Hd, Hw. apply dims2_slice_pol.
    - rewrite Hd. apply dims2_slice_pol. }
  unfold logged.
  destruct (maxFlaggedFraction <? frac)%float; cbv zeta;
    destruct (station_name ants s); cbn [fst snd]; split; try reflexivity;
    try exact Hw; try exact S.
  rewrite !slice_pol_fill_pol_same, Hw. reflexivity.
Qed.

Lemma resid_pol_ext (soltype : string) (nSigma maxFlaggedFraction maxStddev : float)
    (ants : list string) (s : nat) (pol : nat) (st st' : array3 * array3) :
  same_pol pol st st' ->
  fst (resid_pol np soltype nSigma maxFlaggedFraction maxStddev ants s pol st)
  = fst (resid_pol np soltype nSigma maxFlaggedFraction maxStddev ants s pol st') /\
  same_pol pol (snd (resid_pol np soltype nSigma maxFlaggedFraction maxStddev ants s pol st))
               (snd (resid_pol np soltype nSigma maxFlaggedFraction maxStddev ants s pol
                               st')).
Proof.
  intros H. destruct st as [vals weights], st' as [vals' weights'].
  pose proof (resid_prepare_info_ext np soltype pol _ _ _ _ H) as I.
  pose proof (resid_prepare_ext soltype pol _ _ _ _ H) as P.
  unfold resid_pol. cbn [fst snd].
  destruct (resid_prepare np soltype pol vals weights)
    as [[v1 w1] [[[[weights_orig vals_flagged] n] mean]|]] eqn:E;
    destruct (resid_prepare np soltype pol vals' weights') as [[v1' w1'] info'];
    simpl in I, P; subst info'.
  2:{ split; [reflexivity|exact P]. }
  apply resid_prepare_weights_orig in E.
  destruct (resid_loop np nSigma maxStddev weights_orig vals_flagged n) as [stf|e] eqn:L.
  2:{ split; [reflexivity|exact P]. }
  apply resid_loop_dims in L. destruct P as [Pv Pw]. cbn [fst snd] in Pv, Pw.
  pose proof (resid_commit_ext maxFlaggedFraction ants s pol w1 w1' n stf Pw) as C.
  rewrite <- E in C. destruct (C L) as [C1 C2]. cbn [fst snd].
  split; [exact C1|]. split; [exact Pv|exact C2].
Qed.

(** The station list and the station index are read by the log calls
    only: two bodies that both return leave the same arrays. *)
Lemma logged_station (ants ants' : list string) (s s' : nat) (before after : array3)
    (u u' : unit) :
  fst (logged ants s before after) = Ok u ->
  fst (logged ants' s' before after) = Ok u' ->
  snd (logged ants s before after) = snd (logged ants' s' before after).
Proof.
  unfold logged.
  destruct (station_name ants s); [|discriminate].
  destruct (station_name ants' s'); [|discriminate]. reflexivity.
Qed.

Lemma resid_commit_station (maxFlaggedFraction : float) (ants ants' : list string)
    (s s' : nat) (pol : nat) (w : array3) (n : nat) (st : loop_state array2 resid_round_out)
    (u u' : unit) :
  fst (resid_commit maxFlaggedFraction ants s pol w n st) = Ok u ->
  fst (resid_commit maxFlaggedFraction ants' s' pol w n st) = Ok u' ->
  snd (resid_commit maxFlaggedFraction ants s pol w n st)
  = snd (resid_commit maxFlaggedFraction ants' s' pol w n st).
Proof.
  unfold resid_commit.
  destruct (last_round st) as [r|]; [|discriminate].
  destruct (py_div _ _) as [frac|e]; [|discriminate].
  destruct (maxFlaggedFraction <? frac)%float; cbv zeta; apply logged_station.
Qed.

Lemma resid_pol_station (soltype : string) (nSigma maxFlaggedFraction maxStddev : float)
    (ants ants' : list string) (s s' : nat) (pol : nat) (st : array3 * array3)
    (u u' : unit) :
  fst (resid_pol np soltype nSigma maxFlaggedFraction maxStddev ants s pol st) = Ok u ->
  fst (resid_pol np soltype nSigma maxFlaggedFraction maxStddev ants' s' pol st) = Ok u' ->
  snd (resid_pol np soltype nSigma maxFlaggedFraction maxStddev ants s pol st)
  = snd (resid_pol np soltype nSigma maxFlaggedFraction maxStddev ants' s' pol st).
Proof.
  unfold resid_pol.
  destruct (resid_prepare np soltype pol (fst st) (snd st))
    as [[v1 w1] [[[[weights_orig vals_flagged] n] mean]|]]; [|reflexivity].
  destruct (resid_loop np nSigma maxStddev weights_orig vals_flagged n) as [stf|e];
    [|reflexivity].
  cbv zeta. cbn [fst snd]. intros H H'.
  rewrite (resid_commit_station _ _ _ _ _ _ _ _ _ _ _ H H'). reflexivity.
Qed.

(** A task that returns leaves, in each polarization, what the body of
    the loop makes of that polarization of the input. *)
Lemma flag_resid_pol_alone (vals weights : array3) (soltype : string)
    (nSigma maxFlaggedFraction maxStddev : float) (ants : list string) (s : nat)
    (outQueue : queue) (pol : nat) (ret : option Z) :
  np_all3 is_zero weights = false ->
  pol < snd (dims3 vals) ->
  let e := _flag_resid np vals weights soltype nSigma maxFlaggedFraction maxStddev
                       ants s outQueue in
  t_result e = Ok ret ->
  (exists u, fst (resid_pol np soltype nSigma maxFlaggedFraction maxStddev ants s pol
                            (vals, weights)) = Ok u) /\
  same_pol pol (t_vals e, t_weights e)
    (snd (resid_pol np soltype nSigma maxFlaggedFraction maxStddev ants s pol
                    (vals, weights))).
Proof.
  intros A Hp. cbv zeta. unfold _flag_resid. rewrite A.
  rewrite (seq_split_at pol _ Hp), for_pols_app.
  set (body := resid_pol np soltype nSigma maxFlaggedFraction maxStddev ants s).
  pose proof (for_pols_frame body pol (seq 0 pol)
                (fun q st => resid_pol_frame np soltype _ _ _ ants s pol q st)
                (not_in_seq_before pol) (vals, weights)) as F1.
  destruct (for_pols body (seq 0 pol) (vals, weights)) as [[u|e] [vals1 weights1]];
    [|discriminate].
  cbn [snd] in F1. cbn [for_pols].
  destruct (resid_pol_ext soltype nSigma maxFlaggedFraction maxStddev ants s pol _ _ F1)
    as [X0 X].
  fold body in X, X0.
  destruct (body pol (vals1, weights1)) as [[u1|e] [vals2 weights2]]; [|discriminate].
  cbn [fst snd] in X, X0.
  pose proof (for_pols_frame body pol (seq (S pol) (snd (dims3 vals) - S pol))
                (fun q st => resid_pol_frame np soltype _ _ _ ants s pol q st)
                (not_in_seq_after pol _) (vals2, weights2)) as F2.
  destruct (for_pols body _ (vals2, weights2)) as [[u'|e] [vals3 weights3]]; [|discriminate].
  intros _. cbn [t_vals t_weights snd] in *.
  split; [exists u1; exact X0|].
  apply same_pol_sym. eapply same_pol_trans; [exact X|exact F2].
Qed.

(** ** Bad solutions *)

Lemma resid_pol_flags_bad (soltype : string) (nSigma maxFlaggedFraction maxStddev : float)
    (ants : list string) (s : nat) (pol : nat) (st : array3 * array3) (t f : nat) :
  t < fst (dims2 (slice_pol (fst st) pol)) ->
  f < snd (dims2 (slice_pol (fst st) pol)) ->
  bad_solution soltype (get2 (slice_pol (fst st) pol) t f) = true ->
  is_zero (get2 (slice_pol (snd (snd (resid_pol np soltype nSigma maxFlaggedFraction
                                                maxStddev ants s pol st))) pol) t f) = true.
Proof.
  intros Ht Hf Hb.
  assert (Z : is_zero (get3 (snd (fst (resid_prepare np soltype pol (fst st) (snd st))))
                            t f pol) = true).
  { rewrite <- get2_slice_pol, resid_prepare_weights_slice. simpl.
    rewrite mem2_np_where2, Hb.
    apply Nat.ltb_lt in Ht, Hf. rewrite Ht, Hf. reflexivity. }
  rewrite get2_slice_pol.
  unfold resid_pol.
  destruct (resid_prepare np soltype pol (fst st) (snd st))
    as [[vals' weights'] [[[[weights_orig vals_flagged] n] mean]|]] eqn:E;
    cbn [fst snd] in Z; [|exact Z].
  apply resid_prepare_weights_orig in E.
  destruct (resid_loop np nSigma maxStddev weights_orig vals_flagged n) as [stf|e] eqn:L;
    [|exact Z].
  apply resid_loop_keeps_flags in L. subst weights_orig.
  cbn [snd]. eapply resid_commit_keeps_flags; [exact L|exact Z].
Qed.

(** ** The value slice of amplitudes *)

Lemma resid_prepare_skipped (soltype : string) (vals_pol weights_pol : array2) :
  dims2 weights_pol = dims2 vals_pol ->
  np_all2 is_zero
    (assign_at (np_where2 (fun t f => bad_solution soltype (get2 vals_pol t f))
                          (dims2 vals_pol)) 0%float weights_pol)
  = pol_skipped soltype vals_pol weights_pol.
Proof.
  intros Hd. unfold np_all2, pol_skipped. simpl dims2.
  apply forallb_ext_in. intros [t f] Hin. apply in_indices2 in Hin as [Ht Hf].
  rewrite Hd in Ht, Hf. simpl. rewrite mem2_np_where2.
  apply Nat.ltb_lt in Ht, Hf. rewrite Ht, Hf. cbn [andb].
  unfold flagged_before_loop.
  destruct (bad_solution soltype (get2 vals_pol t f)).
  - rewrite orb_true_r. reflexivity.
  - rewrite orb_false_r. reflexivity.
Qed.

Lemma resid_prepare_amplitude_vals (pol : nat) (vals weights : array3) (t f : nat) :
  dims2 (slice_pol weights pol) = dims2 (slice_pol vals pol) ->
  t < fst (dims2 (slice_pol vals pol)) ->
  f < snd (dims2 (slice_pol vals pol)) ->
  get2 (slice_pol (fst (fst (resid_prepare np "amplitude" pol vals weights))) pol) t f
  = if pol_skipped "amplitude" (slice_pol vals pol) (slice_pol weights pol)
    then get2 (slice_pol vals pol) t f
    else if flagged_before_loop "amplitude" (slice_pol vals pol) (slice_pol weights pol) t f
         then 0%float
         else np_log10 np (get2 (slice_pol vals pol) t f).
Proof.
  intros Hd Ht Hf.
  rewrite <- (resid_prepare_skipped "amplitude" _ _ Hd).
  rewrite resid_prepare_vals_slice. cbv zeta.
  change ("amplitude" =? "phase")%string with false.
  change ("amplitude" =? "amplitude")%string with true. cbv iota.
  destruct (np_all2 is_zero _); [reflexivity|].
  apply Nat.ltb_lt in Ht, Hf.
  simpl. rewrite !mem2_np_where2, Hd, Ht, Hf. cbn [andb].
  unfold flagged_before_loop.
  destruct (bad_solution "amplitude" (get2 (slice_pol vals pol) t f)).
  - rewrite orb_true_r. reflexivity.
  - rewrite orb_false_r.
    destruct (is_zero (get2 (slice_pol weights pol) t f)); reflexivity.
Qed.

Lemma np_all3_pol_skipped (soltype : string) (vals weights : array3) (pol : nat) :
  pol < snd (dims3 weights) -> np_all3 is_zero weights = true ->
  pol_skipped soltype (slice_pol vals pol) (slice_pol weights pol) = true.
Proof.
  intros Hp A. apply (np_all3_slice weights pol Hp) in A.
  unfold pol_skipped, np_all2 in *. apply forallb_forall. intros i Hi.
  rewrite forallb_forall in A. unfold flagged_before_loop. rewrite (A i Hi). reflexivity.
Qed.

End ResidFacts.

(** ** The tasks of a run *)

Section RunTasks.

Variable np : numlib.
Variable bandpass_on_directions : directions_flagger.

Lemma resid_directions_count (solType : string)
    (nSigma maxFlaggedFraction maxStddev : float) (soltab : Soltab) (vals : array5)
    (dirs : list nat) :
  forall weights submitted weights' submitted',
    resid_directions np bandpass_on_directions solType nSigma maxFlaggedFraction maxStddev
                     soltab vals dirs weights submitted = (Ok weights', submitted') ->
    List.length submitted'
    = List.length submitted + List.length dirs * List.length (st_ant soltab).
Proof.
  induction dirs as [|d rest IH]; intros weights submitted weights' submitted' H;
    cbn [resid_directions] in H.
  - injection H as _ <-. simpl. lia.
  - destruct (mpm_run np _ _ []) as [results|e]; [|discriminate].
    apply IH in H. rewrite H, length_app, length_map, length_seq. simpl. lia.
Qed.

End RunTasks.

(** ** A station index outside the station list *)

Section StationName.

Variable np : numlib.

Lemma resid_commit_unknown_station (maxFlaggedFraction : float) (ants : list string)
    (s : nat) (pol : nat) (weights : array3) (n : nat)
    (st : loop_state array2 resid_round_out) (u : unit) :
  List.length ants <= s ->
  fst (resid_commit maxFlaggedFraction ants s pol weights n st) <> Ok u.
Proof.
  intros Hs. unfold resid_commit.
  destruct (last_round st) as [r|]; [|discriminate].
  destruct (py_div _ _) as [frac|e]; [|discriminate].
  destruct (maxFlaggedFraction <? frac)%float; cbv zeta;
    rewrite logged_unknown_station by exact Hs; discriminate.
Qed.

Lemma resid_pol_unknown_station (soltype : string)
    (nSigma maxFlaggedFraction maxStddev : float) (ants : list string) (s : nat) (pol : nat)
    (vals weights : array3) (u : unit) :
  List.length ants <= s ->
  dims2 (slice_pol weights pol) = dims2 (slice_pol vals pol) ->
  fst (resid_pol np soltype nSigma maxFlaggedFraction maxStddev ants s pol (vals, weights))
  = Ok u ->
  pol_skipped soltype (slice_pol vals pol) (slice_pol weights pol) = true.
Proof.
  intros Hs Hd. rewrite <- (resid_prepare_skipped soltype _ _ Hd).
  rewrite <- resid_prepare_weights_slice with (np := np).
  unfold resid_pol. cbn [fst snd].
  unfold resid_prepare at 1 2. cbv zeta.
  destruct (np_all2 is_zero _) eqn:Z; cbn [fst snd].
  { intros _. exact Z. }
  destruct (resid_loop np _ _ _ _ _) as [stf|e]; [|discriminate].
  cbn [fst]. intros H. exfalso. revert H. apply resid_commit_unknown_station, Hs.
Qed.

End StationName.

(** ** What the tasks of a run carry *)

Section RunCall.

Variable np : numlib.
Variable bandpass_on_directions : directions_flagger.

Lemma resid_directions_tasks (P : task -> Prop) (solType : string)
    (nSigma maxFlaggedFraction maxStddev : float) (soltab : Soltab) (vals : array5) :
  (forall d w s, s < List.length (st_ant soltab) ->
                 P (ResidTask (slice_station vals s d) w solType nSigma maxFlaggedFraction
                              maxStddev (st_ant soltab) s)) ->
  forall dirs weights submitted,
    Forall P submitted ->
    Forall P (snd (resid_directions np bandpass_on_directions solType nSigma
                                    maxFlaggedFraction maxStddev soltab
                                    vals dirs weights submitted)).
Proof.
  intros HP dirs. induction dirs as [|d rest IH]; intros weights submitted Hs;
    cbn [resid_directions].
  - exact Hs.
  - assert (Hs' : Forall P (submitted ++
              map (fun s => ResidTask (slice_station vals s d) (slice_station weights s d)
                                      solType nSigma maxFlaggedFraction maxStddev
                                      (st_ant soltab) s)
                  (seq 0 (List.length (st_ant soltab))))).
    { apply Forall_app. split; [exact Hs|]. apply Forall_map, Forall_forall.
      intros s Hin. apply in_seq in Hin. apply HP. lia. }
    destruct (mpm_run np _ _ []) as [results|e]; [|exact Hs'].
    apply IH, Hs'.
Qed.

End RunCall.

(** ** Transposing twice *)

Lemma nth_of_five (g : nat -> nat) (q : nat) :
  q < 5 -> nth q [g 0; g 1; g 2; g 3; g 4] 0 = g q.
Proof.
  intros H. do 5 (destruct q as [|q]; [reflexivity|]). lia.
Qed.

Lemma restores_order_at (axes : list nat) (k : nat) :
  restores_order axes = true -> k < 5 ->
  nth k (five_axes axes) 0 < 5 /\
  nth (nth k (five_axes axes) 0) (five_axes axes) 0 = k /\
  position k (five_axes axes) < 5 /\
  position (position k (five_axes axes)) (five_axes axes) = k.
Proof.
  unfold restores_order. cbv zeta. intros H Hk. rewrite forallb_forall in H.
  assert (Hin : In k (seq 0 5)) by (apply in_seq; lia).
  specialize (H k Hin).
  apply andb_prop in H as [H H4]. apply andb_prop in H as [H H3].
  apply andb_prop in H as [H1 H2].
  apply Nat.ltb_lt in H1, H3. apply Nat.eqb_eq in H2, H4. auto.
Qed.

Lemma get5_transposed_twice (axes : list nat) (a : array5) (i0 i1 i2 i3 i4 : nat) :
  restores_order axes = true ->
  get5 (transposed axes (transposed axes a)) i0 i1 i2 i3 i4 = get5 a i0 i1 i2 i3 i4.
Proof.
  intros H. unfold transposed. cbv zeta. cbn [get5].
  set (ax := five_axes axes). set (i := [i0; i1; i2; i3; i4]).
  assert (E : forall m, m < 5 ->
            nth (position m ax)
                [nth (position 0 ax) i 0; nth (position 1 ax) i 0; nth (position 2 ax) i 0;
                 nth (position 3 ax) i 0; nth (position 4 ax) i 0] 0
            = nth m i 0).
  { intros m Hm. destruct (restores_order_at axes m H Hm) as [_ [_ [Hp Hpp]]].
    fold ax in Hp, Hpp.
    rewrite (nth_of_five (fun k => nth (position k ax) i 0)) by exact Hp.
    rewrite Hpp. reflexivity. }
  rewrite !E by lia. reflexivity.
Qed.

Lemma dim5_transposed (axes : list nat) (a : array5) (k : nat) :
  k < 5 -> dim5 (transposed axes a) k = dim5 a (nth k (five_axes axes) 0).
Proof.
  intros H. unfold transposed, dim5 at 1. cbv zeta. cbn [dims5].
  do 5 (destruct k as [|k]; [reflexivity|]). lia.
Qed.

Lemma dim5_transposed_twice (axes : list nat) (a : array5) (k : nat) :
  restores_order axes = true -> k < 5 ->
  dim5 (transposed axes (transposed axes a)) k = dim5 a k.
Proof.
  intros H Hk. destruct (restores_order_at axes k H Hk) as [H1 [H2 _]].
  rewrite dim5_transposed by exact Hk. rewrite dim5_transposed by exact H1.
  rewrite H2. reflexivity.
Qed.

Lemma dim5_same_dims (a b : array5) (k : nat) : dims5 a = dims5 b -> dim5 a k = dim5 b k.
Proof. unfold dim5. intros ->. reflexivity. Qed.

Lemma dims5_transposed_same (axes : list nat) (a b : array5) :
  dims5 a = dims5 b -> dims5 (transposed axes a) = dims5 (transposed axes b).
Proof.
  intros H. unfold transposed. cbv zeta. cbn [dims5].
  rewrite !(dim5_same_dims a b) by exact H. reflexivity.
Qed.

Lemma setValues_weight_same_shape (soltab : Soltab) (a : array5) :
  (forall k, k < 5 -> dim5 a k = dim5 (st_weight soltab) k) ->
  setValues_weight soltab a
  = Ok (mkSoltab (st_axes soltab) (st_type soltab) (st_ant soltab) (st_freq soltab)
                 (st_dir soltab) (st_val soltab) a (st_history soltab)).
Proof.
  intros H. unfold setValues_weight.
  pose proof (H 0 ltac:(lia)) as H0. pose proof (H 1 ltac:(lia)) as H1.
  pose proof (H 2 ltac:(lia)) as H2. pose proof (H 3 ltac:(lia)) as H3.
  pose proof (H 4 ltac:(lia)) as H4.
  rewrite H0, H1, H2, H3, H4. unfold dim5.
  destruct (dims5 (st_weight soltab)) as [[[[n0 n1] n2] n3] n4].
  rewrite !Nat.eqb_refl. reflexivity.
Qed.

Lemma pointwise5_transposed (R : float -> float -> Prop) (axes : list nat) (a b : array5) :
  pointwise5 R a b -> pointwise5 R (transposed axes a) (transposed axes b).
Proof.
  intros H i0 i1 i2 i3 i4. unfold transposed. cbv zeta. cbn [get5]. apply H.
Qed.

(** The weights [run] works on, transposed with the same axes once
    more, are the weights of the table with the NaN solutions flagged,
    when the order is one that this restores. *)
Lemma get5_run_weights_transposed (soltab : Soltab) (i0 i1 i2 i3 i4 : nat) :
  restores_order (run_axes (st_axes soltab)) = true ->
  get5 (transposed (run_axes (st_axes soltab)) (run_weights soltab)) i0 i1 i2 i3 i4
  = get5 (flag_nans (st_val soltab) (st_weight soltab)) i0 i1 i2 i3 i4.
Proof.
  intros H.
  pose proof (get5_transposed_twice _ (st_val soltab) i0 i1 i2 i3 i4 H) as Hv.
  pose proof (get5_transposed_twice _ (st_weight soltab) i0 i1 i2 i3 i4 H) as Hw.
  unfold run_weights. unfold transposed at 1. cbv zeta. cbn [get5].
  unfold flag_nans at 1. cbn [get5].
  unfold transposed at 1 in Hv. cbv zeta in Hv. cbn [get5] in Hv.
  unfold transposed at 1 in Hw. cbv zeta in Hw. cbn [get5] in Hw.
  rewrite Hv, Hw. reflexivity.
Qed.

Lemma exported_status (transfer_flags : flag_export) (soltabExport : string)
    (soltab' : Soltab) (w : array5) :
  fst (exported transfer_flags soltabExport soltab' w) = Ok 0%Z
  \/ exists e, fst (exported transfer_flags soltabExport soltab' w) = Raise e.
Proof.
  unfold exported. destruct (soltabExport =? "")%string; [left; reflexivity|].
  destruct (transfer_flags _ _ _) as [[u|e] t]; [left; reflexivity|right; exists e; reflexivity].
Qed.

(** * Further properties *)

Lemma kept_or_zeroed_refl (a : float) : kept_or_zeroed a a.
Proof. left. reflexivity. Qed.

Lemma kept_or_zeroed_trans (a b c : float) :
  kept_or_zeroed a b -> kept_or_zeroed b c -> kept_or_zeroed a c.
Proof. unfold kept_or_zeroed. intros [-> | ->] [-> | ->]; auto. Qed.

Lemma kept_or_zeroed_zero (a : float) : kept_or_zeroed a 0%float.
Proof. right. reflexivity. Qed.

Lemma flag_kept_refl (a : float) : flag_kept a a.
Proof. intros H. exact H. Qed.

Lemma flag_kept_trans (a b c : float) : flag_kept a b -> flag_kept b c -> flag_kept a c.
Proof. intros H1 H2 H. apply H2, H1, H. Qed.

Lemma flag_kept_zero (a : float) : flag_kept a 0%float.
Proof. intros _. reflexivity. Qed.

(** ** The driver *)

(** The checks of the solution type come after the transposes: on a
    table with a fifth axis that is not [dir], bandpass mode on phases
    ends in the ValueError of line 521, not in the return of line
    532. *)
Lemma type_check_after_the_transposes :
  run_refuses table_fifth_axis (Some "bandpass"%string) = true /\
  refused_at_once table_fifth_axis (Some "bandpass"%string) = false /\
  axes_fit (st_axes table_fifth_axis) = false /\
  run_default table_fifth_axis "bandpass" = mkRun (Raise ValueError) table_fifth_axis [].
Proof. repeat split. Qed.

(** X1 ([run], the input checks).  [run] returns 1 exactly when one of
    its four checks fails and is reached.  The checks of the mode - no
    mode, or one that is neither "bandpass" nor "resid" in any letter
    case - and of the axes freq, pol, time, ant come first; the checks
    of the solution type - amplitude in bandpass mode, phase or
    amplitude in resid mode - come after the transposes of lines
    518-522 and are reached when NumPy accepts these.  When [run]
    returns 1 it leaves the table as it was and has handed no task to
    the runner. *)
Theorem run_refuses_with_status_one (np : numlib)
    (transfer_flags : flag_export) (bandpass_on_directions : directions_flagger)
    (soltab : Soltab) (mode : option string) (maxFlaggedFraction nSigma : float)
    (telescope refAnt soltabExport : string) (ncpu : nat) :
  let r := run np transfer_flags bandpass_on_directions soltab mode maxFlaggedFraction
               nSigma telescope refAnt soltabExport ncpu in
  (r_status r = Ok 1%Z <->
   run_refuses soltab mode = true /\
   (refused_at_once soltab mode = true \/ axes_fit (st_axes soltab) = true)) /\
  (r_status r = Ok 1%Z -> r = mkRun (Ok 1%Z) soltab []).
Proof.
  cbv zeta.
  destruct (run_outcomes kept_or_zeroed kept_or_zeroed_refl kept_or_zeroed_trans
              kept_or_zeroed_zero np transfer_flags bandpass_on_directions soltab mode
              maxFlaggedFraction nSigma telescope refAnt soltabExport ncpu)
    as [Hr Hor E|e E0 Hor Es Et|w Hr Hfit Hd K E].
  - rewrite E. split; [split; [intros _; split; assumption|reflexivity]|reflexivity].
  - rewrite Es. split; [split; [discriminate|]|discriminate].
    intros [Hr [H|H]]; [congruence|]. destruct Hor; congruence.
  - assert (S : r_status (run np transfer_flags bandpass_on_directions soltab mode
                              maxFlaggedFraction nSigma telescope refAnt soltabExport ncpu)
                <> Ok 1%Z).
    { apply (f_equal fst) in E. cbn [fst] in E. rewrite E.
      destruct (exported_status transfer_flags soltabExport
                  (written soltab (transposed (run_axes (st_axes soltab)) w)
                           (run_history mode telescope maxFlaggedFraction nSigma)) w)
        as [S|[e S]]; rewrite S; discriminate. }
    split; [split; [intros H; contradiction|]|intros H; contradiction].
    intros [Hr' _]. congruence.
Qed.

Lemma run_refuses_with_status_one_witness :
  run_refuses (table_ex 150e6 "phase") (Some "bandpass"%string) = true /\
  axes_fit (st_axes (table_ex 150e6 "phase")) = true /\
  run_default (table_ex 150e6 "phase") "bandpass"
  = mkRun (Ok 1%Z) (table_ex 150e6 "phase") [].
Proof.
  split; [reflexivity|]. split; [reflexivity|].
  apply (proj2 (run_refuses_with_status_one Small.numpy no_transfer no_directions
                  (table_ex 150e6 "phase") (Some "bandpass"%string) 0.5 5 "lofar" "" "" 0)).
  apply (proj2 (proj1 (run_refuses_with_status_one Small.numpy no_transfer no_directions
                         (table_ex 150e6 "phase") (Some "bandpass"%string) 0.5 5 "lofar" ""
                         "" 0))).
  split; [reflexivity|right; reflexivity].
Defined.

(** X2 ([run], the mode).  The mode is checked without regard to letter
    case (line 501) but compared with 'bandpass' exactly (line 528): a
    mode that passes the check and is not exactly "bandpass" - such as
    "Bandpass" or "RESID" - runs as mode "resid". *)
Theorem mode_is_compared_exactly (np : numlib)
    (transfer_flags : flag_export) (bandpass_on_directions : directions_flagger)
    (soltab : Soltab) (m : string) (maxFlaggedFraction nSigma : float)
    (telescope refAnt soltabExport : string) (ncpu : nat) :
  str_in (lower m) ["bandpass"; "resid"]%string = true ->
  (m =? "bandpass")%string = false ->
  run np transfer_flags bandpass_on_directions soltab (Some m) maxFlaggedFraction nSigma
      telescope refAnt soltabExport ncpu
  = run np transfer_flags bandpass_on_directions soltab (Some "resid"%string)
        maxFlaggedFraction nSigma telescope refAnt soltabExport ncpu.
Proof.
  intros Hin Hneq. unfold run. cbv zeta. rewrite Hin, Hneq.
  change (str_in (lower "resid") ["bandpass"; "resid"]%string) with true.
  change ("resid" =? "bandpass")%string with false.
  reflexivity.
Qed.

Lemma mode_is_compared_exactly_witness :
  run_default (table_ex 150e6 "amplitude") "Bandpass"
  = run_default (table_ex 150e6 "amplitude") "resid".
Proof.
  apply (mode_is_compared_exactly Small.numpy no_transfer no_directions
           (table_ex 150e6 "amplitude") "Bandpass" 0.5 5 "lofar" "" "" 0); reflexivity.
Defined.

(** X3 ([run], what it writes).  When no export is asked, [run] leaves
    the axes, the solution type, the station, frequency and direction
    lists and the values of the table as they were; it returns 0 or 1
    when it returns; when it returns 0 the history has grown by
    exactly the entry of the mode that ran; and when it does not
    return 0 the table is as it was. *)
Theorem run_writes_weights_and_history_only (np : numlib)
    (transfer_flags : flag_export) (bandpass_on_directions : directions_flagger)
    (soltab : Soltab) (mode : option string) (maxFlaggedFraction nSigma : float)
    (telescope refAnt : string) (ncpu : nat) :
  let r := run np transfer_flags bandpass_on_directions soltab mode maxFlaggedFraction
               nSigma telescope refAnt "" ncpu in
  (st_axes (r_soltab r) = st_axes soltab /\ st_type (r_soltab r) = st_type soltab /\
   st_ant (r_soltab r) = st_ant soltab /\ st_freq (r_soltab r) = st_freq soltab /\
   st_dir (r_soltab r) = st_dir soltab /\ st_val (r_soltab r) = st_val soltab) /\
  (forall c, r_status r = Ok c -> c = 0%Z \/ c = 1%Z) /\
  (r_status r = Ok 0%Z ->
   st_history (r_soltab r)
   = st_history soltab ++ [run_history mode telescope maxFlaggedFraction nSigma]) /\
  (r_status r <> Ok 0%Z -> r_soltab r = soltab).
Proof.
  cbv zeta.
  destruct (run_outcomes kept_or_zeroed kept_or_zeroed_refl kept_or_zeroed_trans
              kept_or_zeroed_zero np transfer_flags bandpass_on_directions soltab mode
              maxFlaggedFraction nSigma telescope refAnt "" ncpu)
    as [Hr Hor E|e E0 Hor Es Et|w Hr Hfit Hd K E].
  - rewrite E. cbn [r_soltab r_status]. split; [repeat split|].
    split; [intros c H; injection H as <-; right; reflexivity|].
    split; [discriminate|reflexivity].
  - rewrite Et, Es. split; [repeat split|].
    split; [discriminate|]. split; [discriminate|reflexivity].
  - unfold exported in E. change ("" =? "")%string with true in E. cbv iota in E.
    injection E as Es Et. rewrite Es, Et.
    cbn [written st_axes st_type st_ant st_freq st_dir st_val st_history].
    split; [repeat split|]. split; [|split; [intros _; reflexivity|]].
    + intros c H. injection H as <-. left. reflexivity.
    + intros H. contradiction.
Qed.

Lemma run_writes_weights_and_history_only_witness :
  r_status (run_default (table_ex 150e6 "amplitude") "resid") = Ok 0%Z /\
  st_history (r_soltab (run_default (table_ex 150e6 "amplitude") "resid"))
  = [] ++ [HistResid 0.5 5].
Proof.
  split; [by_evaluation|].
  apply (run_writes_weights_and_history_only Small.numpy no_transfer no_directions
           (table_ex 150e6 "amplitude") (Some "resid"%string) 0.5 5 "lofar" "" 0).
  by_evaluation.
Defined.

(** X4 ([run], lines 525-526).  On a table whose axis order the second
    transpose restores, after a run without export that returns 0
    every solution whose value is NaN has weight zero. *)
Theorem run_flags_nan_solutions (np : numlib)
    (transfer_flags : flag_export) (bandpass_on_directions : directions_flagger)
    (soltab : Soltab) (mode : option string) (maxFlaggedFraction nSigma : float)
    (telescope refAnt : string) (ncpu : nat) (i0 i1 i2 i3 i4 : nat) :
  let r := run np transfer_flags bandpass_on_directions soltab mode maxFlaggedFraction
               nSigma telescope refAnt "" ncpu in
  restores_order (run_axes (st_axes soltab)) = true ->
  r_status r = Ok 0%Z ->
  PrimFloat.is_nan (get5 (st_val soltab) i0 i1 i2 i3 i4) = true ->
  is_zero (get5 (st_weight (r_soltab r)) i0 i1 i2 i3 i4) = true.
Proof.
  cbv zeta. intros Hro H0 Hnan.
  destruct (run_outcomes flag_kept flag_kept_refl flag_kept_trans flag_kept_zero
              np transfer_flags bandpass_on_directions soltab mode maxFlaggedFraction nSigma
              telescope refAnt "" ncpu)
    as [Hr Hor E|e E0 Hor Es Et|w Hr Hfit Hd K E].
  - rewrite E in H0. discriminate.
  - rewrite Es in H0. discriminate.
  - unfold exported in E. change ("" =? "")%string with true in E. cbv iota in E.
    injection E as _ Et. rewrite Et. cbn [written st_weight].
    apply (pointwise5_transposed flag_kept (run_axes (st_axes soltab))) in K.
    apply K. rewrite get5_run_weights_transposed by exact Hro.
    simpl. rewrite Hnan. reflexivity.
Qed.

Lemma run_flags_nan_solutions_witness :
  is_zero (get5 (st_weight (r_soltab (run_default table_nan "resid"))) 0 0 0 0 0) = true.
Proof.
  apply (run_flags_nan_solutions Small.numpy no_transfer no_directions table_nan
           (Some "resid"%string) 0.5 5 "lofar" "" 0 0 0 0 0 0); by_evaluation.
Defined.

(** X5 (weights are only ever flagged).  Each weight either flagger
    leaves is the weight that was there before or [0.0]: no weight is
    rescaled or set to another value.  The same holds of each weight of
    the table after a run without export, when the axis order of the
    table is one that the second transpose restores. *)
Theorem weights_kept_or_zeroed (np : numlib) :
  (forall vals weights soltype nSigma maxFlaggedFraction maxStddev ants s outQueue,
      pointwise3 kept_or_zeroed weights
        (t_weights (_flag_resid np vals weights soltype nSigma maxFlaggedFraction maxStddev
                                ants s outQueue))) /\
  (forall freqs amps weights telescope nSigma maxFlaggedFraction maxStddev plot ants s
          outQueue,
      pointwise3 kept_or_zeroed weights
        (t_weights (_flag_bandpass np freqs amps weights telescope nSigma maxFlaggedFraction
                                   maxStddev plot ants s outQueue))) /\
  (forall transfer_flags bandpass_on_directions soltab mode maxFlaggedFraction nSigma
          telescope refAnt ncpu,
      restores_order (run_axes (st_axes soltab)) = true ->
      pointwise5 kept_or_zeroed (st_weight soltab)
        (st_weight (r_soltab (run np transfer_flags bandpass_on_directions soltab mode
                                  maxFlaggedFraction nSigma telescope refAnt "" ncpu)))).
Proof.
  split; [|split].
  - intros. apply flag_resid_pointwise;
      [apply kept_or_zeroed_refl|apply kept_or_zeroed_trans|apply kept_or_zeroed_zero].
  - intros. apply flag_bandpass_pointwise;
      [apply kept_or_zeroed_refl|apply kept_or_zeroed_trans|apply kept_or_zeroed_zero].
  - intros transfer_flags bandpass_on_directions soltab mode maxFlaggedFraction nSigma
           telescope refAnt ncpu Hro.
    destruct (run_outcomes kept_or_zeroed kept_or_zeroed_refl kept_or_zeroed_trans
                kept_or_zeroed_zero np transfer_flags bandpass_on_directions soltab mode
                maxFlaggedFraction nSigma telescope refAnt "" ncpu)
      as [Hr Hor E|e E0 Hor Es Et|w Hr Hfit Hd K E].
    + rewrite E. intros i0 i1 i2 i3 i4. apply kept_or_zeroed_refl.
    + rewrite Et. intros i0 i1 i2 i3 i4. apply kept_or_zeroed_refl.
    + unfold exported in E. change ("" =? "")%string with true in E. cbv iota in E.
      injection E as _ Et. rewrite Et. cbn [written st_weight].
      apply (pointwise5_transposed kept_or_zeroed (run_axes (st_axes soltab))) in K.
      intros i0 i1 i2 i3 i4. eapply kept_or_zeroed_trans; [|apply K].
      rewrite get5_run_weights_transposed by exact Hro. simpl.
      destruct (PrimFloat.is_nan _); [apply kept_or_zeroed_zero|apply kept_or_zeroed_refl].
Qed.

(** The table with a NaN solution, after a run: the weight of the NaN
    solution is zeroed, the other one is kept. *)
Lemma weights_kept_or_zeroed_witness :
  restores_order (run_axes (st_axes table_nan)) = true /\
  kept_or_zeroed (get5 (st_weight table_nan) 0 0 0 0 0)
                 (get5 (st_weight (r_soltab (run_default table_nan "resid"))) 0 0 0 0 0).
Proof.
  split; [reflexivity|].
  apply (proj2 (proj2 (weights_kept_or_zeroed Small.numpy)) no_transfer no_directions
               table_nan (Some "resid"%string) 0.5%float 5%float "lofar"%string ""%string 0).
  reflexivity.
Defined.

(** X6 ([run] without stations).  On a table without stations and
    without direction axis that passes the checks, with the axes [run]
    transposes and no other, in an order that the second transpose
    restores, a run without export hands no task to the runner, gives
    the table its weights with the NaN solutions flagged, adds the
    history entry and returns 0. *)
Theorem run_without_stations (np : numlib)
    (transfer_flags : flag_export) (bandpass_on_directions : directions_flagger)
    (soltab : Soltab) (mode : option string) (maxFlaggedFraction nSigma : float)
    (telescope refAnt : string) (ncpu : nat) :
  run_refuses soltab mode = false ->
  st_ant soltab = [] ->
  str_in "dir" (st_axes soltab) = false ->
  axes_fit (st_axes soltab) = true ->
  restores_order (run_axes (st_axes soltab)) = true ->
  let r := run np transfer_flags bandpass_on_directions soltab mode maxFlaggedFraction
               nSigma telescope refAnt "" ncpu in
  r_status r = Ok 0%Z /\ r_submitted r = [] /\
  st_history (r_soltab r)
  = st_history soltab ++ [run_history mode telescope maxFlaggedFraction nSigma] /\
  forall i0 i1 i2 i3 i4,
    get5 (st_weight (r_soltab r)) i0 i1 i2 i3 i4
    = get5 (flag_nans (st_val soltab) (st_weight soltab)) i0 i1 i2 i3 i4.
Proof.
  intros Hr Ha Hd Hfit Hro. cbv zeta.
  assert (W : forall h,
             write_back transfer_flags soltab None (run_weights soltab)
                        (run_axes (st_axes soltab)) h []
             = mkRun (Ok 0%Z)
                     (written soltab (transposed (run_axes (st_axes soltab))
                                                 (run_weights soltab)) h) []).
  { intros h. unfold write_back. rewrite (transpose_fit _ _ Hfit).
    rewrite setValues_weight_same_shape; [reflexivity|].
    intros k Hk. unfold run_weights.
    rewrite (dim5_same_dims _ (transposed (run_axes (st_axes soltab))
                                 (transposed (run_axes (st_axes soltab)) (st_weight soltab)))).
    - apply dim5_transposed_twice; assumption.
    - apply dims5_transposed_same. reflexivity. }
  assert (E : run np transfer_flags bandpass_on_directions soltab mode maxFlaggedFraction
                  nSigma telescope refAnt "" ncpu
              = mkRun (Ok 0%Z)
                      (written soltab (transposed (run_axes (st_axes soltab))
                                                  (run_weights soltab))
                               (run_history mode telescope maxFlaggedFraction nSigma)) []).
  { unfold run_refuses in Hr. destruct mode as [m|]; [|discriminate].
    apply orb_false_iff in Hr as [Hr T]. apply orb_false_iff in Hr as [M A].
    unfold run, run_history. cbv zeta. rewrite M, A, Ha.
    rewrite !(transpose_fit _ _ Hfit). fold (run_weights soltab).
    change ("" =? "")%string with true. cbv iota.
    destruct (m =? "bandpass")%string; rewrite T.
    - cbn [List.length seq map mpm_run merge_results fold_left].
      replace (firstn 4 (run_axes (st_axes soltab))) with (run_axes (st_axes soltab))
        by (unfold run_axes; rewrite Hd; reflexivity).
      apply W.
    - rewrite Hd. cbn [resid_directions]. rewrite Ha.
      cbn [List.length seq map mpm_run merge_results fold_left app]. apply W. }
  rewrite E. cbn [r_status r_submitted r_soltab written st_history st_weight].
  split; [reflexivity|]. split; [reflexivity|]. split; [reflexivity|].
  intros. apply get5_run_weights_transposed, Hro.
Qed.

Lemma run_without_stations_witness :
  r_status (run Small.numpy no_transfer no_directions
                (mkSoltab ["time"; "ant"; "freq"; "pol"]%string "phase" [] [] []
                          (mk5 (0, 0, 0, 0, 1) (fun _ _ _ _ _ => nan))
                          (mk5 (0, 0, 0, 0, 1) (fun _ _ _ _ _ => 1%float)) [])
                (Some "resid"%string) 0.5 5 "lofar" "" "" 0) = Ok 0%Z.
Proof.
  apply (run_without_stations Small.numpy no_transfer no_directions
           (mkSoltab ["time"; "ant"; "freq"; "pol"]%string "phase" [] [] []
                     (mk5 (0, 0, 0, 0, 1) (fun _ _ _ _ _ => nan))
                     (mk5 (0, 0, 0, 0, 1) (fun _ _ _ _ _ => 1%float)) [])
           (Some "resid"%string) 0.5 5 "lofar" "" 0); reflexivity.
Defined.

(** ** The spline evaluator *)

(** X7 ([_B], the knot indices).  [_B(x, k, i, t, ...)] returns a value
    whenever [i + k + 1 < len(t)]; it raises IndexError whenever
    [i + k >= len(t)], unless the degree is 0 and the basis function is
    flagged for extrapolation (then no knot is read). *)
Theorem B_reads_knots_within_bounds (x : float) (t : list float) (extrap invert : bool)
    (k i : nat) :
  (i + k + 1 < List.length t -> exists v, _B x k i t extrap invert = Ok v) /\
  (List.length t <= i + k -> (k = 0 -> extrap = false) ->
   _B x k i t extrap invert = Raise IndexError).
Proof.
  split; [apply B_in_bounds|apply B_out_of_bounds].
Qed.

Lemma B_reads_knots_within_bounds_witness :
  (exists v, _B 50e6 3 12 knots_LBA false false = Ok v) /\
  _B 50e6 3 14 knots_LBA false false = Raise IndexError.
Proof.
  split.
  - apply (proj1 (B_reads_knots_within_bounds 50e6 knots_LBA false false 3 12)).
    simpl. lia.
  - apply (proj2 (B_reads_knots_within_bounds 50e6 knots_LBA false false 3 14)).
    + simpl. lia.
    + discriminate.
Defined.

(** X8 ([_bspline], line 201).  [_bspline] raises AssertionError
    exactly when its assertion fails, and returns a value otherwise:
    with [n = len(t) - k - 1 >= k + 1] and at least [n] coefficients no
    knot or coefficient is read out of range. *)
Theorem bspline_returns_unless_assertion_fails (x : float) (t c : list float) (k : nat) :
  (bspline_asserts t c k = true -> exists v, _bspline x t c k = Ok v) /\
  (bspline_asserts t c k = false -> _bspline x t c k = Raise AssertionError).
Proof.
  split; [apply bspline_ok|apply bspline_assertion_fails].
Qed.

Lemma bspline_returns_unless_assertion_fails_witness :
  (exists v, _bspline 20e6 knots_LBA (init_coeffs band_lba) 3 = Ok v) /\
  _bspline 20e6 knots_LBA [] 3 = Raise AssertionError.
Proof.
  split.
  - apply (proj1 (bspline_returns_unless_assertion_fails 20e6 knots_LBA
                    (init_coeffs band_lba) 3)). reflexivity.
  - apply (proj2 (bspline_returns_unless_assertion_fails 20e6 knots_LBA [] 3)).
    reflexivity.
Defined.

(** X9 ([_bandpass_LBA], [_bandpass_HBA_low]).  Given 13 coefficients
    the LBA model returns one value per frequency, for any frequencies
    (inside or outside the knots); given any other number it raises
    TypeError.  The same holds of the HBA-low model with 10
    coefficients. *)
Theorem band_models_return_one_value_per_frequency (freq coeffs : list float) :
  (List.length coeffs = 13 ->
   exists ys, _bandpass_LBA freq coeffs = Ok ys /\ List.length ys = List.length freq) /\
  (List.length coeffs <> 13 -> _bandpass_LBA freq coeffs = Raise TypeError) /\
  (List.length coeffs = 10 ->
   exists ys, _bandpass_HBA_low freq coeffs = Ok ys /\ List.length ys = List.length freq) /\
  (List.length coeffs <> 10 -> _bandpass_HBA_low freq coeffs = Raise TypeError).
Proof.
  split; [apply bandpass_LBA_ok|]. split; [apply with_coeffs_wrong_count|].
  split; [apply bandpass_HBA_low_ok|apply with_coeffs_wrong_count].
Qed.

Lemma band_models_return_one_value_per_frequency_witness :
  (exists ys, _bandpass_LBA [20e6; 50e6; 90e6]%float (init_coeffs band_lba) = Ok ys
              /\ List.length ys = 3) /\
  _bandpass_HBA_low [150e6]%float (init_coeffs band_lba) = Raise TypeError.
Proof.
  split.
  - apply (proj1 (band_models_return_one_value_per_frequency [20e6; 50e6; 90e6]%float
                    (init_coeffs band_lba))). reflexivity.
  - apply (proj2 (proj2 (proj2 (band_models_return_one_value_per_frequency [150e6]%float
                                  (init_coeffs band_lba))))).
    simpl. lia.
Defined.

(** ** The bandpass fit *)

(** X10 ([_fit_bandpass], [do_fit=False]).  For a supported band, in
    any letter case, [_fit_bandpass] without fit returns no parameters
    and the model bandpass of the initial coefficients, one value per
    frequency; the result does not depend on the amplitudes or on
    sigma, and no exception is raised. *)
Theorem fit_bandpass_without_fit (np : numlib) (freq : list float) (band : string) :
  supported_band band = true ->
  exists ys,
    List.length ys = List.length freq /\
    forall logamp sigma, _fit_bandpass np freq logamp sigma band false = Ok (None, ys).
Proof. apply fit_bandpass_unfit. Qed.

Lemma fit_bandpass_without_fit_witness :
  exists ys,
    List.length ys = 2 /\
    forall logamp sigma,
      _fit_bandpass Small.numpy [40e6; 60e6]%float logamp sigma "LBA" false = Ok (None, ys).
Proof.
  apply (fit_bandpass_without_fit Small.numpy [40e6; 60e6]%float "LBA"). reflexivity.
Defined.

(** X11 ([_fit_bandpass], lines 330-336).  When the solver raises, a
    RuntimeError is caught and the result is the one of
    [do_fit=False]; any other exception leaves [_fit_bandpass]. *)
Theorem fit_bandpass_catches_RuntimeError_only (np : numlib)
    (freq logamp sigma : list float) (band : string) (m : band_model) (e : exn) :
  select_band band = Ok m ->
  curve_fit np (bandpass_function m) freq logamp sigma (fit_bounds m) = Raise e ->
  _fit_bandpass np freq logamp sigma band true
  = match e with
    | RuntimeError => _fit_bandpass np freq logamp sigma band false
    | _ => Raise e
    end.
Proof.
  intros M C. unfold _fit_bandpass. rewrite M. cbn [bind]. cbv zeta.
  unfold fit_bounds in C. rewrite C. cbn [bind]. destruct e; reflexivity.
Qed.

Lemma fit_bandpass_catches_RuntimeError_only_witness :
  _fit_bandpass Small.numpy [40e6; 60e6]%float [0; 0]%float [1; 1]%float "lba" true
  = _fit_bandpass Small.numpy [40e6; 60e6]%float [0; 0]%float [1; 1]%float "lba" false.
Proof.
  apply (fit_bandpass_catches_RuntimeError_only Small.numpy [40e6; 60e6]%float
           [0; 0]%float [1; 1]%float "lba" band_lba RuntimeError); reflexivity.
Defined.

(** X12 ([_fit_bandpass], line 333).  When the solver returns as many
    parameters as the band has coefficients, [_fit_bandpass] returns
    them with the model bandpass they give, one value per frequency. *)
Theorem fit_bandpass_returns_fitted_model (np : numlib)
    (freq logamp sigma : list float) (band : string) (m : band_model) (popt : list float) :
  select_band band = Ok m ->
  curve_fit np (bandpass_function m) freq logamp sigma (fit_bounds m) = Ok popt ->
  List.length popt = List.length (init_coeffs m) ->
  exists ys,
    _fit_bandpass np freq logamp sigma band true = Ok (Some popt, ys) /\
    List.length ys = List.length freq.
Proof.
  intros M C L. unfold _fit_bandpass. rewrite M. cbn [bind]. cbv zeta.
  unfold fit_bounds in C. rewrite C. cbn [bind].
  destruct (band_model_ok band m freq popt M L) as [ys [Y Ly]].
  rewrite Y. cbn [bind]. exists ys. split; [reflexivity|exact Ly].
Qed.

Lemma fit_bandpass_returns_fitted_model_witness :
  exists ys,
    _fit_bandpass numpy_fitting [40e6; 60e6]%float [0; 0]%float [1; 1]%float "lba" true
    = Ok (Some (fst (fit_bounds band_lba)), ys) /\
    List.length ys = 2.
Proof.
  apply (fit_bandpass_returns_fitted_model numpy_fitting [40e6; 60e6]%float
           [0; 0]%float [1; 1]%float "lba" band_lba); reflexivity.
Defined.

(** X13 ([_fit_bandpass], lines 307-329).  For each band the bounds
    given to the solver are one pair per coefficient, each lower bound
    is strictly below its upper bound, and the initial coefficient lies
    between them. *)
Theorem fit_bounds_bracket_the_initial_coefficients (band : string) (m : band_model) :
  select_band band = Ok m -> bounds_bracket (init_coeffs m) (fit_bounds m) = true.
Proof.
  intros S. destruct (select_band_cases band m S) as [-> | ->]; by_evaluation.
Qed.

Lemma fit_bounds_bracket_the_initial_coefficients_witness :
  bounds_bracket (init_coeffs band_hba_low) (fit_bounds band_hba_low) = true.
Proof.
  apply (fit_bounds_bracket_the_initial_coefficients "HBA_low" band_hba_low). reflexivity.
Defined.

(** ** The bandpass flagger *)

(** X14 ([_flag_bandpass], lines 341-405).  When the telescope and the
    median frequency select a band, the band is one [_fit_bandpass]
    knows and the median limits are 50 and 200; and, on a frequency
    list with one entry per channel of the amplitudes, the preparation
    of any polarization (the time median, the model without fit, the
    normalisation) raises nothing and yields one amplitude and one
    sigma per channel, with [nsols_unflagged] at most the number of
    channels. *)
Theorem bandpass_preparation_never_fails (np : numlib) (freqs : list float)
    (amps weights : array3) (telescope band : string) (median_min median_max : float)
    (pol : nat) :
  bandpass_band np freqs telescope = inr (Ok (band, median_min, median_max)) ->
  List.length freqs = snd (fst (dims3 amps)) ->
  supported_band band = true /\ median_min = 50%float /\ median_max = 200%float /\
  exists amps_div sigma_div sigma_orig n,
    bandpass_prepare np freqs band (bandpass_amps_flagged amps weights)
                     (bandpass_sigma amps weights) pol
    = Ok (amps_div, sigma_div, sigma_orig, n) /\
    List.length amps_div = List.length freqs /\
    List.length sigma_div = snd (fst (dims3 weights)) /\
    List.length sigma_orig = snd (fst (dims3 weights)) /\
    n <= List.length freqs.
Proof.
  intros B L. destruct (bandpass_band_supported np _ _ _ _ _ B) as [S [Hmin Hmax]].
  split; [exact S|]. split; [exact Hmin|]. split; [exact Hmax|].
  destruct (bandpass_prepare_ok np freqs band (bandpass_amps_flagged amps weights)
              (bandpass_sigma amps weights) pol S L)
    as [amps_div [sigma_div [sigma_orig [n [E [La [Ls [Lo Hn]]]]]]]].
  exists amps_div, sigma_div, sigma_orig, n.
  split; [exact E|]. split; [exact La|]. split; [exact Ls|]. split; [exact Lo|exact Hn].
Qed.

Lemma bandpass_preparation_never_fails_witness :
  exists amps_div sigma_div sigma_orig n,
    bandpass_prepare Small.numpy [150e6]%float "hba_low"
                     (bandpass_amps_flagged (column3 [100]%float) (column3 [1]%float))
                     (bandpass_sigma (column3 [100]%float) (column3 [1]%float)) 0
    = Ok (amps_div, sigma_div, sigma_orig, n) /\
    List.length amps_div = 1 /\ List.length sigma_div = 1 /\
    List.length sigma_orig = 1 /\ n <= 1.
Proof.
  apply (bandpass_preparation_never_fails Small.numpy [150e6]%float (column3 [100]%float)
           (column3 [1]%float) "lofar" "hba_low" 50 200 0); reflexivity.
Defined.

(** X15 ([_flag_bandpass], "the flags are not time-dependent").  The
    flags a bandpass task adds are whole frequency channels: for each
    channel of each polarization, the weights the task leaves are at
    all times those it was given, or at all times zero. *)
Theorem bandpass_flags_whole_channels (np : numlib) (freqs : list float)
    (amps weights : array3) (telescope : string) (nSigma maxFlaggedFraction maxStddev : float)
    (plot : bool) (ants : list string) (s : nat) (outQueue : queue) :
  whole_columns weights
    (t_weights (_flag_bandpass np freqs amps weights telescope nSigma maxFlaggedFraction
                               maxStddev plot ants s outQueue)).
Proof.
  assert (Hsame : whole_columns weights weights).
  { intros f p. left. reflexivity. }
  unfold _flag_bandpass.
  destruct (bandpass_band np freqs telescope) as [[]|[[[band mmin] mmax]|e]];
    try exact Hsame.
  destruct (np_all3 is_zero weights); [exact Hsame|].
  set (body := bandpass_pol _ _ _ _ _ _ _ _ _ _ _ _ _).
  destruct (for_pols_columns body
              (fun q st => bandpass_pol_columns _ _ _ _ _ _ _ _ _ _ _ _ _ q st)
              (seq 0 (snd (dims3 amps))) (amps, weights) (seq_NoDup _ _)) as [_ C].
  destruct (for_pols _ _ _) as [[u|e] [amps' weights']]; exact C.
Qed.

(** ** The loop *)

(** X16 (the two [while] loops, lines 96-112 and 408-424, in closed
    form).  The loop makes one round; if that round finds no bad point
    or finds every unflagged point bad it ends there, with the mask it
    started from.  Otherwise it makes a second round on the mask reset
    to the original with the bad points of the first round flagged, and
    ends: with that same mask when the second round's count is 0 or
    all, and with the mask reset from the second round otherwise.  A
    round that raises ends the loop with its exception. *)
Theorem clip_loops_in_closed_form (np : numlib) :
  (forall nSigma maxStddev weights_orig vals_flagged n,
      resid_loop np nSigma maxStddev weights_orig vals_flagged n
      = (r1 <- resid_round np nSigma maxStddev vals_flagged weights_orig ;;
         let n1 := List.length (rr_bad r1) in
         if degenerate n n1
         then Ok (mkLoop 0 (Z.of_nat n1) (-1)%Z weights_orig (Some r1) [n1])
         else
           let mask1 := assign_at (rr_bad r1) 0%float weights_orig in
           r2 <- resid_round np nSigma maxStddev vals_flagged mask1 ;;
           let n2 := List.length (rr_bad r2) in
           if degenerate n n2
           then Ok (mkLoop 1 (Z.of_nat n2) (-1)%Z mask1 (Some r2) [n2; n1])
           else Ok (mkLoop 2 (Z.of_nat n2) (Z.of_nat n2)
                           (assign_at (rr_bad r2) 0%float weights_orig) (Some r2)
                           [n2; n1]))) /\
  (forall freqs band nSigma maxStddev amps_div sigma_div sigma_orig n,
      bandpass_loop np freqs band nSigma maxStddev amps_div sigma_div sigma_orig n
      = (r1 <- bandpass_round np freqs band nSigma maxStddev amps_div sigma_div ;;
         let n1 := List.length (br_bad r1) in
         if degenerate n n1
         then Ok (mkLoop 0 (Z.of_nat n1) (-1)%Z sigma_div (Some r1) [n1])
         else
           let sigma1 := assign1 (br_bad r1) 1e8%float sigma_orig in
           r2 <- bandpass_round np freqs band nSigma maxStddev amps_div sigma1 ;;
           let n2 := List.length (br_bad r2) in
           if degenerate n n2
           then Ok (mkLoop 1 (Z.of_nat n2) (-1)%Z sigma1 (Some r2) [n2; n1])
           else Ok (mkLoop 2 (Z.of_nat n2) (Z.of_nat n2)
                           (assign1 (br_bad r2) 1e8%float sigma_orig) (Some r2)
                           [n2; n1]))).
Proof.
  split; intros; [unfold resid_loop|unfold bandpass_loop]; apply run_clip_loop_closed.
Qed.

(** ** The resid flagger *)

(** X17 ([_flag_resid], lines 68-72).  When a resid task returns, every
    solution of the slice whose value is NaN - or, for any type but
    phase, zero or negative - has weight zero. *)
Theorem resid_flags_bad_solutions (np : numlib) (vals weights : array3) (soltype : string)
    (nSigma maxFlaggedFraction maxStddev : float) (ants : list string) (s : nat)
    (outQueue : queue) (ret : option Z) (t f pol : nat) :
  let e := _flag_resid np vals weights soltype nSigma maxFlaggedFraction maxStddev
                       ants s outQueue in
  dims3 weights = dims3 vals ->
  t_result e = Ok ret ->
  t < fst (fst (dims3 vals)) -> f < snd (fst (dims3 vals)) -> pol < snd (dims3 vals) ->
  bad_solution soltype (get3 vals t f pol) = true ->
  is_zero (get3 (t_weights e) t f pol) = true.
Proof.
  cbv zeta. intros Hd Hret Ht Hf Hp Hb.
  destruct (np_all3 is_zero weights) eqn:A.
  - unfold _flag_resid. rewrite A. cbn [t_weights].
    apply (np_all3_get is_zero weights t f pol A); rewrite Hd; assumption.
  - destruct (flag_resid_pol_alone np vals weights soltype nSigma maxFlaggedFraction
                maxStddev ants s outQueue pol ret A Hp Hret) as [_ [_ W]].
    cbn [fst snd] in W. rewrite <- get2_slice_pol, W.
    apply resid_pol_flags_bad; cbn [fst]; rewrite ?dims2_slice_pol, ?get2_slice_pol;
      assumption.
Qed.

Lemma resid_flags_bad_solutions_witness :
  is_zero (get3 (t_weights (resid_default (column3 [1; -1; 1]%float) (column3 (ones 3)))) 1 0 0)
  = true.
Proof.
  apply (resid_flags_bad_solutions Small.numpy (column3 [1; -1; 1]%float) (column3 (ones 3))
           "amplitude" 5 0.5 0.02 ["CS001"%string] 0 [] None 1 0 0);
    try by_evaluation; simpl; lia.
Defined.

(** X18 ([_flag_resid] on amplitudes, lines 73-92).  When a resid task
    on amplitudes returns, the value slice holds, in a polarization
    that was skipped as fully flagged, the amplitudes it was given,
    and in any other polarization the decimal logarithm of the
    amplitude where the solution was unflagged and good, and 0.0 where
    it was flagged or bad. *)
Theorem resid_amplitude_value_slice (np : numlib) (vals weights : array3)
    (nSigma maxFlaggedFraction maxStddev : float) (ants : list string) (s : nat)
    (outQueue : queue) (ret : option Z) (t f pol : nat) :
  let e := _flag_resid np vals weights "amplitude" nSigma maxFlaggedFraction maxStddev
                       ants s outQueue in
  dims3 weights = dims3 vals ->
  t_result e = Ok ret ->
  t < fst (fst (dims3 vals)) -> f < snd (fst (dims3 vals)) -> pol < snd (dims3 vals) ->
  get3 (t_vals e) t f pol
  = if pol_skipped "amplitude" (slice_pol vals pol) (slice_pol weights pol)
    then get3 vals t f pol
    else if flagged_before_loop "amplitude" (slice_pol vals pol) (slice_pol weights pol) t f
         then 0%float
         else np_log10 np (get3 vals t f pol).
Proof.
  cbv zeta. intros Hd Hret Ht Hf Hp.
  destruct (np_all3 is_zero weights) eqn:A.
  - unfold _flag_resid. rewrite A. cbn [t_vals].
    rewrite np_all3_pol_skipped; [reflexivity|rewrite Hd; exact Hp|exact A].
  - destruct (flag_resid_pol_alone np vals weights "amplitude" nSigma maxFlaggedFraction
                maxStddev ants s outQueue pol ret A Hp Hret) as [_ [V _]].
    cbn [fst snd] in V. rewrite <- get2_slice_pol, V, resid_pol_vals. cbn [fst snd].
    rewrite resid_prepare_amplitude_vals;
      rewrite ?dims2_slice_pol, ?get2_slice_pol, ?Hd; try assumption; reflexivity.
Qed.

Lemma resid_amplitude_value_slice_witness :
  get3 (t_vals (resid_default vals_ex weights_ex)) 3 0 0 = Small.log10 10.
Proof.
  apply (resid_amplitude_value_slice Small.numpy vals_ex weights_ex 5 0.5 0.02
           ["CS001"%string] 0 [] None 3 0 0); try by_evaluation; simpl; lia.
Defined.

(** X19 ([_flag_resid], the polarizations are independent).  Of two
    stations that are not fully flagged and agree in one polarization -
    values and weights - two resid tasks with the same parameters that
    return leave that polarization the same, whatever the other
    polarizations hold. *)
Theorem resid_polarizations_are_independent (np : numlib)
    (vals weights vals' weights' : array3) (soltype : string)
    (nSigma maxFlaggedFraction maxStddev : float) (ants ants' : list string) (s s' : nat)
    (outQueue outQueue' : queue) (ret ret' : option Z) (pol : nat) :
  let e := _flag_resid np vals weights soltype nSigma maxFlaggedFraction maxStddev
                       ants s outQueue in
  let e' := _flag_resid np vals' weights' soltype nSigma maxFlaggedFraction maxStddev
                        ants' s' outQueue' in
  same_pol pol (vals, weights) (vals', weights') ->
  np_all3 is_zero weights = false -> np_all3 is_zero weights' = false ->
  pol < snd (dims3 vals) -> pol < snd (dims3 vals') ->
  t_result e = Ok ret -> t_result e' = Ok ret' ->
  same_pol pol (t_vals e, t_weights e) (t_vals e', t_weights e').
Proof.
  cbv zeta. intros H A A' Hp Hp' Hr Hr'.
  pose proof (flag_resid_pol_alone np vals weights soltype nSigma maxFlaggedFraction
                maxStddev ants s outQueue pol ret A Hp Hr) as P.
  pose proof (flag_resid_pol_alone np vals' weights' soltype nSigma maxFlaggedFraction
                maxStddev ants' s' outQueue' pol ret' A' Hp' Hr') as P'.
  destruct P as [[u U] P], P' as [[u' U'] P'].
  destruct (resid_pol_ext np soltype nSigma maxFlaggedFraction maxStddev ants s pol _ _ H)
    as [F X].
  rewrite F in U.
  rewrite (resid_pol_station np soltype nSigma maxFlaggedFraction maxStddev ants ants' s s'
             pol (vals', weights') u u' U U') in X.
  eapply same_pol_trans; [exact P|]. eapply same_pol_trans; [exact X|].
  apply same_pol_sym. exact P'.
Qed.

Lemma resid_polarizations_are_independent_witness :
  same_pol 0
    (t_vals (resid_default (two_pols amps_ex (ones 6)) (two_pols (ones 6) (ones 6))),
     t_weights (resid_default (two_pols amps_ex (ones 6)) (two_pols (ones 6) (ones 6))))
    (t_vals (resid_default (two_pols amps_ex amps_ex) (two_pols (ones 6) (ones 6))),
     t_weights (resid_default (two_pols amps_ex amps_ex) (two_pols (ones 6) (ones 6)))).
Proof.
  apply (resid_polarizations_are_independent Small.numpy
           (two_pols amps_ex (ones 6)) (two_pols (ones 6) (ones 6))
           (two_pols amps_ex amps_ex) (two_pols (ones 6) (ones 6))
           "amplitude" 5 0.5 0.02 ["CS001"%string] ["CS001"%string] 0 0 [] [] None None 0);
    try by_evaluation; try (simpl; lia).
  split; reflexivity.
Defined.

(** X20 (fully flagged and empty stations, lines 58-61 and 360-363).  A
    station slice whose weights are all zero - in particular one
    without times, channels or polarizations - is put on the queue as
    it is by the resid task, which returns None; the bandpass task
    does the same once the telescope and the median frequency have
    selected a band. *)
Theorem fully_flagged_station_is_skipped (np : numlib) (vals weights : array3) :
  (forall t f p, t < fst (fst (dims3 weights)) -> f < snd (fst (dims3 weights)) ->
                 p < snd (dims3 weights) -> is_zero (get3 weights t f p) = true) ->
  (forall soltype nSigma maxFlaggedFraction maxStddev ants s outQueue,
      _flag_resid np vals weights soltype nSigma maxFlaggedFraction maxStddev ants s outQueue
      = mkEnd (Ok None) vals weights (outQueue ++ [(s, weights)])) /\
  (forall freqs telescope nSigma maxFlaggedFraction maxStddev plot ants s outQueue band
          median_min median_max,
      bandpass_band np freqs telescope = inr (Ok (band, median_min, median_max)) ->
      _flag_bandpass np freqs vals weights telescope nSigma maxFlaggedFraction maxStddev
                     plot ants s outQueue
      = mkEnd (Ok None) vals weights (outQueue ++ [(s, weights)])).
Proof.
  intros Z.
  assert (A : np_all3 is_zero weights = true).
  { unfold np_all3. destruct (dims3 weights) as [[nt nf] npol]. simpl in Z.
    apply forallb_forall. intros [t f] Hi. apply in_indices2 in Hi as [Ht Hf].
    apply forallb_forall. intros p Hp. apply in_seq in Hp. apply Z; simpl in *; lia. }
  split.
  - intros. unfold _flag_resid. rewrite A. reflexivity.
  - intros. unfold _flag_bandpass. rewrite H, A. reflexivity.
Qed.

Lemma fully_flagged_station_is_skipped_witness :
  _flag_resid Small.numpy (column3 []) (column3 []) "phase" 5 0.5 0.1 [] 0 []
  = mkEnd (Ok None) (column3 []) (column3 []) [(0, column3 [])].
Proof.
  apply (proj1 (fully_flagged_station_is_skipped Small.numpy (column3 []) (column3 [])
                  ltac:(simpl; intros; lia))).
Defined.

(** X21 ([_flag_bandpass], lines 446-459: the extreme-median gate).
    When the first two gates let a polarization pass, the channels the
    loop left with a sigma above 1e3 are flagged at all times, and the
    median that decides the third gate is taken over the amplitudes of
    all polarizations - one per polarization for each time and channel
    where the weight of this polarization is still positive.  The
    polarization is zeroed when that median lies below the lower or
    above the upper limit, and keeps the channel flags otherwise. *)
Theorem median_gate_reads_all_polarizations (np : numlib) (amps : array3)
    (nSigma maxFlaggedFraction maxStddev median_min median_max : float)
    (ants : list string) (s : nat) (pol : nat) (weights : array3) (nsols_unflagged : nat)
    (st : loop_state (list float) bandpass_round_out) (r : bandpass_round_out)
    (frac : float) :
  last_round st = Some r ->
  (nSigma * maxStddev <? br_stdev_all r)%float = false ->
  py_div (py_float (List.length (br_bad r))) (py_float nsols_unflagged) = Ok frac ->
  (maxFlaggedFraction <? frac)%float = false ->
  s < List.length ants ->
  let channels :=
    fill_freqs weights (where1 (fun sg => (1e3 <? sg)%float) (trial st)) pol 0%float in
  let sample :=
    flat_map (fun tf => map (fun p => get3 amps (fst tf) (snd tf) p)
                            (seq 0 (snd (dims3 amps))))
             (np_where2 (fun t f => (0 <? get3 channels t f pol)%float)
                        (fst (dims3 weights))) in
  let median_val := np_nanmedian np sample in
  List.length sample
  = List.length (np_where2 (fun t f => (0 <? get3 channels t f pol)%float)
                           (fst (dims3 weights))) * snd (dims3 amps) /\
  bandpass_commit np amps nSigma maxFlaggedFraction maxStddev median_min median_max ants s
                  pol weights nsols_unflagged st
  = (Ok tt, if ((median_val <? median_min) || (median_max <? median_val))%float
            then fill_pol channels pol 0%float else channels).
Proof.
  intros Hl Hs Hf Hm Ha. cbv zeta. split.
  - induction (np_where2 _ _) as [|tf rest IH]; [reflexivity|].
    cbn [flat_map List.length]. rewrite length_app, length_map, length_seq, IH. lia.
  - unfold bandpass_commit. rewrite Hl, Hs, Hf, Hm. cbv zeta.
    assert (E : amps_where_positive amps
                  (fill_freqs weights (where1 (fun sg => (1e3 <? sg)%float) (trial st)) pol
                              0%float) pol
                = flat_map (fun tf => map (fun p => get3 amps (fst tf) (snd tf) p)
                                          (seq 0 (snd (dims3 amps))))
                    (np_where2
                       (fun t f =>
                          (0 <? get3 (fill_freqs weights
                                        (where1 (fun sg => (1e3 <? sg)%float) (trial st))
                                        pol 0%float) t f pol)%float)
                       (fst (dims3 weights)))).
    { unfold amps_where_positive, slice_pol. cbv zeta. cbn [fill_freqs dims3].
      destruct (dims3 weights) as [[nt nf] npol]. reflexivity. }
    rewrite E.
    destruct (_ || _); apply logged_known_station, Ha.
Qed.

(** Two polarizations, one time and one channel: the amplitude 100 of
    the first lies within the limits, yet the median over both, 5050,
    does not, and the first polarization is zeroed. *)
Lemma median_gate_reads_all_polarizations_witness :
  is_zero (get3 (snd (bandpass_commit Small.numpy (two_pols [100]%float [10000]%float)
                        5 0.5 0.01 50 200 ["CS001"%string] 0 0
                        (two_pols [1]%float [1]%float) 1
                        (mkLoop 0 0%Z (-1)%Z [1%float] (Some (mkBRound None [] 0%float []))
                                [0])))
                0 0 0) = true.
Proof.
  rewrite (proj2 (median_gate_reads_all_polarizations Small.numpy
                    (two_pols [100]%float [10000]%float) 5 0.5 0.01 50 200
                    ["CS001"%string] 0 0 (two_pols [1]%float [1]%float) 1
                    (mkLoop 0 0%Z (-1)%Z [1%float] (Some (mkBRound None [] 0%float [])) [0])
                    (mkBRound None [] 0%float []) 0%float
                    eq_refl eq_refl eq_refl eq_refl (Nat.lt_0_succ 0))).
  reflexivity.
Defined.

(** X22 ([run], lines 535-538 and 559-570).  A run that returns 0 has
    handed the runner one task per station - in resid mode on a table
    with a direction axis, one per station and direction. *)
Theorem run_submits_one_task_per_station (np : numlib)
    (transfer_flags : flag_export) (bandpass_on_directions : directions_flagger)
    (soltab : Soltab) (mode : option string) (maxFlaggedFraction nSigma : float)
    (telescope refAnt soltabExport : string) (ncpu : nat) :
  r_status (run np transfer_flags bandpass_on_directions soltab mode maxFlaggedFraction
                nSigma telescope refAnt soltabExport ncpu) = Ok 0%Z ->
  List.length (r_submitted (run np transfer_flags bandpass_on_directions soltab mode
                                maxFlaggedFraction nSigma telescope refAnt soltabExport
                                ncpu))
  = tasks_expected soltab mode.
Proof.
  unfold run, tasks_expected. cbv zeta.
  destruct (match mode with None => true | Some m => _ end); [discriminate|].
  destruct (_ || _); [discriminate|].
  destruct (transpose _ _ (st_val soltab)) as [vals|e]; [|discriminate].
  destruct (transpose _ _ (st_weight soltab)) as [weights|e]; [|discriminate].
  destruct (match mode with Some m => (m =? "bandpass")%string | None => false end).
  - destruct (negb (st_type soltab =? "amplitude")%string); [discriminate|].
    destruct (mpm_run np _ _ []) as [results|e]; [|discriminate].
    intros _. rewrite write_back_submitted, length_map, length_seq. lia.
  - destruct (negb (str_in (st_type soltab) _)); [discriminate|].
    destruct (resid_directions _ _ _ _ _ _ _ _ _ _ _) as [[w'|e] sub] eqn:E; [|discriminate].
    intros _. rewrite write_back_submitted. apply resid_directions_count in E.
    rewrite E. simpl.
    destruct (str_in "dir" (st_axes soltab)); [rewrite length_seq|simpl]; lia.
Qed.

Lemma run_submits_one_task_per_station_witness :
  List.length (r_submitted (run_default table_nan "resid")) = 1.
Proof.
  apply (run_submits_one_task_per_station Small.numpy no_transfer no_directions table_nan
           (Some "resid"%string) 0.5 5 "lofar" "" "" 0).
  by_evaluation.
Defined.

(** X23 ([_flag_resid], lines 118-119 and 126-127: the station name of
    the log messages).  Each polarization that goes through the loop
    ends in a log message that reads [ants[s]].  So a resid task whose
    station index lies outside its station list returns only when every
    polarization was skipped as fully flagged: any other polarization
    ends the task with an exception. *)
Theorem resid_task_reads_its_station_name (np : numlib) (vals weights : array3)
    (soltype : string) (nSigma maxFlaggedFraction maxStddev : float) (ants : list string)
    (s : nat) (outQueue : queue) (ret : option Z) (pol : nat) :
  List.length ants <= s ->
  dims3 weights = dims3 vals ->
  pol < snd (dims3 vals) ->
  t_result (_flag_resid np vals weights soltype nSigma maxFlaggedFraction maxStddev
                        ants s outQueue) = Ok ret ->
  pol_skipped soltype (slice_pol vals pol) (slice_pol weights pol) = true.
Proof.
  intros Hs Hd Hp Hret.
  destruct (np_all3 is_zero weights) eqn:A.
  - apply np_all3_pol_skipped; [rewrite Hd; exact Hp|exact A].
  - destruct (flag_resid_pol_alone np vals weights soltype nSigma maxFlaggedFraction
                maxStddev ants s outQueue pol ret A Hp Hret) as [[u U] _].
    apply (resid_pol_unknown_station np soltype nSigma maxFlaggedFraction maxStddev ants s
             pol vals weights u Hs); [|exact U].
    rewrite !dims2_slice_pol, Hd. reflexivity.
Qed.

(** A station of one NaN phase with weight 1 and an empty station
    list: the task returns, the polarization is skipped. *)
Lemma resid_task_reads_its_station_name_witness :
  t_result (_flag_resid Small.numpy (column3 [nan]) (column3 [1]%float) "phase" 5 0.5 0.1
                        [] 0 []) = Ok None /\
  pol_skipped "phase" (slice_pol (column3 [nan]) 0) (slice_pol (column3 [1]%float) 0) = true.
Proof.
  split; [by_evaluation|].
  apply (resid_task_reads_its_station_name Small.numpy (column3 [nan]) (column3 [1]%float)
           "phase" 5 0.5 0.1 [] 0 [] None 0).
  - simpl. lia.
  - reflexivity.
  - simpl. lia.
  - by_evaluation.
Defined.

(** X24 ([run], lines 536-538, 562-563, 569-570).  Every task [run]
    hands to the runner carries the [nSigma] and [maxFlaggedFraction]
    of the call, the station list of the table and the index of one of
    its stations; a bandpass task carries the frequencies of the table,
    the telescope of the call and never a request for a plot; a resid
    task carries the values of its station in one direction. *)
Theorem run_tasks_carry_the_call (np : numlib)
    (transfer_flags : flag_export) (bandpass_on_directions : directions_flagger)
    (soltab : Soltab) (mode : option string) (maxFlaggedFraction nSigma : float)
    (telescope refAnt soltabExport : string) (ncpu : nat) :
  Forall (task_of_call soltab telescope maxFlaggedFraction nSigma)
         (r_submitted (run np transfer_flags bandpass_on_directions soltab mode
                           maxFlaggedFraction nSigma telescope refAnt soltabExport ncpu)).
Proof.
  set (P := task_of_call soltab telescope maxFlaggedFraction nSigma).
  unfold run. cbv zeta.
  destruct (match mode with None => true | Some m => _ end); [constructor|].
  destruct (_ || _); [constructor|].
  destruct (transpose _ _ (st_val soltab)) as [vals|e] eqn:Tv; [|constructor].
  destruct (transpose _ _ (st_weight soltab)) as [weights|e]; [|constructor].
  apply transpose_returns in Tv.
  destruct (match mode with Some m => (m =? "bandpass")%string | None => false end).
  - destruct (negb (st_type soltab =? "amplitude")%string); [constructor|].
    assert (Ht : forall (fa fw : nat -> station_slice),
               Forall P
                 (map (fun s => BandpassTask (st_freq soltab) (fa s) (fw s)
                                  telescope nSigma maxFlaggedFraction 0.01%float false
                                  (st_ant soltab) s)
                      (seq 0 (List.length (st_ant soltab))))).
    { intros fa fw. apply Forall_map, Forall_forall. intros s Hin. apply in_seq in Hin.
      unfold P. simpl. repeat split; lia. }
    destruct (mpm_run np _ _ []) as [results|e]; [|apply Ht].
    rewrite write_back_submitted. apply Ht.
  - destruct (negb (str_in (st_type soltab) _)); [constructor|].
    pose proof (resid_directions_tasks np bandpass_on_directions P (st_type soltab) nSigma
                  maxFlaggedFraction
                  (if (st_type soltab =? "phase")%string then 0.1%float else 0.02%float)
                  soltab vals) as S.
    assert (HP : forall d w s, s < List.length (st_ant soltab) ->
               P (ResidTask (slice_station vals s d) w (st_type soltab) nSigma
                    maxFlaggedFraction
                    (if (st_type soltab =? "phase")%string then 0.1%float else 0.02%float)
                    (st_ant soltab) s)).
    { intros d w s Hs. unfold P. simpl.
      split; [exists d; rewrite Tv; reflexivity|]. repeat split. exact Hs. }
    specialize (S HP
                  (if str_in "dir" (st_axes soltab)
                   then seq 0 (List.length (st_dir soltab)) else [0])
                  (flag_nans vals weights) [] (Forall_nil _)).
    destruct (resid_directions _ _ _ _ _ _ _ _ _ _ _) as [[w'|e] sub]; simpl in S;
      [rewrite write_back_submitted|]; exact S.
Qed.

(** ** The flags of a task and of the merged weights *)

(** X25 (the flaggers only add flags).  The weight slice either flagger
    leaves has every zero of the slice it was given, and is what the
    flagger has put on the queue when it returns; a flagger that raises
    has put nothing. *)
Theorem flaggers_keep_flags (np : numlib) :
  (forall vals weights soltype nSigma maxFlaggedFraction maxStddev ants s outQueue,
      let e := _flag_resid np vals weights soltype nSigma maxFlaggedFraction maxStddev
                           ants s outQueue in
      keeps_flags3 weights (t_weights e) /\ puts_its_weights s outQueue e) /\
  (forall freqs amps weights telescope nSigma maxFlaggedFraction maxStddev plot ants s
          outQueue,
      let e := _flag_bandpass np freqs amps weights telescope nSigma maxFlaggedFraction
                              maxStddev plot ants s outQueue in
      keeps_flags3 weights (t_weights e) /\ puts_its_weights s outQueue e).
Proof.
  split; intros; cbv zeta; split.
  - apply flag_resid_keeps_flags.
  - apply flag_resid_queue.
  - apply flag_bandpass_keeps_flags.
  - apply flag_bandpass_queue.
Qed.

(** X26 ([_flag_bandpass], lines 341-358, and [_fit_bandpass], lines
    322-324: the configuration errors inside a task).  On a telescope
    other than lofar the bandpass task puts its weight slice on the
    queue as it was given and returns 1.  On a median frequency
    outside both bands it leaves with [sys.exit(1)] and has put
    nothing; so does [_fit_bandpass] on a band it does not know. *)
Theorem bandpass_task_configuration_errors (np : numlib) :
  (forall freqs amps weights telescope nSigma maxFlaggedFraction maxStddev plot ants s
          outQueue,
      (lower telescope =? "lofar")%string = false ->
      _flag_bandpass np freqs amps weights telescope nSigma maxFlaggedFraction maxStddev
                     plot ants s outQueue
      = mkEnd (Ok (Some 1%Z)) amps weights (outQueue ++ [(s, weights)])) /\
  (forall freqs amps weights telescope nSigma maxFlaggedFraction maxStddev plot ants s
          outQueue,
      (lower telescope =? "lofar")%string = true ->
      outside_bands (np_median np freqs) = true ->
      _flag_bandpass np freqs amps weights telescope nSigma maxFlaggedFraction maxStddev
                     plot ants s outQueue
      = mkEnd (Raise (SystemExit 1)) amps weights outQueue) /\
  (forall freq logamp sigma band do_fit,
      (lower band =? "hba_low")%string = false ->
      (lower band =? "lba")%string = false ->
      _fit_bandpass np freq logamp sigma band do_fit = Raise (SystemExit 1)).
Proof.
  split; [|split].
  - intros. apply bandpass_unsupported_telescope. assumption.
  - intros. apply bandpass_outside_bands; assumption.
  - intros. apply fit_bandpass_unsupported_band; assumption.
Qed.

(** A median frequency of 250 MHz: the task leaves with status 1. *)
Lemma bandpass_task_configuration_errors_witness :
  _flag_bandpass Small.numpy [250e6%float] (column3 [1]%float) (column3 [1]%float) "LOFAR"
                 5 0.5 0.01 false ["CS001"%string] 0 []
  = mkEnd (Raise (SystemExit 1)) (column3 [1]%float) (column3 [1]%float) [].
Proof.
  apply (proj1 (proj2 (bandpass_task_configuration_errors Small.numpy))); reflexivity.
Defined.

(** X27 ([run], lines 518-543 and 559-573: the weights before they are
    written back).  A run without export that returns 0 has given the
    table the array it merged from the results of the tasks, transposed
    with the axes of lines 512-522; and that array, in the order
    [time, ant, freq, pol(, dir)], has every zero of the table's
    weights in that order. *)
Theorem merged_weights_keep_flags (np : numlib)
    (transfer_flags : flag_export) (bandpass_on_directions : directions_flagger)
    (soltab : Soltab) (mode : option string) (maxFlaggedFraction nSigma : float)
    (telescope refAnt : string) (ncpu : nat) :
  let r := run np transfer_flags bandpass_on_directions soltab mode maxFlaggedFraction
               nSigma telescope refAnt "" ncpu in
  r_status r = Ok 0%Z ->
  exists w,
    st_weight (r_soltab r) = transposed (run_axes (st_axes soltab)) w /\
    pointwise5 flag_kept (transposed (run_axes (st_axes soltab)) (st_weight soltab)) w.
Proof.
  cbv zeta. intros H0.
  destruct (run_outcomes flag_kept flag_kept_refl flag_kept_trans flag_kept_zero
              np transfer_flags bandpass_on_directions soltab mode maxFlaggedFraction nSigma
              telescope refAnt "" ncpu)
    as [Hr Hor E|e E0 Hor Es Et|w Hr Hfit Hd K E].
  - rewrite E in H0. discriminate.
  - rewrite Es in H0. discriminate.
  - unfold exported in E. change ("" =? "")%string with true in E. cbv iota in E.
    injection E as _ Et. exists w. rewrite Et. split; [reflexivity|].
    intros i0 i1 i2 i3 i4. eapply flag_kept_trans; [|apply K].
    unfold run_weights, flag_nans. cbn [get5].
    destruct (PrimFloat.is_nan _); [apply flag_kept_zero|apply flag_kept_refl].
Qed.

(** The table stored as [freq, time, ant, pol]: the merged weights have
    the flag of the table, at its place in the order of the tasks. *)
Lemma merged_weights_keep_flags_witness :
  exists w,
    st_weight (r_soltab run_stored) = transposed (run_axes (st_axes table_stored)) w /\
    pointwise5 flag_kept (transposed (run_axes (st_axes table_stored))
                                     (st_weight table_stored)) w.
Proof.
  apply (merged_weights_keep_flags Small.numpy no_transfer no_directions table_stored
           (Some "resid"%string) 0.5 5 "lofar" "" 0).
  by_evaluation.
Defined.
